(** * Football prediction pipeline: feature engineering, training,
      prediction and the model registry endpoints

    A shallow embedding of [backend/app/ml/feature_engineering.py],
    [backend/app/ml/trainer.py], [backend/app/ml/predictor.py], the model
    endpoints of [backend/app/api/ml.py] and the three SQLAlchemy models
    they use.  Python exceptions are values of [PyExc]; a function that may
    raise returns a [result].  The database session and the model directory
    are explicit state.  Everything scikit-learn, xgboost and torch compute
    is behind the [MLLibrary] interface. *)

From Stdlib Require Import ZArith String Ascii List.
From Stdlib Require Import Floats.PrimFloat Uint63.
From stdpp Require Import base option list strings gmap pretty sorting.

Local Open Scope string_scope.
Set Warnings "-inexact-float".

(** ** Exceptions *)

(** The exception classes the pipeline raises itself or receives from
    pandas and the database driver. [PlainException] is Python's
    [Exception] base class, raised as such by [predict_match]. *)
Inductive ExcClass :=
  | ValueError | KeyError | IndexError | TypeError | AttributeError
  | IntegrityError | PlainException.

(** [Exc cls text]: an exception of class [cls] with [str(e) = text].
    FastAPI's [HTTPException] carries a status code and a detail. *)
Inductive PyExc :=
  | Exc (cls : ExcClass) (text : string)
  | HTTPException (status_code : Z) (detail : string).

(** [str(e)]; for an [HTTPException] Starlette prints the status code,
    a colon and the detail. *)
Definition str (e : PyExc) : string :=
  match e with
  | Exc _ text => text
  | HTTPException status_code detail => pretty status_code ++ ": " ++ detail
  end.

Inductive result (A : Type) :=
  | Return (a : A)
  | Raise (e : PyExc).
Arguments Return {A} a.
Arguments Raise {A} e.

#[export] Instance result_ret : MRet result := fun A a => Return a.
#[export] Instance result_bind : MBind result := fun A B f m =>
  match m with
  | Return a => f a
  | Raise e => Raise e
  end.

(** ** Dates *)

Module Datetime.

Record t := mk {
  year : Z; month : Z; day : Z;
  hour : Z; minute : Z; second : Z; microsecond : Z
}.

(** Calendar arithmetic as in CPython's [datetime] module, which pandas'
    [dt.dayofweek] agrees with (Monday is 0). *)
Definition is_leap (y : Z) : bool :=
  ((y mod 4 =? 0) && (negb (y mod 100 =? 0) || (y mod 400 =? 0)))%Z.

Definition days_before_year (y : Z) : Z :=
  let y' := (y - 1)%Z in (y' * 365 + y' / 4 - y' / 100 + y' / 400)%Z.

Definition days_before_month_table : list Z :=
  [0; 31; 59; 90; 120; 151; 181; 212; 243; 273; 304; 334]%Z.

Definition days_before_month (y m : Z) : Z :=
  (nth (Z.to_nat (m - 1)) days_before_month_table 0
   + (if (2 <? m) && is_leap y then 1 else 0))%Z.

Definition toordinal (d : t) : Z :=
  (days_before_year (year d) + days_before_month (year d) (month d) + day d)%Z.

Definition weekday (d : t) : Z := ((toordinal d + 6) mod 7)%Z.

(** Microseconds since 0001-01-01: the key of chronological order. *)
Definition timestamp (d : t) : Z :=
  (((((toordinal d * 24 + hour d) * 60 + minute d) * 60 + second d)
    * 1000000) + microsecond d)%Z.

(** [n] in decimal, left-padded with zeros to [width] digits. *)
Definition zero_pad (width : nat) (n : Z) : string :=
  let s := pretty n in
  String.concat "" (replicate (width - String.length s) "0") ++ s.

(** [strftime("%Y%m%d_%H%M%S")] *)
Definition strftime_version (d : t) : string :=
  zero_pad 4 (year d) ++ zero_pad 2 (month d) ++ zero_pad 2 (day d) ++ "_"
  ++ zero_pad 2 (hour d) ++ zero_pad 2 (minute d) ++ zero_pad 2 (second d).

(** [isoformat()] *)
Definition isoformat (d : t) : string :=
  zero_pad 4 (year d) ++ "-" ++ zero_pad 2 (month d) ++ "-" ++ zero_pad 2 (day d)
  ++ "T" ++ zero_pad 2 (hour d) ++ ":" ++ zero_pad 2 (minute d) ++ ":"
  ++ zero_pad 2 (second d)
  ++ (if (microsecond d =? 0)%Z then "" else "." ++ zero_pad 6 (microsecond d)).

End Datetime.

(** ** The database tables ([app/models]) *)

Module Match.
(** [home_team_name] and [away_team_name] stand for [home_team.name]
    and [away_team.name], reached through the two relationships. *)
Record t := mk {
  id : Z;
  home_team_id : Z;
  away_team_id : Z;
  league : string;
  season : string;
  match_date : Datetime.t;
  home_score : option Z;
  away_score : option Z;
  home_team_name : string;
  away_team_name : string
}.

(** The [result] property: ["H"], ["A"] or ["D"], [None] without both
    scores. *)
Definition result (m : t) : option string :=
  match home_score m, away_score m with
  | Some h, Some a =>
      if (a <? h)%Z then Some "H"
      else if (h <? a)%Z then Some "A"
      else Some "D"
  | _, _ => None
  end.
End Match.

Module Prediction.
Record t := mk {
  id : Z;
  match_id : Z;
  model_name : string;
  model_version : option string;
  predicted_outcome : string;
  predicted_home_score : Z;
  predicted_away_score : Z;
  home_win_probability : float;
  draw_probability : float;
  away_win_probability : float;
  overall_confidence : float;
  prediction_features : string;
  model_metadata : string
}.
End Prediction.

Module ModelPerformance.
Record t := mk {
  id : Z;
  model_name : string;
  model_version : string;
  accuracy : float;
  precision_home : float;
  precision_draw : float;
  precision_away : float;
  recall_home : float;
  recall_draw : float;
  recall_away : float;
  f1_score_home : float;
  f1_score_draw : float;
  f1_score_away : float;
  training_samples : Z;
  test_samples : Z;
  training_duration_seconds : float;
  model_parameters : string;
  training_date : Datetime.t;
  is_active : bool;
  is_best_model : bool
}.

Definition set_is_active (b : bool) (r : t) : t :=
  mk (id r) (model_name r) (model_version r) (accuracy r)
     (precision_home r) (precision_draw r) (precision_away r)
     (recall_home r) (recall_draw r) (recall_away r)
     (f1_score_home r) (f1_score_draw r) (f1_score_away r)
     (training_samples r) (test_samples r) (training_duration_seconds r)
     (model_parameters r) (training_date r) b (is_best_model r).
End ModelPerformance.

(** The three tables a session reads and writes, in storage order. *)
Record Session := mkSession {
  matches : list Match.t;
  predictions : list Prediction.t;
  model_performance : list ModelPerformance.t
}.

(** The primary key the database gives to a new row. *)
Definition next_id (ids : list Z) : Z := (foldr Z.max 0 ids + 1)%Z.

(** ** Data frames

    A pandas column has one dtype.  [Float64] holds NaN as the float
    [nan]; [Datetime64] holds NaT as [None]; an [Object] column holds
    Python objects. *)

Inductive PyObj :=
  | OInt (z : Z)
  | OFloat (x : float)
  | OStr (s : string)
  | ODatetime (d : Datetime.t)
  | ONone.

Inductive Series :=
  | Int64 (xs : list Z)
  | Float64 (xs : list float)
  | Datetime64 (xs : list (option Datetime.t))
  | Object (xs : list PyObj).

(** [nrows] is the length of the index; [data] lists the columns in
    order, each under its label. *)
Record DataFrame := mkDataFrame {
  nrows : nat;
  data : list (string * Series)
}.

Definition columns (df : DataFrame) : list string := (data df).*1.

(** [pd.DataFrame()] *)
Definition empty_frame : DataFrame := mkDataFrame 0 [].

Fixpoint lookup_column (c : string) (d : list (string * Series)) : option Series :=
  match d with
  | [] => None
  | (c', s) :: d' => if decide (c' = c) then Some s else lookup_column c d'
  end.

(** Assignment to a label: an existing column is replaced where it
    stands, a new one is added at the end. *)
Fixpoint assign_column (c : string) (s : Series) (d : list (string * Series))
  : list (string * Series) :=
  match d with
  | [] => [(c, s)]
  | (c', s') :: d' =>
      if decide (c' = c) then (c, s) :: d' else (c', s') :: assign_column c s d'
  end.

(** [df[c]] *)
Definition getitem (c : string) (df : DataFrame) : result Series :=
  match lookup_column c (data df) with
  | Some s => Return s
  | None => Raise (Exc KeyError ("'" ++ c ++ "'"))
  end.

(** [df[c] = s] *)
Definition setitem (c : string) (s : Series) (df : DataFrame) : DataFrame :=
  mkDataFrame (nrows df) (assign_column c s (data df)).

(** [df[c] = n] and [df[c] = x] for an int and a float scalar. *)
Definition setitem_int (c : string) (n : Z) (df : DataFrame) : DataFrame :=
  setitem c (Int64 (replicate (nrows df) n)) df.

Definition setitem_float (c : string) (x : float) (df : DataFrame) : DataFrame :=
  setitem c (Float64 (replicate (nrows df) x)) df.

Fixpoint select_columns (cols : list string) (d : list (string * Series))
  : option (list (string * Series)) :=
  match cols with
  | [] => Some []
  | c :: cols' =>
      match lookup_column c d, select_columns cols' d with
      | Some s, Some rest => Some ((c, s) :: rest)
      | _, _ => None
      end
  end.

Definition missing_labels (cols : list string) (df : DataFrame) : list string :=
  List.filter (fun c => negb (bool_decide (c ∈ columns df))) cols.

(** The text pandas puts in the [KeyError] names the missing labels. *)
Definition not_in_index (missing : list string) : string :=
  "[" ++ String.concat ", " (map (fun c => "'" ++ c ++ "'") missing)
  ++ "] not in index".

(** [df[cols]] for a list of labels: the named columns in the order
    asked for; a [KeyError] when a label is not a column. *)
Definition getitem_list (cols : list string) (df : DataFrame) : result DataFrame :=
  match select_columns cols (data df) with
  | Some d => Return (mkDataFrame (nrows df) d)
  | None => Raise (Exc KeyError (not_in_index (missing_labels cols df)))
  end.

Definition float_of_Z (z : Z) : float := PrimFloat.of_uint63 (Uint63.of_Z z).

Definition fillna_float (fill : float) (x : float) : float :=
  if PrimFloat.is_nan x then fill else x.

(** [s.fillna(n)] for an int [n]: NaN becomes [n] as a float, [None]
    in an object column becomes [n], and a datetime column that has a
    NaT becomes an object column. *)
Definition fillna_series (n : Z) (s : Series) : Series :=
  match s with
  | Int64 xs => Int64 xs
  | Float64 xs => Float64 (map (fillna_float (float_of_Z n)) xs)
  | Datetime64 xs =>
      if forallb (fun o => bool_decide (is_Some o)) xs then Datetime64 xs
      else Object (map (fun o => match o with
                                 | Some d => ODatetime d
                                 | None => OInt n
                                 end) xs)
  | Object xs => Object (map (fun o => match o with
                                       | ONone => OInt n
                                       | _ => o
                                       end) xs)
  end.

(** [df.fillna(n)] *)
Definition fillna (n : Z) (df : DataFrame) : DataFrame :=
  mkDataFrame (nrows df) (map (fun '(c, s) => (c, fillna_series n s)) (data df)).

(** The cells of a column as Python objects, as [Series.map] sees them. *)
Definition series_objects (s : Series) : list PyObj :=
  match s with
  | Int64 xs => map OInt xs
  | Float64 xs => map OFloat xs
  | Datetime64 xs => map (fun o => match o with
                                   | Some d => ODatetime d
                                   | None => ONone
                                   end) xs
  | Object xs => xs
  end.

(** [s.map(d)] for a dict from strings to ints: a cell that is not a key
    maps to NaN, which turns the whole column into floats. *)
Definition series_map (d : gmap string Z) (s : Series) : Series :=
  let mapped := map (fun o => match o with
                              | OStr k => d !! k
                              | _ => None
                              end) (series_objects s) in
  if forallb (fun o => bool_decide (is_Some o)) mapped
  then Int64 (map (fun o => default 0%Z o) mapped)
  else Float64 (map (fun o => match o with
                              | Some z => float_of_Z z
                              | None => nan
                              end) mapped).

(** [pd.to_datetime(s)]. The callers fill the column with the
    [match_date] of database rows; the parsing of strings and numbers
    that pandas would attempt on other cells is not modelled and such a
    column is refused. *)
Definition to_datetime (s : Series) : result Series :=
  match s with
  | Datetime64 xs => Return (Datetime64 xs)
  | Object xs =>
      xs' ← mapM (fun o => match o with
                           | ODatetime d => Return (Some d)
                           | ONone => Return None
                           | _ => Raise (Exc TypeError "to_datetime: not a datetime")
                           end) xs;
      Return (Datetime64 xs')
  | _ => Raise (Exc TypeError "to_datetime: not a datetime")
  end.

(** [s.dt.dayofweek] and [s.dt.month]: ints, or floats with NaN when
    the column has a NaT. *)
Definition dt_field (field : Datetime.t -> Z) (s : Series) : result Series :=
  match s with
  | Datetime64 xs =>
      if forallb (fun o => bool_decide (is_Some o)) xs
      then Return (Int64 (map (fun o => from_option field 0%Z o) xs))
      else Return (Float64 (map (fun o => match o with
                                          | Some d => float_of_Z (field d)
                                          | None => nan
                                          end) xs))
  | _ => Raise (Exc AttributeError
                    "Can only use .dt accessor with datetimelike values")
  end.

(** [s.isin(values).astype(int)] for a list of ints. *)
Definition isin_astype_int (values : list Z) (s : Series) : Series :=
  Int64 (map (fun o => match o with
                       | OInt z => if bool_decide (z ∈ values) then 1%Z else 0%Z
                       | OFloat x =>
                           if existsb (fun z => PrimFloat.eqb x (float_of_Z z)) values
                           then 1%Z else 0%Z
                       | _ => 0%Z
                       end) (series_objects s)).

(** ** Feature engineering ([app/ml/feature_engineering.py]) *)

Record FeatureEngineer := mkFeatureEngineer { fe_db : Session }.

Definition league_importance : gmap string Z :=
  list_to_map
    [("Premier League", 5%Z); ("La Liga", 5%Z); ("Bundesliga", 5%Z);
     ("Serie A", 5%Z); ("Ligue 1", 5%Z); ("Champions League", 6%Z);
     ("Europa League", 4%Z); ("Championship", 3%Z); ("League One", 2%Z)].

Definition _add_basic_features (self : FeatureEngineer) (df : DataFrame)
  : result DataFrame :=
  let df := setitem_int "is_home" 1 df in
  league ← getitem "league" df;
  Return (setitem "league_importance"
            (fillna_series 3 (series_map league_importance league)) df).

Definition _add_form_features (self : FeatureEngineer) (df : DataFrame)
  : result DataFrame :=
  let df := setitem_float "home_form_5" 0.5 df in
  let df := setitem_float "away_form_5" 0.5 df in
  let df := setitem_float "home_form_10" 0.5 df in
  let df := setitem_float "away_form_10" 0.5 df in
  Return df.

Definition _add_h2h_features (self : FeatureEngineer) (df : DataFrame)
  : result DataFrame :=
  let df := setitem_int "h2h_home_wins" 0 df in
  let df := setitem_int "h2h_away_wins" 0 df in
  let df := setitem_int "h2h_draws" 0 df in
  let df := setitem_int "h2h_goals_home" 0 df in
  let df := setitem_int "h2h_goals_away" 0 df in
  Return df.

Definition _add_seasonal_features (self : FeatureEngineer) (df : DataFrame)
  : result DataFrame :=
  let df := setitem_float "season_progress" 0.5 df in
  let df := setitem_int "days_since_last_match_home" 7 df in
  let df := setitem_int "days_since_last_match_away" 7 df in
  Return df.

Definition _add_statistical_features (self : FeatureEngineer) (df : DataFrame)
  : result DataFrame :=
  let df := setitem_float "home_goals_per_match" 1.5 df in
  let df := setitem_float "away_goals_per_match" 1.5 df in
  let df := setitem_float "home_goals_against_per_match" 1.2 df in
  let df := setitem_float "away_goals_against_per_match" 1.2 df in
  let df := setitem_float "home_win_percentage" 0.4 df in
  let df := setitem_float "away_win_percentage" 0.4 df in
  Return df.

Definition _add_time_features (self : FeatureEngineer) (df : DataFrame)
  : result DataFrame :=
  if bool_decide ("match_date" ∈ columns df) then
    raw ← getitem "match_date" df;
    dates ← to_datetime raw;
    let df := setitem "match_date" dates df in
    dates ← getitem "match_date" df;
    day_of_week ← dt_field Datetime.weekday dates;
    let df := setitem "day_of_week" day_of_week df in
    dates ← getitem "match_date" df;
    month ← dt_field Datetime.month dates;
    let df := setitem "month" month df in
    day_of_week ← getitem "day_of_week" df;
    let df := setitem "is_weekend" (isin_astype_int [5%Z; 6%Z] day_of_week) df in
    Return df
  else Return df.

(** [create_features] works on [matches_df.copy()]: the caller's frame
    is a value here and is not changed. *)
Definition create_features (self : FeatureEngineer) (matches_df : DataFrame)
  : result DataFrame :=
  let df := matches_df in
  df ← _add_basic_features self df;
  df ← _add_form_features self df;
  df ← _add_h2h_features self df;
  df ← _add_seasonal_features self df;
  df ← _add_statistical_features self df;
  df ← _add_time_features self df;
  Return df.

Definition get_feature_columns (self : FeatureEngineer) : list string :=
  [ "is_home"; "league_importance"; "home_form_5"; "away_form_5";
    "home_form_10"; "away_form_10"; "h2h_home_wins"; "h2h_away_wins";
    "h2h_draws"; "h2h_goals_home"; "h2h_goals_away"; "season_progress";
    "days_since_last_match_home"; "days_since_last_match_away";
    "home_goals_per_match"; "away_goals_per_match";
    "home_goals_against_per_match"; "away_goals_against_per_match";
    "home_win_percentage"; "away_win_percentage"; "day_of_week";
    "month"; "is_weekend" ].

(** The values and the number of rows of the placeholder columns. *)
Definition placeholder_columns (n : nat) : list (string * Series) :=
  [ ("is_home", Int64 (replicate n 1%Z));
    ("home_form_5", Float64 (replicate n 0.5%float));
    ("away_form_5", Float64 (replicate n 0.5%float));
    ("home_form_10", Float64 (replicate n 0.5%float));
    ("away_form_10", Float64 (replicate n 0.5%float));
    ("h2h_home_wins", Int64 (replicate n 0%Z));
    ("h2h_away_wins", Int64 (replicate n 0%Z));
    ("h2h_draws", Int64 (replicate n 0%Z));
    ("h2h_goals_home", Int64 (replicate n 0%Z));
    ("h2h_goals_away", Int64 (replicate n 0%Z));
    ("season_progress", Float64 (replicate n 0.5%float));
    ("days_since_last_match_home", Int64 (replicate n 7%Z));
    ("days_since_last_match_away", Int64 (replicate n 7%Z));
    ("home_goals_per_match", Float64 (replicate n 1.5%float));
    ("away_goals_per_match", Float64 (replicate n 1.5%float));
    ("home_goals_against_per_match", Float64 (replicate n 1.2%float));
    ("away_goals_against_per_match", Float64 (replicate n 1.2%float));
    ("home_win_percentage", Float64 (replicate n 0.4%float));
    ("away_win_percentage", Float64 (replicate n 0.4%float)) ].

(** What the form, head-to-head, seasonal and statistical stages do
    to a frame, as one function. *)
Definition placeholder_stages (df : DataFrame) : DataFrame :=
  setitem_float "away_win_percentage" 0.4
    (setitem_float "home_win_percentage" 0.4
    (setitem_float "away_goals_against_per_match" 1.2
    (setitem_float "home_goals_against_per_match" 1.2
    (setitem_float "away_goals_per_match" 1.5
    (setitem_float "home_goals_per_match" 1.5
    (setitem_int "days_since_last_match_away" 7
    (setitem_int "days_since_last_match_home" 7
    (setitem_float "season_progress" 0.5
    (setitem_int "h2h_goals_away" 0
    (setitem_int "h2h_goals_home" 0
    (setitem_int "h2h_draws" 0
    (setitem_int "h2h_away_wins" 0
    (setitem_int "h2h_home_wins" 0
    (setitem_float "away_form_10" 0.5
    (setitem_float "home_form_10" 0.5
    (setitem_float "away_form_5" 0.5
    (setitem_float "home_form_5" 0.5 df))))))))))))))))).

(** The label encoding [{'H': 0, 'A': 1, 'D': 2}]. *)
Definition outcome_classes : gmap string Z :=
  list_to_map [("H", 0%Z); ("A", 1%Z); ("D", 2%Z)].

Definition prepare_training_data (self : FeatureEngineer) (matches_df : DataFrame)
  : result (DataFrame * Series * list string) :=
  df_with_features ← create_features self matches_df;
  let feature_columns := get_feature_columns self in
  X ← getitem_list feature_columns df_with_features;
  let X := fillna 0 X in
  results ← getitem "result" df_with_features;
  let y := series_map outcome_classes results in
  Return (X, y, feature_columns).

(** [pd.DataFrame(matches_data)] for the list of dicts that both the
    trainer and the predictor build from [Match] rows.  A score column is
    int64 when every row has the score, float64 with NaN when some have,
    and an object column of [None] when none has. *)
Definition score_series (scores : list (option Z)) : Series :=
  if forallb (fun o => bool_decide (is_Some o)) scores
  then Int64 (map (fun o => default 0%Z o) scores)
  else if forallb (fun o => bool_decide (o = None)) scores
  then Object (map (fun _ => ONone) scores)
  else Float64 (map (fun o => match o with
                              | Some z => float_of_Z z
                              | None => nan
                              end) scores).

Definition matches_frame (ms : list Match.t) : DataFrame :=
  match ms with
  | [] => empty_frame
  | _ =>
    mkDataFrame (length ms)
      [ ("id", Int64 (map Match.id ms));
        ("home_team_id", Int64 (map Match.home_team_id ms));
        ("away_team_id", Int64 (map Match.away_team_id ms));
        ("league", Object (map (fun m => OStr (Match.league m)) ms));
        ("season", Object (map (fun m => OStr (Match.season m)) ms));
        ("match_date", Datetime64 (map (fun m => Some (Match.match_date m)) ms));
        ("home_score", score_series (map Match.home_score ms));
        ("away_score", score_series (map Match.away_score ms));
        ("result", Object (map (fun m => match Match.result m with
                                         | Some r => OStr r
                                         | None => ONone
                                         end) ms)) ]
  end.

(** ** The machine-learning libraries and the environment

    What scikit-learn, xgboost, torch, [json], [pickle] and the system
    clock do is not in the repository; the pipeline is stated over any
    behaviour of theirs. *)

(** A training configuration is a Python dict from strings to scalars
    or, under ["hyperparameters"], to a dict of scalars. *)
Inductive ConfigValue :=
  | Scalar (o : PyObj)
  | Dict (d : gmap string PyObj).

(** An estimator as [_train_model_by_type] constructs it, with the
    arguments it passes.  The logistic regression and the neural network
    read their hyperparameters after the first library call, so they take
    the hyperparameter object whole. *)
Inductive Estimator :=
  | RandomForestClassifier (n_estimators max_depth random_state : ConfigValue)
  | XGBClassifier (n_estimators max_depth learning_rate random_state : ConfigValue)
  | LogisticRegression (random_state hyperparams : ConfigValue)
  | NeuralNetwork (hyperparams : ConfigValue).

(** The dict [_evaluate_model] returns. *)
Record Metrics := mkMetrics {
  m_accuracy : float;
  m_precision_home : float; m_precision_draw : float; m_precision_away : float;
  m_recall_home : float; m_recall_draw : float; m_recall_away : float;
  m_f1_score_home : float; m_f1_score_draw : float; m_f1_score_away : float
}.

Class MLLibrary := {
  (** a fitted model object *)
  Model : Type;
  (** [train_test_split(X, y, test_size=.., random_state=.., stratify=y)] *)
  train_test_split :
    DataFrame -> Series -> ConfigValue -> ConfigValue ->
    result (DataFrame * DataFrame * Series * Series);
  (** constructing and fitting an estimator; for [LogisticRegression] on
      standardised features, the scaler kept with the model *)
  fit : Estimator -> DataFrame -> Series -> result Model;
  (** [_evaluate_model]: predictions on the held-out part, accuracy,
      classification report and confusion matrix *)
  evaluate : Model -> DataFrame -> Series -> ConfigValue -> result Metrics;
  (** the first row of the class probabilities the model gives, through
      the scaler, the softmax or [predict_proba] as the model type asks *)
  predict_proba : Model -> ConfigValue -> DataFrame -> result (list float);
  (** the first entry of [model.predict(features)] *)
  predict : Model -> ConfigValue -> DataFrame -> result Z;
  (** [int(round(p * 3))] *)
  int_round_3 : float -> result Z;
  (** [features.to_json()] *)
  to_json : DataFrame -> string;
  (** [json.dumps] of the model parameters kept with a performance row *)
  json_dumps :
    ConfigValue -> ConfigValue -> ConfigValue -> ConfigValue -> string;
  (** [str(v)] of a value that is not a string *)
  str_value : ConfigValue -> string;
  (** the [n]-th reading of the system clock *)
  clock : nat -> Datetime.t;
  (** [str(d2 - d1)] and [(d2 - d1).total_seconds()] *)
  timedelta_str : Datetime.t -> Datetime.t -> string;
  total_seconds : Datetime.t -> Datetime.t -> float
}.

Section Pipeline.
Context `{MLLibrary}.

(** What [_save_model] pickles. *)
Record ModelData := mkModelData {
  md_model : Model;
  md_model_type : ConfigValue;
  md_feature_columns : list string;
  md_version : string;
  md_created_at : Datetime.t
}.

(** The state the pipeline runs in: the database behind the session,
    the files of [./models] by name, and how often the clock was read. *)
Record World := mkWorld {
  db : Session;
  models_dir : gmap string ModelData;
  ticks : nat
}.

(** A computation that reads and writes the world and may raise; the
    world survives an exception. *)
Definition M (A : Type) : Type := World -> result A * World.

#[export] Instance M_ret : MRet M := fun A a w => (Return a, w).
#[export] Instance M_bind : MBind M := fun A B f m w =>
  match m w with
  | (Return a, w') => f a w'
  | (Raise e, w') => (Raise e, w')
  end.

Definition raise {A} (e : PyExc) : M A := fun w => (Raise e, w).

Definition lift {A} (r : result A) : M A := fun w => (r, w).

Definition try_exceptM {A} (body : M A) (handler : PyExc -> M A) : M A :=
  fun w =>
    match body w with
    | (Return a, w') => (Return a, w')
    | (Raise e, w') => handler e w'
    end.

Definition get_db : M Session := fun w => (Return (db w), w).

Definition set_db (s : Session) : M unit :=
  fun w => (Return tt, mkWorld s (models_dir w) (ticks w)).

(** [datetime.now()] *)
Definition now : M Datetime.t :=
  fun w => (Return (clock (ticks w)), mkWorld (db w) (models_dir w) (S (ticks w))).

Definition listdir : M (list string) :=
  fun w => (Return ((map_to_list (models_dir w)).*1), w).

Definition read_pickle (filename : string) : M (option ModelData) :=
  fun w => (Return (models_dir w !! filename), w).

Definition write_pickle (filename : string) (d : ModelData) : M unit :=
  fun w => (Return tt, mkWorld (db w) (<[filename := d]> (models_dir w)) (ticks w)).

(** Python's truth value of an object. *)
Definition truthy (o : PyObj) : bool :=
  match o with
  | OInt z => negb (z =? 0)%Z
  | OFloat x => negb (PrimFloat.eqb x 0)
  | OStr s => negb (String.eqb s "")
  | ODatetime _ => true
  | ONone => false
  end.

Definition truthy_value (v : ConfigValue) : bool :=
  match v with
  | Scalar o => truthy o
  | Dict d => negb (bool_decide (d = ∅))
  end.

(** [config[key]] *)
Definition config_getitem (key : string) (config : gmap string ConfigValue)
  : result ConfigValue :=
  match config !! key with
  | Some v => Return v
  | None => Raise (Exc KeyError ("'" ++ key ++ "'"))
  end.

(** [config.get(key, dflt)] *)
Definition config_get (key : string) (dflt : ConfigValue)
    (config : gmap string ConfigValue) : ConfigValue :=
  default dflt (config !! key).

(** [hyperparams.get(key, dflt)]: an [AttributeError] when the
    hyperparameters are not a dict. *)
Definition hyper_get (key : string) (dflt : PyObj) (hyperparams : ConfigValue)
  : result ConfigValue :=
  match hyperparams with
  | Dict d => Return (Scalar (default dflt (d !! key)))
  | Scalar _ => Raise (Exc AttributeError "object has no attribute 'get'")
  end.

(** [column == value] in a query filter on a string column. *)
Definition column_eq (s : string) (v : ConfigValue) : bool :=
  match v with
  | Scalar (OStr s') => String.eqb s s'
  | _ => false
  end.

(** [f"{v}"] *)
Definition str_of (v : ConfigValue) : string :=
  match v with
  | Scalar (OStr s) => s
  | _ => str_value v
  end.

(** [v == s] for a string literal [s] *)
Definition eq_str (v : ConfigValue) (s : string) : bool :=
  match v with
  | Scalar (OStr s') => String.eqb s' s
  | _ => false
  end.

End Pipeline.

(** ** Training ([app/ml/trainer.py]) *)

Module ModelTrainer.
Section Trainer.
Context `{MLLibrary}.

(** The two dicts [train_model] returns. *)
Inductive TrainingResult :=
  | TrainingSuccess (model_name : ConfigValue) (model_version : string)
      (accuracy : float) (training_time : string)
  | TrainingError (error : string) (model_name : ConfigValue).

Definition status (r : TrainingResult) : string :=
  match r with
  | TrainingSuccess _ _ _ _ => "success"
  | TrainingError _ _ => "error"
  end.

(** The query of [_get_training_data]: the matches with both scores,
    of the league and of the season the configuration names, if it
    names any. *)
Definition training_query (config : gmap string ConfigValue) (s : Session)
  : list Match.t :=
  let query := List.filter (fun m => bool_decide (is_Some (Match.home_score m))
                                     && bool_decide (is_Some (Match.away_score m)))
                 (matches s) in
  let query :=
    if truthy_value (config_get "league" (Scalar ONone) config)
    then List.filter (fun m => column_eq (Match.league m)
                                 (config_get "league" (Scalar ONone) config)) query
    else query in
  let query :=
    if truthy_value (config_get "season" (Scalar ONone) config)
    then List.filter (fun m => column_eq (Match.season m)
                                 (config_get "season" (Scalar ONone) config)) query
    else query in
  query.

Definition _get_training_data (config : gmap string ConfigValue)
  : M (DataFrame * Series * list string) :=
  s ← get_db;
  match training_query config s with
  | [] => mret (empty_frame, Int64 [], [])
  | matches => lift (prepare_training_data (mkFeatureEngineer s)
                       (matches_frame matches))
  end.

(** The model types [_train_model_by_type] knows. *)
Definition known_model_type (model_type : ConfigValue) : bool :=
  eq_str model_type "random_forest" || eq_str model_type "xgboost"
  || eq_str model_type "logistic_regression"
  || eq_str model_type "neural_network".

Definition _train_model_by_type (model_type : ConfigValue)
    (X_train : DataFrame) (y_train : Series) (config : gmap string ConfigValue)
  : result Model :=
  let hyperparams := config_get "hyperparameters" (Dict ∅) config in
  let random_state := config_get "random_state" (Scalar (OInt 42)) config in
  if eq_str model_type "random_forest" then
    n_estimators ← hyper_get "n_estimators" (OInt 100) hyperparams;
    max_depth ← hyper_get "max_depth" (OInt 10) hyperparams;
    fit (RandomForestClassifier n_estimators max_depth random_state) X_train y_train
  else if eq_str model_type "xgboost" then
    n_estimators ← hyper_get "n_estimators" (OInt 100) hyperparams;
    max_depth ← hyper_get "max_depth" (OInt 6) hyperparams;
    learning_rate ← hyper_get "learning_rate" (OFloat 0.1) hyperparams;
    fit (XGBClassifier n_estimators max_depth learning_rate random_state)
      X_train y_train
  else if eq_str model_type "logistic_regression" then
    fit (LogisticRegression random_state hyperparams) X_train y_train
  else if eq_str model_type "neural_network" then
    fit (NeuralNetwork hyperparams) X_train y_train
  else
    Raise (Exc ValueError ("Unknown model type: " ++ str_of model_type)).

Definition _save_model (model : Model) (model_name model_type : ConfigValue)
    (feature_columns : list string) : M string :=
  t ← now;
  let model_version := Datetime.strftime_version t in
  let model_filename := str_of model_name ++ "_" ++ model_version ++ ".pkl" in
  created_at ← now;
  write_pickle model_filename
    (mkModelData model model_type feature_columns model_version created_at);;
  mret model_version.

Definition _save_performance_metrics (model_name : ConfigValue)
    (model_version : string) (model_type : ConfigValue) (metrics : Metrics)
    (training_samples test_samples : nat) (training_duration : float)
    (config : gmap string ConfigValue) : M unit :=
  let parameters :=
    json_dumps model_type (config_get "hyperparameters" (Dict ∅) config)
      (config_get "test_size" (Scalar (OFloat 0.2)) config)
      (config_get "random_state" (Scalar (OInt 42)) config) in
  s ← get_db;
  training_date ← now;
  let performance :=
    ModelPerformance.mk
      (next_id (map ModelPerformance.id (model_performance s)))
      (str_of model_name) model_version
      (m_accuracy metrics)
      (m_precision_home metrics) (m_precision_draw metrics) (m_precision_away metrics)
      (m_recall_home metrics) (m_recall_draw metrics) (m_recall_away metrics)
      (m_f1_score_home metrics) (m_f1_score_draw metrics) (m_f1_score_away metrics)
      (Z.of_nat training_samples) (Z.of_nat test_samples) training_duration
      parameters training_date false false in
  set_db (mkSession (matches s) (predictions s) (model_performance s ++ [performance])).

Definition train_model (training_config : gmap string ConfigValue)
  : M TrainingResult :=
  start_time ← now;
  try_exceptM
    ('(X, y, feature_columns) ← _get_training_data training_config;
     if (nrows X =? 0)%nat
     then raise (Exc ValueError "No training data available")
     else
       '(X_train, X_test, y_train, y_test) ←
         lift (train_test_split X y
                 (config_get "test_size" (Scalar (OFloat 0.2)) training_config)
                 (config_get "random_state" (Scalar (OInt 42)) training_config));
       model_type ← lift (config_getitem "model_type" training_config);
       model ← lift (_train_model_by_type model_type X_train y_train training_config);
       metrics ← lift (evaluate model X_test y_test model_type);
       model_name ← lift (config_getitem "model_name" training_config);
       model_version ← _save_model model model_name model_type feature_columns;
       model_name ← lift (config_getitem "model_name" training_config);
       t ← now;
       _save_performance_metrics model_name model_version model_type metrics
         (nrows X_train) (nrows X_test) (total_seconds start_time t)
         training_config;;
       model_name ← lift (config_getitem "model_name" training_config);
       t ← now;
       mret (TrainingSuccess model_name model_version (m_accuracy metrics)
               (timedelta_str start_time t)))
    (fun e =>
       model_name ← lift (config_getitem "model_name" training_config);
       mret (TrainingError (str e) model_name)).

(** What a result of [train_model] says about the run it ends. *)
Definition training_outcome (training_config : gmap string ConfigValue)
    (name : ConfigValue) (w : World) (r : TrainingResult)
    (w' : World) : Prop :=
  match r with
  | TrainingError text model_name => model_name = name
  | TrainingSuccess model_name model_version accuracy _ =>
      model_name = name
      /\ model_version = Datetime.strftime_version (clock (S (ticks w)))
      /\ (exists model_type,
            training_config !! "model_type" = Some model_type
            /\ known_model_type model_type = true)
      /\ (exists model_data,
            models_dir w' !! (str_of name ++ "_" ++ model_version ++ ".pkl")
            = Some model_data
            /\ md_version model_data = model_version)
      /\ (exists performance,
            model_performance (db w')
            = (model_performance (db w) ++ [performance])%list
            /\ ModelPerformance.model_name performance = str_of name
            /\ ModelPerformance.model_version performance = model_version
            /\ ModelPerformance.accuracy performance = accuracy
            /\ ModelPerformance.is_active performance = false)
  end.

End Trainer.
End ModelTrainer.

(** ** Prediction ([app/ml/predictor.py]) *)

(** Python's order on strings, by code point. *)
Definition string_le (s1 s2 : string) : Prop := String.leb s1 s2.

#[export] Instance string_le_dec s1 s2 : Decision (string_le s1 s2).
Proof. unfold string_le. apply _. Defined.

(** [sorted(l)] *)
Definition sorted (l : list string) : list string := merge_sort string_le l.

(** [s.startswith(p)] and [s.endswith(q)] *)
Definition startswith (s p : string) : bool := String.prefix p s.

Definition endswith (s q : string) : bool :=
  (String.length q <=? String.length s)%nat
  && String.eqb (String.substring (String.length s - String.length q)
                   (String.length q) s) q.

(** [np.max] and [np.argmax] of a vector: a NaN wins. *)
Definition np_greater (x best : float) : bool :=
  negb (PrimFloat.is_nan best) && (PrimFloat.is_nan x || PrimFloat.ltb best x).

Definition np_max (xs : list float) : result float :=
  match xs with
  | [] => Raise (Exc ValueError "zero-size array to reduction operation maximum")
  | x :: xs' =>
      Return (foldl (fun best y => if np_greater y best then y else best) x xs')
  end.

Definition np_argmax (xs : list float) : result Z :=
  match xs with
  | [] => Raise (Exc ValueError "attempt to get argmax of an empty sequence")
  | x :: xs' =>
      Return (fst (fst (foldl (fun '(i, best, k) y =>
                                 if np_greater y best then (k, y, (k + 1)%Z)
                                 else (i, best, (k + 1)%Z))
                              (0%Z, x, 1%Z) xs')))
  end.

(** [v[i]] *)
Definition index (i : nat) (xs : list float) : result float :=
  match xs !! i with
  | Some x => Return x
  | None => Raise (Exc IndexError "index out of bounds")
  end.

(** The dict [_make_prediction] returns. *)
Record PredictionResult := mkPredictionResult {
  r_predicted_outcome : string;
  r_predicted_home_score : Z;
  r_predicted_away_score : Z;
  r_home_win_probability : float;
  r_draw_probability : float;
  r_away_win_probability : float;
  r_overall_confidence : float
}.

(** The dict [predict_match] returns. *)
Record MatchPrediction := mkMatchPrediction {
  p_match_id : Z;
  p_home_team : string;
  p_away_team : string;
  p_match_date : string;
  p_prediction : PredictionResult;
  p_prediction_id : Z
}.

(** An entry of the list [predict_matches_batch] returns: the dict of a
    prediction, or the dict with ["match_id"] and ["error"]. *)
Inductive BatchEntry :=
  | Predicted (prediction : MatchPrediction)
  | Failed (match_id : Z) (error : string).

Definition entry_match_id (e : BatchEntry) : Z :=
  match e with
  | Predicted p => p_match_id p
  | Failed match_id _ => match_id
  end.

Definition is_predicted (e : BatchEntry) : bool :=
  match e with
  | Predicted _ => true
  | Failed _ _ => false
  end.

Definition entry_prediction_id (e : BatchEntry) : option Z :=
  match e with
  | Predicted p => Some (p_prediction_id p)
  | Failed _ _ => None
  end.

Module ModelPredictor.
Section Predictor.
Context `{MLLibrary}.

(** The first half of [_load_model]: the name of the file to open. *)
Definition _model_filename (model_name : string) (model_version : option string)
  : M string :=
  let latest : M string :=
    files ← listdir;
    let model_files :=
      List.filter (fun f => startswith f (model_name ++ "_") && endswith f ".pkl")
        files in
    match model_files with
    | [] => raise (Exc ValueError ("No model found for " ++ model_name))
    | _ =>
        match last (sorted model_files) with
        | Some f => mret f
        | None => raise (Exc IndexError "list index out of range")
        end
    end in
  match model_version with
  | Some v => if String.eqb v "" then latest
              else mret (model_name ++ "_" ++ v ++ ".pkl")
  | None => latest
  end.

Definition _load_model (model_name : string) (model_version : option string)
  : M (Model * ConfigValue * list string) :=
  model_filename ← _model_filename model_name model_version;
  let model_path := "./models/" ++ model_filename in
  model_data ← read_pickle model_filename;
  match model_data with
  | None => raise (Exc ValueError ("Model file not found: " ++ model_path))
  | Some d => mret (md_model d, md_model_type d, md_feature_columns d)
  end.

Definition _prepare_match_features (feature_engineer : FeatureEngineer)
    (match_ : Match.t) (feature_columns : list string) : result DataFrame :=
  let df := matches_frame [match_] in
  df_with_features ← create_features feature_engineer df;
  features ← getitem_list feature_columns df_with_features;
  Return (fillna 0 features).

Definition outcome_map : gmap Z string :=
  list_to_map [(0%Z, "H"); (1%Z, "A"); (2%Z, "D")].

Definition _make_prediction (model : Model) (features : DataFrame)
    (model_type : ConfigValue) : result PredictionResult :=
  '(prediction_proba, prediction_class) ←
    (if eq_str model_type "logistic_regression" then
       proba ← predict_proba model model_type features;
       cls ← predict model model_type features;
       Return (proba, cls)
     else if eq_str model_type "neural_network" then
       proba ← predict_proba model model_type features;
       cls ← np_argmax proba;
       Return (proba, cls)
     else
       proba ← predict_proba model model_type features;
       cls ← predict model model_type features;
       Return (proba, cls));
  predicted_outcome ←
    match outcome_map !! prediction_class with
    | Some o => Return o
    | None => Raise (Exc KeyError (pretty prediction_class))
    end;
  max_prob ← np_max prediction_proba;
  home_prob ← index 0 prediction_proba;
  away_prob ← index 1 prediction_proba;
  draw_prob ← index 2 prediction_proba;
  predicted_home_score ← int_round_3 home_prob;
  predicted_away_score ← int_round_3 away_prob;
  Return (mkPredictionResult predicted_outcome
            predicted_home_score predicted_away_score
            home_prob draw_prob away_prob max_prob).

(** [f"{model_version}"] *)
Definition str_version (model_version : option string) : string :=
  default "None" model_version.

(** The [predictions] table refuses a row without a model version
    ([nullable=False]). *)
Definition _save_prediction (match_id : Z) (model_name : string)
    (model_version : option string) (prediction_result : PredictionResult)
    (features : DataFrame) : M Prediction.t :=
  s ← get_db;
  let prediction :=
    Prediction.mk
      (next_id (map Prediction.id (predictions s)))
      match_id model_name model_version
      (r_predicted_outcome prediction_result)
      (r_predicted_home_score prediction_result)
      (r_predicted_away_score prediction_result)
      (r_home_win_probability prediction_result)
      (r_draw_probability prediction_result)
      (r_away_win_probability prediction_result)
      (r_overall_confidence prediction_result)
      (to_json features)
      ("Model: " ++ model_name ++ ", Version: " ++ str_version model_version) in
  match model_version with
  | None =>
      raise (Exc IntegrityError
               "NOT NULL constraint failed: predictions.model_version")
  | Some _ =>
      set_db (mkSession (matches s) (predictions s ++ [prediction])
                (model_performance s));;
      mret prediction
  end.

Definition query_match (match_id : Z) (s : Session) : option Match.t :=
  List.find (fun m => (Match.id m =? match_id)%Z) (matches s).

Definition predict_match (match_id : Z) (model_name : string)
    (model_version : option string) : M MatchPrediction :=
  try_exceptM
    (s ← get_db;
     match query_match match_id s with
     | None => raise (Exc ValueError ("Match " ++ pretty match_id ++ " not found"))
     | Some match_ =>
         '(model, model_type, feature_columns) ← _load_model model_name model_version;
         s ← get_db;
         features ← lift (_prepare_match_features (mkFeatureEngineer s)
                            match_ feature_columns);
         prediction_result ← lift (_make_prediction model features model_type);
         prediction ← _save_prediction match_id model_name model_version
                        prediction_result features;
         mret (mkMatchPrediction match_id
                 (Match.home_team_name match_) (Match.away_team_name match_)
                 (Datetime.isoformat (Match.match_date match_))
                 prediction_result (Prediction.id prediction))
     end)
    (fun e => raise (Exc PlainException ("Prediction failed: " ++ str e))).

(** The loop of [predict_matches_batch]: [predictions] is the list
    built so far. *)
Fixpoint batch_loop (match_ids : list Z) (model_name : string)
    (model_version : option string) (predictions : list BatchEntry)
  : M (list BatchEntry) :=
  match match_ids with
  | [] => mret predictions
  | match_id :: rest =>
      entry ← try_exceptM
                (prediction ← predict_match match_id model_name model_version;
                 mret (Predicted prediction))
                (fun e => mret (Failed match_id (str e)));
      batch_loop rest model_name model_version (predictions ++ [entry])
  end.

Definition predict_matches_batch (match_ids : list Z) (model_name : string)
    (model_version : option string) : M (list BatchEntry) :=
  batch_loop match_ids model_name model_version [].

(** What a run of the loop over [match_ids] from world [w] does: each
    id in turn is given to [predict_match] in the world the ids before it
    left; a prediction gives a prediction entry, an exception an error
    entry with the id and the text, and the run goes on with the next id
    either way. *)
Inductive batch_run (model_name : string) (model_version : option string)
  : list Z -> World -> list BatchEntry -> World -> Prop :=
  | batch_run_nil w :
      batch_run model_name model_version [] w [] w
  | batch_run_predicted match_id rest w prediction w1 entries w2 :
      predict_match match_id model_name model_version w = (Return prediction, w1) ->
      batch_run model_name model_version rest w1 entries w2 ->
      batch_run model_name model_version (match_id :: rest) w
        (Predicted prediction :: entries) w2
  | batch_run_failed match_id rest w e w1 entries w2 :
      predict_match match_id model_name model_version w = (Raise e, w1) ->
      batch_run model_name model_version rest w1 entries w2 ->
      batch_run model_name model_version (match_id :: rest) w
        (Failed match_id (str e) :: entries) w2.

End Predictor.
End ModelPredictor.

(** ** The model endpoints ([app/api/ml.py]) *)

Module Api.
Section Endpoints.
Context `{MLLibrary}.

(** [POST /predict] *)
Definition predict_match (match_id : Z) (model_name : string)
    (model_version : option string) : M MatchPrediction :=
  try_exceptM
    (s ← get_db;
     match ModelPredictor.query_match match_id s with
     | None => raise (HTTPException 404 "Match not found")
     | Some _ => ModelPredictor.predict_match match_id model_name model_version
     end)
    (fun e => raise (HTTPException 500 ("Prediction failed: " ++ str e))).

(** The body [POST /predict/batch] answers with. *)
Record BatchResponse := mkBatchResponse {
  b_predictions : list BatchEntry;
  b_total_matches : nat;
  b_model_name : string
}.

(** [POST /predict/batch] *)
Definition predict_matches_batch (match_ids : list Z) (model_name : string)
    (model_version : option string) : M BatchResponse :=
  try_exceptM
    (predictions ← ModelPredictor.predict_matches_batch match_ids model_name
                     model_version;
     mret (mkBatchResponse predictions (length match_ids) model_name))
    (fun e => raise (HTTPException 500 ("Batch prediction failed: " ++ str e))).

Definition of_model (model_name : string) (r : ModelPerformance.t) : bool :=
  String.eqb (ModelPerformance.model_name r) model_name.

(** [order_by(training_date.desc()).first()]: a row with the greatest
    training date; of several such rows the one stored first. *)
Definition latest (rows : list ModelPerformance.t) : option ModelPerformance.t :=
  foldl (fun best r =>
           match best with
           | None => Some r
           | Some b =>
               if (Datetime.timestamp (ModelPerformance.training_date b)
                   <? Datetime.timestamp (ModelPerformance.training_date r))%Z
               then Some r else Some b
           end) None rows.

(** The body [POST /models/{model_name}/activate] answers with. *)
Record ActivateResponse := mkActivateResponse {
  a_message : string;
  a_version : string
}.

(** [POST /models/{model_name}/activate]. The path has the model name
    and no version.  Setting [is_active] on the row object writes the row
    with its primary key. *)
Definition activate_model (model_name : string) : M ActivateResponse :=
  s ← get_db;
  set_db (mkSession (matches s) (predictions s)
            (map (fun r => if of_model model_name r
                           then ModelPerformance.set_is_active false r else r)
               (model_performance s)));;
  s ← get_db;
  match latest (List.filter (of_model model_name) (model_performance s)) with
  | None => raise (HTTPException 404 "Model not found")
  | Some latest_model =>
      set_db (mkSession (matches s) (predictions s)
                (map (fun r => if (ModelPerformance.id r
                                   =? ModelPerformance.id latest_model)%Z
                               then ModelPerformance.set_is_active true r else r)
                   (model_performance s)));;
      mret (mkActivateResponse ("Model " ++ model_name ++ " activated")
              (ModelPerformance.model_version latest_model))
  end.

(** [DELETE /models/{model_name}] *)
Definition delete_model (model_name : string) : M string :=
  s ← get_db;
  set_db (mkSession (matches s)
            (List.filter (fun p => negb (String.eqb (Prediction.model_name p)
                                           model_name)) (predictions s))
            (model_performance s));;
  s ← get_db;
  set_db (mkSession (matches s) (predictions s)
            (List.filter (fun r => negb (of_model model_name r))
               (model_performance s)));;
  mret ("Model " ++ model_name ++ " and all its predictions deleted").

(** The body of [POST /train] after validation: the two names, and the
    optional fields with their defaults. *)
Record TrainingRequest := mkTrainingRequest {
  t_model_name : string;
  t_model_type : string;
  t_league : option string;
  t_season : option string;
  t_test_size : float;
  t_random_state : Z;
  t_hyperparameters : option (gmap string PyObj)
}.

Definition optional_str (o : option string) : ConfigValue :=
  match o with
  | Some s => Scalar (OStr s)
  | None => Scalar ONone
  end.

Definition optional_dict (o : option (gmap string PyObj)) : ConfigValue :=
  match o with
  | Some d => Dict d
  | None => Scalar ONone
  end.

(** [training_request.dict()]: every field of the request, a field that
    was left out with its default. *)
Definition request_dict (r : TrainingRequest) : gmap string ConfigValue :=
  <["model_name" := Scalar (OStr (t_model_name r))]>
    (<["model_type" := Scalar (OStr (t_model_type r))]>
       (<["league" := optional_str (t_league r)]>
          (<["season" := optional_str (t_season r)]>
             (<["test_size" := Scalar (OFloat (t_test_size r))]>
                (<["random_state" := Scalar (OInt (t_random_state r))]>
                   (<["hyperparameters" := optional_dict (t_hyperparameters r)]>
                      ∅)))))).

(** The body [POST /train] answers with. *)
Record TrainResponse := mkTrainResponse {
  tr_message : string;
  tr_model_name : string;
  tr_model_type : string;
  tr_status : string
}.

(** [POST /train]: the answer, and the task handed to
    [background_tasks], which runs after the answer was sent. *)
Definition train_model (training_request : TrainingRequest)
  : TrainResponse * M ModelTrainer.TrainingResult :=
  (mkTrainResponse "Model training started" (t_model_name training_request)
     (t_model_type training_request) "training",
   ModelTrainer.train_model (request_dict training_request)).

(** The two bodies [GET /train/status/{model_name}] answers with. *)
Inductive TrainingStatus :=
  | StatusCompleted (model_name : string) (accuracy : float)
      (training_date : string)
  | StatusTraining (model_name : string) (message : string).

Definition status_text (s : TrainingStatus) : string :=
  match s with
  | StatusCompleted _ _ _ => "completed"
  | StatusTraining _ _ => "training"
  end.

(** [GET /train/status/{model_name}] *)
Definition get_training_status (model_name : string) : M TrainingStatus :=
  s ← get_db;
  match latest (List.filter (of_model model_name) (model_performance s)) with
  | Some model =>
      mret (StatusCompleted model_name (ModelPerformance.accuracy model)
              (Datetime.isoformat (ModelPerformance.training_date model)))
  | None => mret (StatusTraining model_name "Model is still being trained")
  end.

End Endpoints.
End Api.

Section Rows.
Context `{MLLibrary}.

(** The row [_save_prediction] hands to the session. *)
Definition prediction_row (s : Session) (match_id : Z) (model_name : string)
    (model_version : option string) (r : PredictionResult)
    (features : DataFrame) : Prediction.t :=
  Prediction.mk (next_id (map Prediction.id (predictions s)))
    match_id model_name model_version
    (r_predicted_outcome r) (r_predicted_home_score r) (r_predicted_away_score r)
    (r_home_win_probability r) (r_draw_probability r) (r_away_win_probability r)
    (r_overall_confidence r) (to_json features)
    ("Model: " ++ model_name ++ ", Version: "
     ++ ModelPredictor.str_version model_version).

(** The row [_save_performance_metrics] hands to the session. *)
Definition performance_row (s : Session) (model_name : ConfigValue)
    (model_version : string) (model_type : ConfigValue) (metrics : Metrics)
    (training_samples test_samples : nat) (training_duration : float)
    (config : gmap string ConfigValue) (training_date : Datetime.t)
  : ModelPerformance.t :=
  ModelPerformance.mk
    (next_id (map ModelPerformance.id (model_performance s)))
    (str_of model_name) model_version
    (m_accuracy metrics)
    (m_precision_home metrics) (m_precision_draw metrics) (m_precision_away metrics)
    (m_recall_home metrics) (m_recall_draw metrics) (m_recall_away metrics)
    (m_f1_score_home metrics) (m_f1_score_draw metrics) (m_f1_score_away metrics)
    (Z.of_nat training_samples) (Z.of_nat test_samples) training_duration
    (json_dumps model_type (config_get "hyperparameters" (Dict ∅) config)
       (config_get "test_size" (Scalar (OFloat 0.2)) config)
       (config_get "random_state" (Scalar (OInt 42)) config))
    training_date false false.

End Rows.

(** The labels of a frame after [df[c] = ...]. *)
Definition assign_label (c : string) (labels : list string) : list string :=
  if bool_decide (c ∈ labels) then labels else labels ++ [c].

(** The labels [create_features] assigns, in the order it assigns them. *)
Definition assigned_labels : list string :=
  [ "is_home"; "league_importance";
    "home_form_5"; "away_form_5"; "home_form_10"; "away_form_10";
    "h2h_home_wins"; "h2h_away_wins"; "h2h_draws"; "h2h_goals_home";
    "h2h_goals_away";
    "season_progress"; "days_since_last_match_home";
    "days_since_last_match_away";
    "home_goals_per_match"; "away_goals_per_match";
    "home_goals_against_per_match"; "away_goals_against_per_match";
    "home_win_percentage"; "away_win_percentage";
    "match_date"; "day_of_week"; "month"; "is_weekend" ].

(** The columns of the frame [create_features] computes for the rows
    of the [matches] table: the nine columns of the rows, then the
    twenty-three features. *)
Definition match_frame_columns : list string :=
  [ "id"; "home_team_id"; "away_team_id"; "league"; "season"; "match_date";
    "home_score"; "away_score"; "result";
    "is_home"; "league_importance"; "home_form_5"; "away_form_5";
    "home_form_10"; "away_form_10"; "h2h_home_wins"; "h2h_away_wins";
    "h2h_draws"; "h2h_goals_home"; "h2h_goals_away"; "season_progress";
    "days_since_last_match_home"; "days_since_last_match_away";
    "home_goals_per_match"; "away_goals_per_match";
    "home_goals_against_per_match"; "away_goals_against_per_match";
    "home_win_percentage"; "away_win_percentage"; "day_of_week";
    "month"; "is_weekend" ].

(** The class of a finished match with [h] home and [a] away goals:
    0 for a home win, 1 for an away win, 2 for a draw. *)
Definition score_label (h a : Z) : Z :=
  if (a <? h)%Z then 0%Z else if (h <? a)%Z then 1%Z else 2%Z.

Definition match_label (m : Match.t) : Z :=
  score_label (default 0%Z (Match.home_score m)) (default 0%Z (Match.away_score m)).

(** A match with both scores. *)
Definition finished (m : Match.t) : Prop :=
  is_Some (Match.home_score m) /\ is_Some (Match.away_score m).

(** The weight of a league: the entry of the table, 3 without one. *)
Definition league_weight (league : string) : Z :=
  default 3%Z (league_importance !! league).

Definition weekend_flag (d : Datetime.t) : Z :=
  if bool_decide (Datetime.weekday d ∈ [5%Z; 6%Z]) then 1%Z else 0%Z.

(** The feature columns that are computed from the row. *)
Definition calendar_and_league_columns : list string :=
  ["league_importance"; "day_of_week"; "month"; "is_weekend"].

(** ** Example data *)

(** A library whose models are the probability vector they predict. *)
Definition example_library : MLLibrary := {|
  Model := list float;
  train_test_split := fun X y _ _ => Return (X, X, y, y);
  fit := fun _ _ _ => Return [0.5%float; 0.3%float; 0.2%float];
  evaluate := fun _ _ _ _ =>
    Return (mkMetrics 0.5 0.5 0.5 0.5 0.5 0.5 0.5 0.5 0.5 0.5);
  predict_proba := fun model _ _ => Return model;
  predict := fun _ _ _ => Return 0%Z;
  int_round_3 := fun _ => Return 1%Z;
  to_json := fun _ => "{}";
  json_dumps := fun _ _ _ _ => "{}";
  str_value := fun _ => "?";
  clock := fun n => Datetime.mk 2024 7 1 10 0 (Z.of_nat n) 0;
  timedelta_str := fun _ _ => "0:00:01";
  total_seconds := fun _ _ => 1%float
|}.

Definition arsenal_chelsea : Match.t :=
  Match.mk 1 10 20 "Premier League" "2023/24"
    (Datetime.mk 2024 6 15 15 0 0 0) (Some 2%Z) (Some 1%Z) "Arsenal" "Chelsea".

Definition accrington_barrow : Match.t :=
  Match.mk 2 30 40 "League Two" "2023/24"
    (Datetime.mk 2024 3 5 19 45 0 0) None None "Accrington" "Barrow".

Definition example_performance (id : Z) (model_name model_version : string)
    (training_date : Datetime.t) (is_active : bool) : ModelPerformance.t :=
  ModelPerformance.mk id model_name model_version
    0.5 0.5 0.5 0.5 0.5 0.5 0.5 0.5 0.5 0.5 80 20 1 "{}"
    training_date is_active false.

(** Version ["v1"] of model ["m1"] was trained after version ["v2"]. *)
Definition registry_session : Session :=
  mkSession []
    []
    [ example_performance 1 "m1" "v2" (Datetime.mk 2024 1 10 9 0 0 0) false;
      example_performance 2 "m1" "v1" (Datetime.mk 2024 2 20 9 0 0 0) false;
      example_performance 3 "m2" "v1" (Datetime.mk 2024 3 1 9 0 0 0) true ].

(** The directory of the specification's example: three versions of
    one model. *)
Definition versioned_artifact (version : string) : @ModelData example_library :=
  @mkModelData example_library [0.5%float; 0.3%float; 0.2%float]
    (Scalar (OStr "random_forest")) ["is_home"; "month"]
    version (Datetime.mk 2024 6 15 12 0 0 0).

Definition three_versions_world : @World example_library :=
  mkWorld (mkSession [] [] [])
    (<["m1_20240101_000000.pkl" := versioned_artifact "20240101_000000"]>
       (<["m1_20240615_120000.pkl" := versioned_artifact "20240615_120000"]>
          (<["m1_20231231_235959.pkl" := versioned_artifact "20231231_235959"]> ∅)))
    0.

(** A directory with one artifact of model ["m"] and an older artifact
    of model ["m_x"], which stores other columns. *)
Definition m_x_artifact : @ModelData example_library :=
  @mkModelData example_library [0.1%float; 0.1%float; 0.8%float]
    (Scalar (OStr "xgboost")) ["league_importance"]
    "20230101_000000" (Datetime.mk 2023 1 1 0 0 0 0).

Definition two_names_world : @World example_library :=
  mkWorld (mkSession [] [] [])
    (<["m_20240101_000000.pkl" := versioned_artifact "20240101_000000"]>
       (<["m_x_20230101_000000.pkl" := m_x_artifact]> ∅))
    0.

Definition registry_world : @World example_library :=
  mkWorld registry_session ∅ 0.

Definition example_session : Session :=
  mkSession [arsenal_chelsea; accrington_barrow] [] [].

(** An artifact of model ["m1"] whose stored column list has two of
    the twenty-three feature columns. *)
Definition two_column_artifact : @ModelData example_library :=
  @mkModelData example_library [0.5%float; 0.3%float; 0.2%float]
    (Scalar (OStr "random_forest")) ["is_home"; "month"]
    "20240615_120000" (Datetime.mk 2024 6 15 12 0 0 0).

(** An artifact of model ["m3"] that asks for a column the engineer
    does not compute. *)
Definition stale_artifact : @ModelData example_library :=
  @mkModelData example_library [0.5%float; 0.3%float; 0.2%float]
    (Scalar (OStr "random_forest")) ["is_home"; "home_elo"]
    "20240615_120000" (Datetime.mk 2024 6 15 12 0 0 0).

Definition prediction_world : @World example_library :=
  mkWorld example_session
    (<["m1_20240615_120000.pkl" := two_column_artifact]>
       (<["m3_20240615_120000.pkl" := stale_artifact]> ∅))
    0.

(** A frame with leagues and no dates. *)
Definition league_only_frame : DataFrame :=
  mkDataFrame 2 [("league", Object [OStr "Serie A"; OStr "Eredivisie"])].

(** A configuration with a model type the trainer does not know. *)
Definition svm_config : gmap string ConfigValue :=
  {[ "model_name" := Scalar (OStr "rf"); "model_type" := Scalar (OStr "svm") ]}.

(** A configuration and a request for a random forest that leave every
    optional field out. *)
Definition forest_config : gmap string ConfigValue :=
  {[ "model_name" := Scalar (OStr "rf");
     "model_type" := Scalar (OStr "random_forest") ]}.

Definition forest_request : Api.TrainingRequest :=
  Api.mkTrainingRequest "rf" "random_forest" None None 0.2 42 None.

(** * Properties *)

(** ** Computations that may raise *)

Lemma bind_Return_inv {A B} (m : result A) (f : A -> result B) b :
  m ≫= f = Return b -> exists a, m = Return a /\ f a = Return b.
Proof. destruct m as [a|e]; [eauto | discriminate]. Qed.

Lemma bind_Return {A B} (a : A) (f : A -> result B) : Return a ≫= f = f a.
Proof. done. Qed.

Lemma bind_Raise {A B} e (f : A -> result B) : Raise e ≫= f = Raise e.
Proof. done. Qed.

(** ** Columns of a frame *)

Lemma lookup_assign_eq c s d :
  lookup_column c (assign_column c s d) = Some s.
Proof.
  induction d as [|[c' s'] d IH]; simpl.
  - rewrite decide_True; done.
  - destruct (decide (c' = c)) as [->|Hne]; simpl.
    + rewrite decide_True; done.
    + rewrite decide_False; done.
Qed.

Lemma lookup_assign_ne c c' s d :
  c <> c' -> lookup_column c' (assign_column c s d) = lookup_column c' d.
Proof.
  intros Hne. induction d as [|[c0 s0] d IH]; simpl.
  - rewrite decide_False; done.
  - destruct (decide (c0 = c)) as [->|Hne0]; simpl.
    + rewrite !decide_False; done.
    + destruct (decide (c0 = c')); done.
Qed.

Lemma lookup_column_Some c d s :
  lookup_column c d = Some s -> c ∈ d.*1.
Proof.
  induction d as [|[c' s'] d IH]; simpl; [done|].
  destruct (decide (c' = c)) as [->|Hne]; intros Hs.
  - left.
  - right. auto.
Qed.

Lemma lookup_column_None c d :
  lookup_column c d = None <-> c ∉ d.*1.
Proof.
  induction d as [|[c' s'] d IH]; simpl.
  - split; [intros _; apply not_elem_of_nil | done].
  - destruct (decide (c' = c)) as [->|Hne].
    + split; [done | intros Hn; exfalso; apply Hn; left].
    + rewrite IH, not_elem_of_cons. split; [by intros ?; split | by intros [_ ?]].
Qed.

Lemma lookup_column_is_Some c d :
  is_Some (lookup_column c d) <-> c ∈ d.*1.
Proof.
  split.
  - intros [s Hs]. eapply lookup_column_Some; eauto.
  - intros Hin. destruct (lookup_column c d) eqn:E; [eauto|].
    apply lookup_column_None in E. done.
Qed.

Lemma lookup_setitem_eq c s df :
  lookup_column c (data (setitem c s df)) = Some s.
Proof. apply lookup_assign_eq. Qed.

Lemma lookup_setitem_ne c c' s df :
  c <> c' ->
  lookup_column c' (data (setitem c s df)) = lookup_column c' (data df).
Proof. apply lookup_assign_ne. Qed.

Lemma nrows_setitem c s df : nrows (setitem c s df) = nrows df.
Proof. done. Qed.

Lemma getitem_Return c df s :
  getitem c df = Return s <-> lookup_column c (data df) = Some s.
Proof.
  unfold getitem. destruct (lookup_column c (data df)); split; congruence.
Qed.

Lemma getitem_setitem_eq c s df : getitem c (setitem c s df) = Return s.
Proof. unfold getitem. by rewrite lookup_setitem_eq. Qed.

Lemma getitem_setitem_ne c c' s df :
  c <> c' -> getitem c' (setitem c s df) = getitem c' df.
Proof. intros Hne. unfold getitem. by rewrite lookup_setitem_ne. Qed.

Lemma lookup_setitem_int_eq c n df :
  lookup_column c (data (setitem_int c n df)) = Some (Int64 (replicate (nrows df) n)).
Proof. apply lookup_assign_eq. Qed.

Lemma lookup_setitem_int_ne c c' n df :
  c <> c' ->
  lookup_column c' (data (setitem_int c n df)) = lookup_column c' (data df).
Proof. apply lookup_assign_ne. Qed.

Lemma lookup_setitem_float_eq c x df :
  lookup_column c (data (setitem_float c x df))
  = Some (Float64 (replicate (nrows df) x)).
Proof. apply lookup_assign_eq. Qed.

Lemma lookup_setitem_float_ne c c' x df :
  c <> c' ->
  lookup_column c' (data (setitem_float c x df)) = lookup_column c' (data df).
Proof. apply lookup_assign_ne. Qed.

Lemma nrows_setitem_int c n df : nrows (setitem_int c n df) = nrows df.
Proof. done. Qed.

Lemma nrows_setitem_float c x df : nrows (setitem_float c x df) = nrows df.
Proof. done. Qed.

(** Rewriting a lookup through the assignments made before it. *)
Ltac lookup_through :=
  repeat first
    [ rewrite lookup_setitem_int_eq
    | rewrite lookup_setitem_float_eq
    | rewrite lookup_setitem_int_ne by (intro; discriminate)
    | rewrite lookup_setitem_float_ne by (intro; discriminate)
    | rewrite lookup_setitem_eq
    | rewrite lookup_setitem_ne by (intro; discriminate) ];
  repeat first
    [ rewrite nrows_setitem_int
    | rewrite nrows_setitem_float
    | rewrite nrows_setitem ].

Lemma assign_column_labels c s d :
  (assign_column c s d).*1 = assign_label c (d.*1).
Proof.
  unfold assign_label. induction d as [|[c' s'] d IH]; [done|].
  cbn [assign_column].
  destruct (decide (c' = c)) as [->|Hne]; rewrite !fmap_cons; cbn [fst].
  - rewrite bool_decide_true; [done | left].
  - rewrite IH. destruct (bool_decide_reflect (c ∈ d.*1)) as [Hin|Hin].
    + rewrite bool_decide_true; [done | by right].
    + rewrite bool_decide_false; [done|].
      rewrite not_elem_of_cons. split; [congruence | done].
Qed.

Lemma columns_setitem c s df :
  columns (setitem c s df) = assign_label c (columns df).
Proof. apply assign_column_labels. Qed.

Lemma columns_setitem_int c n df :
  columns (setitem_int c n df) = assign_label c (columns df).
Proof. apply assign_column_labels. Qed.

Lemma columns_setitem_float c x df :
  columns (setitem_float c x df) = assign_label c (columns df).
Proof. apply assign_column_labels. Qed.

Lemma select_columns_Some cols d :
  Forall (fun c => c ∈ d.*1) cols ->
  exists d', select_columns cols d = Some d'
             /\ d'.*1 = cols
             /\ forall c, c ∈ cols -> lookup_column c d' = lookup_column c d.
Proof.
  induction cols as [|c cols IH]; intros Hall.
  - exists []. split; [done|]. split; [done|]. intros c Hc.
    by apply elem_of_nil in Hc.
  - apply Forall_cons in Hall as [Hc Hall].
    destruct (IH Hall) as (d' & Hsel & Hlabels & Hlook).
    apply lookup_column_is_Some in Hc as [s Hs].
    exists ((c, s) :: d'). cbn [select_columns]. rewrite Hs, Hsel.
    split; [done|]. split; [by rewrite fmap_cons, Hlabels|].
    intros c' Hc'. cbn [lookup_column]. destruct (decide (c = c')) as [<-|Hne]; [done|].
    apply elem_of_cons in Hc' as [->|Hc']; [done|]. by apply Hlook.
Qed.

Lemma select_columns_None cols d :
  ~ Forall (fun c => c ∈ d.*1) cols -> select_columns cols d = None.
Proof.
  induction cols as [|c cols IH]; intros Hnot.
  - exfalso. apply Hnot. constructor.
  - simpl. destruct (lookup_column c d) as [s|] eqn:Hs; [|done].
    rewrite IH; [done|]. intros Hall. apply Hnot.
    apply Forall_cons. split; [|done]. eapply lookup_column_Some; eauto.
Qed.

Lemma lookup_fillna n c df :
  lookup_column c (data (fillna n df))
  = fillna_series n <$> lookup_column c (data df).
Proof.
  unfold fillna. simpl. induction (data df) as [|[c' s'] d IH]; [done|].
  simpl. destruct (decide (c' = c)); [done | apply IH].
Qed.

Lemma columns_fillna n df : columns (fillna n df) = columns df.
Proof.
  unfold columns, fillna. cbn [data].
  induction (data df) as [|[c' s'] d IH]; [done|].
  rewrite map_cons, !fmap_cons, IH. done.
Qed.

(** ** Feature engineering *)

Section FeatureProperties.
Variable self : FeatureEngineer.

Lemma basic_features_inv df out :
  _add_basic_features self df = Return out ->
  nrows out = nrows df
  /\ lookup_column "is_home" (data out) = Some (Int64 (replicate (nrows df) 1%Z))
  /\ (forall c, c <> "is_home" -> c <> "league_importance" ->
        lookup_column c (data out) = lookup_column c (data df)).
Proof.
  unfold _add_basic_features. intros Hout.
  apply bind_Return_inv in Hout as (league & _ & [= <-]).
  split; [done|]. split.
  - by lookup_through.
  - intros c H1 H2.
    by rewrite lookup_setitem_ne, lookup_setitem_int_ne by congruence.
Qed.

Lemma time_features_inv df out :
  _add_time_features self df = Return out ->
  nrows out = nrows df
  /\ (forall c, c <> "match_date" -> c <> "day_of_week" -> c <> "month" ->
        c <> "is_weekend" ->
        lookup_column c (data out) = lookup_column c (data df)).
Proof.
  unfold _add_time_features. case_bool_decide as Hin.
  2:{ intros [= <-]. done. }
  destruct (getitem "match_date" df) as [raw|e]; simpl; [|discriminate].
  destruct (to_datetime raw) as [dates|e]; simpl; [|discriminate].
  rewrite getitem_setitem_eq. simpl.
  destruct (dt_field Datetime.weekday dates) as [dow|e]; simpl; [|discriminate].
  rewrite getitem_setitem_ne, getitem_setitem_eq by discriminate. simpl.
  destruct (dt_field Datetime.month dates) as [mon|e]; simpl; [|discriminate].
  rewrite getitem_setitem_ne, getitem_setitem_eq by discriminate. simpl.
  intros [= <-]. split; [done|].
  intros c H1 H2 H3 H4. rewrite !lookup_setitem_ne by congruence. done.
Qed.

Lemma form_stage df :
  _add_form_features self df
  = Return (setitem_float "away_form_10" 0.5
           (setitem_float "home_form_10" 0.5
           (setitem_float "away_form_5" 0.5
           (setitem_float "home_form_5" 0.5 df)))).
Proof. reflexivity. Qed.

Lemma h2h_stage df :
  _add_h2h_features self df
  = Return (setitem_int "h2h_goals_away" 0
           (setitem_int "h2h_goals_home" 0
           (setitem_int "h2h_draws" 0
           (setitem_int "h2h_away_wins" 0
           (setitem_int "h2h_home_wins" 0 df))))).
Proof. reflexivity. Qed.

Lemma seasonal_stage df :
  _add_seasonal_features self df
  = Return (setitem_int "days_since_last_match_away" 7
           (setitem_int "days_since_last_match_home" 7
           (setitem_float "season_progress" 0.5 df))).
Proof. reflexivity. Qed.

Lemma statistical_stage df :
  _add_statistical_features self df
  = Return (setitem_float "away_win_percentage" 0.4
           (setitem_float "home_win_percentage" 0.4
           (setitem_float "away_goals_against_per_match" 1.2
           (setitem_float "home_goals_against_per_match" 1.2
           (setitem_float "away_goals_per_match" 1.5
           (setitem_float "home_goals_per_match" 1.5 df)))))).
Proof. reflexivity. Qed.

Lemma create_features_stages df :
  create_features self df
  = df1 ← _add_basic_features self df;
    df6 ← _add_time_features self (placeholder_stages df1);
    Return df6.
Proof.
  unfold create_features.
  destruct (_add_basic_features self df) as [df1|e];
    [|rewrite !bind_Raise; reflexivity].
  rewrite !bind_Return. cbv beta.
  rewrite form_stage, bind_Return. cbv beta.
  rewrite h2h_stage, bind_Return. cbv beta.
  rewrite seasonal_stage, bind_Return. cbv beta.
  rewrite statistical_stage, bind_Return. cbv beta.
  unfold placeholder_stages. reflexivity.
Qed.

Lemma nrows_placeholder_stages df : nrows (placeholder_stages df) = nrows df.
Proof. done. Qed.

Lemma create_features_placeholders df out :
  create_features self df = Return out ->
  nrows out = nrows df
  /\ Forall (fun '(c, s) => lookup_column c (data out) = Some s)
       (placeholder_columns (nrows df)).
Proof.
  rewrite create_features_stages. intros Hout.
  apply bind_Return_inv in Hout as (df1 & E1 & Hout).
  apply basic_features_inv in E1 as (Hn1 & Hhome & _).
  apply bind_Return_inv in Hout as (df6 & E6 & [= <-]).
  apply time_features_inv in E6 as (Hn6 & Hframe).
  split; [by rewrite Hn6, nrows_placeholder_stages|].
  unfold placeholder_columns, placeholder_stages in *.
  repeat (apply Forall_cons; split;
          [rewrite Hframe by discriminate; lookup_through;
           rewrite ?Hn1; try done|]).
  constructor.
Qed.

Lemma time_features_returns df dates :
  lookup_column "match_date" (data df) = Some (Datetime64 dates) ->
  exists out, _add_time_features self df = Return out.
Proof.
  intros Hd. unfold _add_time_features.
  rewrite bool_decide_true by (eapply lookup_column_Some; eauto).
  rewrite (proj2 (getitem_Return _ _ _) Hd), bind_Return.
  unfold to_datetime. rewrite bind_Return, getitem_setitem_eq, bind_Return.
  assert (forall f, exists s, dt_field f (Datetime64 dates) = Return s) as Hf.
  { intros f. unfold dt_field. destruct (forallb _ dates); eauto. }
  destruct (Hf Datetime.weekday) as [dow ->]. rewrite bind_Return.
  rewrite getitem_setitem_ne, getitem_setitem_eq, bind_Return by discriminate.
  destruct (Hf Datetime.month) as [mon ->]. rewrite bind_Return.
  rewrite getitem_setitem_ne, getitem_setitem_eq, bind_Return by discriminate.
  eauto.
Qed.

Lemma create_features_returns df league dates :
  lookup_column "league" (data df) = Some league ->
  lookup_column "match_date" (data df) = Some (Datetime64 dates) ->
  exists out, create_features self df = Return out.
Proof.
  intros Hl Hd. rewrite create_features_stages. unfold _add_basic_features.
  rewrite (proj2 (getitem_Return "league" (setitem_int "is_home" 1 df) league))
    by (by rewrite lookup_setitem_int_ne by discriminate).
  rewrite !bind_Return.
  edestruct time_features_returns as [out ->]; [|rewrite bind_Return; eauto].
  unfold placeholder_stages. lookup_through. exact Hd.
Qed.

Lemma create_features_matches_frame m ms :
  exists out, create_features self (matches_frame (m :: ms)) = Return out.
Proof. eapply create_features_returns; reflexivity. Qed.

Lemma elem_of_assign_label c c' labels :
  c ∈ labels -> c ∈ assign_label c' labels.
Proof.
  intros Hin. unfold assign_label. destruct (bool_decide _); [done|].
  apply elem_of_app. by left.
Qed.

Lemma time_features_form df out :
  _add_time_features self df = Return out ->
  "match_date" ∈ columns df ->
  exists s0 s1 s2 s3,
    out = setitem "is_weekend" s3
            (setitem "month" s2
               (setitem "day_of_week" s1 (setitem "match_date" s0 df))).
Proof.
  unfold _add_time_features. intros Hout Hin.
  rewrite bool_decide_true in Hout by done.
  apply bind_Return_inv in Hout as (raw & _ & Hout).
  apply bind_Return_inv in Hout as (dates & _ & Hout).
  rewrite getitem_setitem_eq, bind_Return in Hout.
  apply bind_Return_inv in Hout as (dow & _ & Hout).
  rewrite getitem_setitem_ne, getitem_setitem_eq, bind_Return in Hout
    by discriminate.
  apply bind_Return_inv in Hout as (mon & _ & Hout).
  rewrite getitem_setitem_ne, getitem_setitem_eq, bind_Return in Hout
    by discriminate.
  injection Hout as <-. eauto.
Qed.

Lemma create_features_columns df out :
  create_features self df = Return out ->
  "match_date" ∈ columns df ->
  columns out = foldl (fun labels c => assign_label c labels) (columns df)
                  assigned_labels.
Proof.
  rewrite create_features_stages. intros Hout Hin.
  apply bind_Return_inv in Hout as (df1 & E1 & Hout).
  unfold _add_basic_features in E1.
  apply bind_Return_inv in E1 as (league & _ & [= <-]).
  apply bind_Return_inv in Hout as (df6 & E6 & [= <-]).
  apply time_features_form in E6 as (s0 & s1 & s2 & s3 & ->).
  - unfold placeholder_stages.
    repeat first [ rewrite columns_setitem | rewrite columns_setitem_int
                 | rewrite columns_setitem_float ].
    unfold assigned_labels. cbn [foldl]. reflexivity.
  - unfold placeholder_stages.
    repeat first [ rewrite columns_setitem | rewrite columns_setitem_int
                 | rewrite columns_setitem_float ].
    repeat apply elem_of_assign_label. exact Hin.
Qed.

Lemma create_features_match_columns m ms out :
  create_features self (matches_frame (m :: ms)) = Return out ->
  columns out = match_frame_columns.
Proof.
  intros Hout. apply create_features_columns in Hout.
  - rewrite Hout. vm_compute. reflexivity.
  - change (columns (matches_frame (m :: ms)))
      with (take 9 match_frame_columns).
    apply (bool_decide_unpack _). vm_compute. reflexivity.
Qed.

End FeatureProperties.

(** No stage reads the engineer's session. *)
Lemma basic_features_session self1 self2 df :
  _add_basic_features self1 df = _add_basic_features self2 df.
Proof. reflexivity. Qed.

Lemma time_features_session self1 self2 df :
  _add_time_features self1 df = _add_time_features self2 df.
Proof. reflexivity. Qed.

Lemma create_features_session self1 self2 df :
  create_features self1 df = create_features self2 df.
Proof.
  rewrite !create_features_stages.
  rewrite (basic_features_session self1 self2).
  destruct (_add_basic_features self2 df) as [df1|e];
    [|rewrite !bind_Raise; reflexivity].
  rewrite !bind_Return.
  rewrite (time_features_session self1 self2).
  reflexivity.
Qed.

Lemma prepare_training_data_session self1 self2 df :
  prepare_training_data self1 df = prepare_training_data self2 df.
Proof.
  unfold prepare_training_data.
  rewrite (create_features_session self1 self2).
  destruct (create_features self2 df) as [out|e];
    [|rewrite !bind_Raise; reflexivity].
  reflexivity.
Qed.

(** C8: [create_features] is deterministic: its result is a function of
    the frame it is given and of nothing else.  The session the engineer
    holds is the only state in reach and is not read, so two engineers,
    or one engineer before and after the database changed, compute the same
    frame from the same rows, at training and at prediction time. *)
Theorem create_features_deterministic :
  forall (self1 self2 : FeatureEngineer) (matches_df : DataFrame),
    create_features self1 matches_df = create_features self2 matches_df
    /\ prepare_training_data self1 matches_df
       = prepare_training_data self2 matches_df
    /\ forall match_ feature_columns,
         ModelPredictor._prepare_match_features self1 match_ feature_columns
         = ModelPredictor._prepare_match_features self2 match_ feature_columns.
Proof.
  intros self1 self2 matches_df.
  split; [apply create_features_session|].
  split; [apply prepare_training_data_session|].
  intros match_ feature_columns.
  unfold ModelPredictor._prepare_match_features.
  rewrite (create_features_session self1 self2).
  destruct (create_features self2 (matches_frame [match_])) as [out|e];
    [|rewrite !bind_Raise; reflexivity].
  reflexivity.
Qed.

Lemma placeholder_columns_cover self c :
  c ∈ get_feature_columns self -> c ∉ calendar_and_league_columns ->
  c ∈ (placeholder_columns 0).*1.
Proof.
  intros Hin Hout.
  assert (Forall (fun c => c ∈ calendar_and_league_columns
                           \/ c ∈ (placeholder_columns 0).*1)
            (get_feature_columns self)) as Hall.
  { apply Forall_forall. intros c' Hc'.
    apply (bool_decide_unpack _).
    revert c' Hc'. apply Forall_forall. apply (bool_decide_unpack _).
    vm_compute. reflexivity. }
  rewrite Forall_forall in Hall. destruct (Hall c Hin); done.
Qed.

Lemma placeholder_columns_agree n out1 out2 c :
  Forall (fun '(c, s) => lookup_column c (data out1) = Some s)
    (placeholder_columns n) ->
  Forall (fun '(c, s) => lookup_column c (data out2) = Some s)
    (placeholder_columns n) ->
  c ∈ (placeholder_columns 0).*1 ->
  lookup_column c (data out1) = lookup_column c (data out2).
Proof.
  intros H1 H2 Hin.
  change ((placeholder_columns 0).*1) with ((placeholder_columns n).*1) in Hin.
  apply list_elem_of_fmap in Hin as ([c' s] & -> & Hin).
  rewrite Forall_forall in H1, H2.
  specialize (H1 _ Hin). specialize (H2 _ Hin). simpl in *. congruence.
Qed.

Lemma nrows_matches_frame ms : nrows (matches_frame ms) = length ms.
Proof. by destruct ms. Qed.

(** C10: whatever the rows are and whatever match history the
    engineer's session holds, the form, head-to-head, seasonal and
    statistical columns hold the constants of [placeholder_columns] in
    every row; two inputs of the same length differ at most in the
    league-importance and calendar columns, and in those they can differ. *)
Theorem placeholder_features_are_constants :
  forall (self : FeatureEngineer) (ms : list Match.t),
    ms <> [] ->
    exists out,
      create_features self (matches_frame ms) = Return out
      /\ nrows out = length ms
      /\ Forall (fun '(c, s) => lookup_column c (data out) = Some s)
           (placeholder_columns (length ms))
      /\ (forall self' ms' out',
            length ms' = length ms ->
            create_features self' (matches_frame ms') = Return out' ->
            forall c, c ∈ get_feature_columns self ->
                      c ∉ calendar_and_league_columns ->
                      lookup_column c (data out') = lookup_column c (data out))
      /\ (exists out1 out2,
            create_features self (matches_frame [arsenal_chelsea]) = Return out1
            /\ create_features self (matches_frame [accrington_barrow]) = Return out2
            /\ Forall (fun c => lookup_column c (data out1)
                                <> lookup_column c (data out2))
                 calendar_and_league_columns).
Proof.
  intros self ms Hms. destruct ms as [|m ms]; [done|].
  destruct (create_features_matches_frame self m ms) as [out Hout].
  exists out. split; [done|].
  destruct (create_features_placeholders _ _ _ Hout) as [Hn Hcols].
  rewrite nrows_matches_frame in Hn, Hcols.
  split; [done|]. split; [done|]. split.
  - intros self' ms' out' Hlen Hout' c Hc Hnc.
    destruct (create_features_placeholders _ _ _ Hout') as [_ Hcols'].
    rewrite nrows_matches_frame, Hlen in Hcols'.
    eapply placeholder_columns_agree; eauto using placeholder_columns_cover.
  - rewrite !(create_features_session self (mkFeatureEngineer example_session)).
    eexists _, _. split; [vm_compute; reflexivity|].
    split; [vm_compute; reflexivity|].
    repeat (apply Forall_cons; split; [vm_compute; discriminate|]).
    constructor.
Qed.

Lemma placeholder_features_are_constants_witness :
  [arsenal_chelsea; accrington_barrow] <> []
  /\ exists out,
       create_features (mkFeatureEngineer example_session)
         (matches_frame [arsenal_chelsea; accrington_barrow]) = Return out
       /\ lookup_column "home_win_percentage" (data out)
          = Some (Float64 [0.4%float; 0.4%float]).
Proof.
  split; [discriminate|].
  destruct (placeholder_features_are_constants
              (mkFeatureEngineer example_session)
              [arsenal_chelsea; accrington_barrow])
    as (out & Hout & _ & Hcols & _); [discriminate|].
  exists out. split; [exact Hout|].
  rewrite Forall_forall in Hcols.
  apply (Hcols ("home_win_percentage", Float64 [0.4%float; 0.4%float])).
  unfold placeholder_columns. simpl.
  repeat first [apply list_elem_of_here | apply list_elem_of_further].
Defined.

(** ** The model endpoints *)

Section EndpointProperties.
Context `{MLLibrary}.

Lemma filter_negb_eqb_elem {A} (name_of : A -> string) name (l : list A) x :
  x ∈ List.filter (fun y => negb (String.eqb (name_of y) name)) l
  <-> x ∈ l /\ name_of x <> name.
Proof.
  rewrite !list_elem_of_In, filter_In, negb_true_iff, String.eqb_neq. done.
Qed.

Lemma filter_negb_eqb_idem {A} (name_of : A -> string) name (l : list A) :
  filter (fun y => name_of y <> name)
    (List.filter (fun y => negb (String.eqb (name_of y) name)) l)
  = filter (fun y => name_of y <> name) l.
Proof.
  induction l as [|y l IH]; [done|]. simpl.
  destruct (String.eqb_spec (name_of y) name) as [Heq|Hne]; simpl.
  - rewrite IH. rewrite filter_cons_False; [done|]. by intros Hn.
  - rewrite !filter_cons_True by done. by rewrite IH.
Qed.

(** C7: deleting a model name leaves no prediction row and no
    performance row of that name, and keeps the rows of every other name,
    the same rows in the same order; matches and model files are not
    touched. *)
Theorem delete_model_cascade :
  forall (model_name : string) (w : World),
  exists msg w',
    Api.delete_model model_name w = (Return msg, w')
    /\ (forall p, p ∈ predictions (db w') <->
                  p ∈ predictions (db w) /\ Prediction.model_name p <> model_name)
    /\ (forall r, r ∈ model_performance (db w') <->
                  r ∈ model_performance (db w)
                  /\ ModelPerformance.model_name r <> model_name)
    /\ filter (fun p => Prediction.model_name p <> model_name) (predictions (db w'))
       = filter (fun p => Prediction.model_name p <> model_name) (predictions (db w))
    /\ filter (fun r => ModelPerformance.model_name r <> model_name)
         (model_performance (db w'))
       = filter (fun r => ModelPerformance.model_name r <> model_name)
           (model_performance (db w))
    /\ matches (db w') = matches (db w)
    /\ models_dir w' = models_dir w.
Proof.
  intros model_name w. eexists _, _. split; [reflexivity|]. simpl.
  split; [intros p; apply filter_negb_eqb_elem|].
  split; [intros r; apply (filter_negb_eqb_elem ModelPerformance.model_name)|].
  split; [apply filter_negb_eqb_idem|].
  split; [apply (filter_negb_eqb_idem ModelPerformance.model_name)|].
  done.
Qed.

Lemma latest_from b rows :
  exists b',
    foldl (fun best r =>
             match best with
             | None => Some r
             | Some b =>
                 if (Datetime.timestamp (ModelPerformance.training_date b)
                     <? Datetime.timestamp (ModelPerformance.training_date r))%Z
                 then Some r else Some b
             end) (Some b) rows = Some b'
    /\ b' ∈ b :: rows
    /\ forall r, r ∈ b :: rows ->
         (Datetime.timestamp (ModelPerformance.training_date r)
          <= Datetime.timestamp (ModelPerformance.training_date b'))%Z.
Proof.
  revert b. induction rows as [|r rows IH]; intros b; simpl.
  - exists b. split; [done|]. split; [left|].
    intros r Hr. apply list_elem_of_singleton in Hr as ->. lia.
  - destruct (Z.ltb_spec (Datetime.timestamp (ModelPerformance.training_date b))
                (Datetime.timestamp (ModelPerformance.training_date r))) as [Hlt|Hge].
    + destruct (IH r) as (b' & -> & Hin & Hmax). exists b'.
      split; [done|]. split; [by right|].
      intros r' Hr'. apply elem_of_cons in Hr' as [->|Hr'].
      * specialize (Hmax r (list_elem_of_here _ _)). lia.
      * by apply Hmax.
    + destruct (IH b) as (b' & -> & Hin & Hmax). exists b'.
      split; [done|]. split.
      * apply elem_of_cons in Hin as [->|Hin]; [left | by do 2 right].
      * intros r' Hr'. apply elem_of_cons in Hr' as [->|Hr'].
        { apply Hmax. left. }
        apply elem_of_cons in Hr' as [->|Hr'].
        { specialize (Hmax b (list_elem_of_here _ _)). lia. }
        apply Hmax. by right.
Qed.

Lemma latest_spec rows :
  rows <> [] ->
  exists b, Api.latest rows = Some b /\ b ∈ rows
            /\ forall r, r ∈ rows ->
                 (Datetime.timestamp (ModelPerformance.training_date r)
                  <= Datetime.timestamp (ModelPerformance.training_date b))%Z.
Proof.
  destruct rows as [|r rows]; [done|]. intros _. apply (latest_from r rows).
Qed.

Lemma primary_key_unique (l : list ModelPerformance.t) r r0 :
  NoDup (map ModelPerformance.id l) -> r ∈ l -> r0 ∈ l ->
  ModelPerformance.id r = ModelPerformance.id r0 -> r = r0.
Proof.
  induction l as [|x l IH]; simpl; intros Hnd Hr Hr0 Hid.
  - by apply elem_of_nil in Hr.
  - apply NoDup_cons in Hnd as [Hx Hnd].
    apply elem_of_cons in Hr as [->|Hr]; apply elem_of_cons in Hr0 as [->|Hr0];
      [done| | |by apply IH].
    + exfalso. apply Hx. rewrite Hid. by apply list_elem_of_fmap_2.
    + exfalso. apply Hx. rewrite <- Hid. by apply list_elem_of_fmap_2.
Qed.

(** The two updates of [activate_model], row by row. *)
Local Abbreviation deactivate name :=
  (fun r => if Api.of_model name r
            then ModelPerformance.set_is_active false r else r).
Local Abbreviation activate_row i :=
  (fun r => if (ModelPerformance.id r =? i)%Z
            then ModelPerformance.set_is_active true r else r).

Lemma of_model_true name r :
  Api.of_model name r = true <-> ModelPerformance.model_name r = name.
Proof. apply String.eqb_eq. Qed.

Lemma of_model_false name r :
  Api.of_model name r = false <-> ModelPerformance.model_name r <> name.
Proof. apply String.eqb_neq. Qed.

Lemma activate_rows_active name r0 (l : list ModelPerformance.t) :
  ModelPerformance.model_name r0 = name ->
  NoDup (map ModelPerformance.id l) ->
  (forall r, r ∈ l -> ModelPerformance.id r = ModelPerformance.id r0 -> r = r0) ->
  filter (fun r => ModelPerformance.model_name r = name
                   /\ ModelPerformance.is_active r = true)
    (map (activate_row (ModelPerformance.id r0)) (map (deactivate name) l))
  = if bool_decide (ModelPerformance.id r0 ∈ map ModelPerformance.id l)
    then [ModelPerformance.set_is_active true r0] else [].
Proof.
  intros Hname. induction l as [|x l IH]; intros Hnd Hkey; [done|].
  rewrite !map_cons in *. apply NoDup_cons in Hnd as [Hx Hnd].
  specialize (IH Hnd (fun r Hr => Hkey r (list_elem_of_further _ _ _ Hr))).
  destruct (decide (ModelPerformance.id x = ModelPerformance.id r0)) as [Hid|Hid].
  - assert (x = r0) as -> by (apply Hkey; [left | done]).
    rewrite (proj2 (of_model_true name r0) Hname). simpl.
    rewrite Z.eqb_refl. rewrite filter_cons_True by done.
    rewrite IH, bool_decide_false by done.
    rewrite bool_decide_true by left. done.
  - assert (ModelPerformance.id
              (if Api.of_model name x
               then ModelPerformance.set_is_active false x else x)
            = ModelPerformance.id x) as Hidx by (by destruct (Api.of_model name x)).
    rewrite Hidx, (proj2 (Z.eqb_neq _ _) Hid).
    rewrite filter_cons_False.
    2:{ destruct (Api.of_model name x) eqn:E; simpl.
        - intros [_ ?]; done.
        - apply of_model_false in E. intros [? _]; done. }
    rewrite IH.
    destruct (bool_decide_reflect
                (ModelPerformance.id r0 ∈ map ModelPerformance.id l)) as [Hin|Hin].
    + rewrite bool_decide_true; [done | by right].
    + rewrite bool_decide_false; [done|].
      rewrite not_elem_of_cons. split; [congruence | done].
Qed.

Lemma activate_rows_others name r0 (l : list ModelPerformance.t) :
  ModelPerformance.model_name r0 = name ->
  (forall r, r ∈ l -> ModelPerformance.id r = ModelPerformance.id r0 -> r = r0) ->
  filter (fun r => ModelPerformance.model_name r <> name)
    (map (activate_row (ModelPerformance.id r0)) (map (deactivate name) l))
  = filter (fun r => ModelPerformance.model_name r <> name) l.
Proof.
  intros Hname. induction l as [|x l IH]; intros Hkey; [done|].
  rewrite !map_cons.
  specialize (IH (fun r Hr => Hkey r (list_elem_of_further _ _ _ Hr))).
  destruct (Api.of_model name x) eqn:E.
  - apply of_model_true in E.
    rewrite !filter_cons_False, IH; [done| |].
    + by intros Hn.
    + intros Hn. apply Hn. by destruct (_ =? _)%Z.
  - apply of_model_false in E.
    assert (ModelPerformance.id x <> ModelPerformance.id r0) as Hid.
    { intros Hid. apply E. by rewrite (Hkey x (list_elem_of_here _ _) Hid). }
    rewrite (proj2 (Z.eqb_neq _ _) Hid).
    rewrite !filter_cons_True, IH; done.
Qed.

Lemma deactivate_filter name (l : list ModelPerformance.t) r :
  r ∈ List.filter (Api.of_model name) (map (deactivate name) l) ->
  exists r0, r0 ∈ l /\ ModelPerformance.model_name r0 = name
             /\ r = ModelPerformance.set_is_active false r0.
Proof.
  rewrite list_elem_of_In, filter_In, in_map_iff.
  intros [(r0 & Hr & Hin) Hof]. exists r0.
  rewrite list_elem_of_In. split; [done|].
  destruct (Api.of_model name r0) eqn:E.
  - apply of_model_true in E. done.
  - subst r. congruence.
Qed.

Lemma deactivate_filter_elem name (l : list ModelPerformance.t) r0 :
  r0 ∈ l -> ModelPerformance.model_name r0 = name ->
  ModelPerformance.set_is_active false r0
  ∈ List.filter (Api.of_model name) (map (deactivate name) l).
Proof.
  intros Hin Hname. rewrite list_elem_of_In, filter_In, in_map_iff. split.
  - exists r0. rewrite (proj2 (of_model_true name r0) Hname).
    by rewrite <- list_elem_of_In.
  - by apply of_model_true.
Qed.

(** C6, as amended: the endpoint takes a model name and no version.
    When the table has a row of that name (and primary keys are unique),
    the call answers with the version of a row of that name that has the
    greatest training date, leaves that row as the only active row of the
    name, and does not change the rows of other names. *)
Theorem activate_model_exclusive :
  forall (model_name : string) (w : World),
    NoDup (map ModelPerformance.id (model_performance (db w))) ->
    (exists r, r ∈ model_performance (db w)
               /\ ModelPerformance.model_name r = model_name) ->
    exists latest_model response w',
      Api.activate_model model_name w = (Return response, w')
      /\ latest_model ∈ model_performance (db w)
      /\ ModelPerformance.model_name latest_model = model_name
      /\ (forall r, r ∈ model_performance (db w) ->
            ModelPerformance.model_name r = model_name ->
            (Datetime.timestamp (ModelPerformance.training_date r)
             <= Datetime.timestamp (ModelPerformance.training_date latest_model))%Z)
      /\ Api.a_version response = ModelPerformance.model_version latest_model
      /\ filter (fun r => ModelPerformance.model_name r = model_name
                          /\ ModelPerformance.is_active r = true)
           (model_performance (db w'))
         = [ModelPerformance.set_is_active true latest_model]
      /\ filter (fun r => ModelPerformance.model_name r <> model_name)
           (model_performance (db w'))
         = filter (fun r => ModelPerformance.model_name r <> model_name)
             (model_performance (db w)).
Proof.
  intros model_name w Hnd (r1 & Hr1 & Hname1).
  destruct (latest_spec
              (List.filter (Api.of_model model_name)
                 (map (deactivate model_name) (model_performance (db w)))))
    as (b & Hlatest & Hb & Hmax).
  { intros Hnil. pose proof (deactivate_filter_elem _ _ _ Hr1 Hname1) as Hin.
    rewrite Hnil in Hin. by apply elem_of_nil in Hin. }
  apply deactivate_filter in Hb as (r0 & Hr0 & Hname0 & ->).
  exists r0.
  unfold Api.activate_model, mbind, M_bind, get_db, set_db, mret, M_ret. simpl.
  rewrite Hlatest. eexists _, _. split; [reflexivity|]. simpl.
  split; [done|]. split; [done|]. split.
  { intros r Hr Hname.
    apply (Hmax _ (deactivate_filter_elem _ _ _ Hr Hname)). }
  split; [done|].
  assert (forall r, r ∈ model_performance (db w) ->
                    ModelPerformance.id r = ModelPerformance.id r0 -> r = r0)
    as Hkey by (intros r Hr; by apply primary_key_unique with (l := model_performance (db w))).
  split.
  - rewrite (activate_rows_active model_name r0) by done.
    rewrite bool_decide_true; [done|].
    apply list_elem_of_In, in_map, list_elem_of_In, Hr0.
  - by apply (activate_rows_others model_name r0).
Qed.

(** Without a row of that name the answer is 404 and nothing changes. *)
Lemma activate_model_not_found model_name (w : World) :
  (forall r, r ∈ model_performance (db w) ->
             ModelPerformance.model_name r <> model_name) ->
  exists w',
    Api.activate_model model_name w
    = (Raise (HTTPException 404 "Model not found"), w')
    /\ model_performance (db w') = model_performance (db w).
Proof.
  intros Hnone.
  assert (map (deactivate model_name) (model_performance (db w))
          = model_performance (db w)) as Hsame.
  { induction (model_performance (db w)) as [|x l IH]; [done|].
    rewrite map_cons, IH.
    - rewrite (proj2 (of_model_false model_name x)); [done|]. apply Hnone. left.
    - intros r Hr. apply Hnone. by right. }
  assert (List.filter (Api.of_model model_name) (model_performance (db w)) = [])
    as Hnil.
  { induction (model_performance (db w)) as [|x l IH]; [done|]. simpl.
    rewrite (proj2 (of_model_false model_name x)) by (apply Hnone; left).
    apply IH.
    - intros r Hr. apply Hnone. by right.
    - by injection Hsame. }
  unfold Api.activate_model, mbind, M_bind, get_db, set_db, mret, M_ret. simpl.
  rewrite Hsame, Hnil. simpl. eauto.
Qed.

End EndpointProperties.

(** ** Computations in the world *)

Section WorldProperties.
Context `{MLLibrary}.

Lemma M_bind_Return_inv {A B} (m : M A) (f : A -> M B) w b w' :
  (m ≫= f) w = (Return b, w') ->
  exists a w1, m w = (Return a, w1) /\ f a w1 = (Return b, w').
Proof.
  unfold mbind, M_bind. destruct (m w) as [[a|e] w1]; [eauto | discriminate].
Qed.

Lemma try_exceptM_Return {A} (body : M A) handler w a w' :
  body w = (Return a, w') -> try_exceptM body handler w = (Return a, w').
Proof. unfold try_exceptM. by intros ->. Qed.

Lemma try_exceptM_Raise {A} (body : M A) handler w e w' :
  body w = (Raise e, w') -> try_exceptM body handler w = handler e w'.
Proof. unfold try_exceptM. by intros ->. Qed.

Lemma M_bind_eq {A B} (m : M A) (f : A -> M B) w a w1 :
  m w = (Return a, w1) -> (m ≫= f) w = f a w1.
Proof. unfold mbind, M_bind. by intros ->. Qed.

Lemma lift_Return_inv {A} (r : result A) w a w' :
  lift r w = (Return a, w') -> r = Return a /\ w' = w.
Proof. unfold lift. by intros [= -> ->]. Qed.

End WorldProperties.

(** ** Training *)

Section TrainerProperties.
Context `{MLLibrary}.

Lemma get_training_data_world config (w : World) r w' :
  ModelTrainer._get_training_data config w = (r, w') -> w' = w.
Proof.
  unfold ModelTrainer._get_training_data, mbind, M_bind, get_db, mret, M_ret, lift.
  destruct (ModelTrainer.training_query config (db w)); by intros [= _ <-].
Qed.

Lemma get_training_data_empty config (w : World) :
  ModelTrainer.training_query config (db w) = [] ->
  ModelTrainer._get_training_data config w
  = (Return (empty_frame, Int64 [], []), w).
Proof.
  intros Hq.
  unfold ModelTrainer._get_training_data, mbind, M_bind, get_db. by rewrite Hq.
Qed.

Lemma train_model_by_type_unknown model_type X_train y_train config :
  ModelTrainer.known_model_type model_type = false ->
  ModelTrainer._train_model_by_type model_type X_train y_train config
  = Raise (Exc ValueError ("Unknown model type: " ++ str_of model_type)).
Proof.
  unfold ModelTrainer.known_model_type, ModelTrainer._train_model_by_type.
  rewrite !orb_false_iff. intros [[[-> ->] ->] ->]. done.
Qed.

Lemma config_getitem_Some key config v :
  config !! key = Some v -> config_getitem key config = Return v.
Proof. unfold config_getitem. by intros ->. Qed.

Lemma config_getitem_Return key config v :
  config_getitem key config = Return v -> config !! key = Some v.
Proof. unfold config_getitem. destruct (config !! key); by intros [= ->]. Qed.

Lemma train_model_handler config name e (w1 : World) :
  config !! "model_name" = Some name ->
  (model_name ← lift (config_getitem "model_name" config);
   mret (ModelTrainer.TrainingError (str e) model_name)) w1
  = (Return (ModelTrainer.TrainingError (str e) name), w1).
Proof.
  intros Hname. unfold mbind, M_bind, lift, mret, M_ret.
  by rewrite (config_getitem_Some _ _ _ Hname).
Qed.

Lemma train_model_by_type_known model_type X_train y_train config model :
  ModelTrainer._train_model_by_type model_type X_train y_train config
  = Return model ->
  ModelTrainer.known_model_type model_type = true.
Proof.
  intros Hfit. destruct (ModelTrainer.known_model_type model_type) eqn:E; [done|].
  rewrite train_model_by_type_unknown in Hfit by done. discriminate.
Qed.

Lemma save_model_run model model_name model_type feature_columns (w : World) :
  ModelTrainer._save_model model model_name model_type feature_columns w
  = (Return (Datetime.strftime_version (clock (ticks w))),
     mkWorld (db w)
       (<[str_of model_name ++ "_"
          ++ Datetime.strftime_version (clock (ticks w)) ++ ".pkl"
          := mkModelData model model_type feature_columns
               (Datetime.strftime_version (clock (ticks w)))
               (clock (S (ticks w)))]> (models_dir w))
       (S (S (ticks w)))).
Proof. reflexivity. Qed.

Lemma save_performance_run model_name model_version model_type metrics
    training_samples test_samples training_duration config (w : World) w' :
  ModelTrainer._save_performance_metrics model_name model_version model_type
    metrics training_samples test_samples training_duration config w
  = (Return tt, w') ->
  exists performance,
    db w' = mkSession (matches (db w)) (predictions (db w))
              (model_performance (db w) ++ [performance])
    /\ models_dir w' = models_dir w
    /\ ModelPerformance.model_name performance = str_of model_name
    /\ ModelPerformance.model_version performance = model_version
    /\ ModelPerformance.accuracy performance = m_accuracy metrics
    /\ ModelPerformance.is_active performance = false.
Proof.
  unfold ModelTrainer._save_performance_metrics, mbind, M_bind, get_db, now,
    set_db.
  intros [= <-]. eexists. repeat split.
Qed.

Lemma train_model_outcome training_config name (w : World) :
  training_config !! "model_name" = Some name ->
  exists r w',
    ModelTrainer.train_model training_config w = (Return r, w')
    /\ ModelTrainer.training_outcome training_config name w r w'.
Proof.
  intros Hname. rename training_config into config.
  unfold ModelTrainer.train_model.
  rewrite (M_bind_eq now _ w (clock (ticks w))
             (mkWorld (db w) (models_dir w) (S (ticks w)))) by reflexivity.
  match goal with |- context [try_exceptM ?b ?h ?w0] =>
    destruct (b w0) as [[r|e] w1] eqn:Hbody;
    [rewrite (try_exceptM_Return b h w0 r w1 Hbody)
    |rewrite (try_exceptM_Raise b h w0 e w1 Hbody)] end.
  - exists r, w1. split; [done|].
    apply M_bind_Return_inv in Hbody as ([[X y] fc] & w2 & Hdata & Hbody).
    apply get_training_data_world in Hdata as ->.
    destruct (nrows X =? 0)%nat; [discriminate|].
    apply M_bind_Return_inv in Hbody as ([[[Xtr Xte] ytr] yte] & w3 & Hsplit & Hbody).
    apply lift_Return_inv in Hsplit as [_ ->].
    apply M_bind_Return_inv in Hbody as (model_type & w4 & Htype & Hbody).
    apply lift_Return_inv in Htype as [Htype ->].
    apply M_bind_Return_inv in Hbody as (model & w5 & Hfit & Hbody).
    apply lift_Return_inv in Hfit as [Hfit ->].
    apply M_bind_Return_inv in Hbody as (metrics & w6 & Heval & Hbody).
    apply lift_Return_inv in Heval as [_ ->].
    apply M_bind_Return_inv in Hbody as (n1 & w7 & Hn1 & Hbody).
    apply lift_Return_inv in Hn1 as [Hn1 ->].
    apply config_getitem_Return in Hn1. rewrite Hname in Hn1.
    injection Hn1 as <-.
    apply M_bind_Return_inv in Hbody as (version & w8 & Hsave & Hbody).
    rewrite save_model_run in Hsave. injection Hsave as <- <-.
    apply M_bind_Return_inv in Hbody as (n2 & w9 & Hn2 & Hbody).
    apply lift_Return_inv in Hn2 as [Hn2 ->].
    apply config_getitem_Return in Hn2. rewrite Hname in Hn2.
    injection Hn2 as <-.
    apply M_bind_Return_inv in Hbody as (t & w10 & Ht & Hbody).
    injection Ht as <- <-.
    apply M_bind_Return_inv in Hbody as ([] & w11 & Hperf & Hbody).
    apply save_performance_run in Hperf
      as (performance & Hdb & Hdir & Hpn & Hpv & Hpa & Hpi).
    apply M_bind_Return_inv in Hbody as (n3 & w12 & Hn3 & Hbody).
    apply lift_Return_inv in Hn3 as [Hn3 ->].
    apply config_getitem_Return in Hn3. rewrite Hname in Hn3.
    injection Hn3 as <-.
    apply M_bind_Return_inv in Hbody as (t' & w13 & Ht' & Hbody).
    injection Ht' as <- <-. injection Hbody as <- <-.
    cbn [ModelTrainer.training_outcome ticks]. split; [done|]. split; [done|].
    split.
    { exists model_type. split; [by apply config_getitem_Return|].
      eapply train_model_by_type_known; eauto. }
    split.
    { eexists. cbn [models_dir]. rewrite Hdir. cbn [models_dir].
      rewrite lookup_insert_eq. split; reflexivity. }
    exists performance. cbn [db]. rewrite Hdb. cbn [model_performance db]. done.
  - rewrite (train_model_handler _ name) by done. eexists _, _. split; done.
Qed.

(** C2, as amended: for a configuration that has a ["model_name"]
    entry [train_model] returns and does not raise.  The result is a
    success with that name, the version stamped by the clock, under which
    the artifact and an inactive performance row with the accuracy were
    stored, or an error with that name and the text of the exception
    caught.  Without a finished match that passes the filters the result
    is the error ["No training data available"]; with a model type that
    is not one of the four it is an error. *)
Theorem train_model_returns :
  forall (training_config : gmap string ConfigValue) (name : ConfigValue)
         (w : World),
    training_config !! "model_name" = Some name ->
    (exists r w',
       ModelTrainer.train_model training_config w = (Return r, w')
       /\ ModelTrainer.training_outcome training_config name w r w')
    /\ (ModelTrainer.training_query training_config (db w) = [] ->
        exists w',
          ModelTrainer.train_model training_config w
          = (Return (ModelTrainer.TrainingError "No training data available"
                       name), w'))
    /\ (forall model_type,
          training_config !! "model_type" = Some model_type ->
          ModelTrainer.known_model_type model_type = false ->
          exists text w',
            ModelTrainer.train_model training_config w
            = (Return (ModelTrainer.TrainingError text name), w')).
Proof.
  intros config name w Hname.
  destruct (train_model_outcome config name w Hname) as (r & w' & Hrun & Hout).
  split; [eauto|]. split.
  - intros Hempty. unfold ModelTrainer.train_model.
    rewrite (M_bind_eq now _ w (clock (ticks w))
               (mkWorld (db w) (models_dir w) (S (ticks w)))) by reflexivity.
    match goal with |- context [try_exceptM ?b ?h ?w0] =>
      rewrite (try_exceptM_Raise b h w0
                 (Exc ValueError "No training data available") w0) end.
    + rewrite (train_model_handler _ name) by done. eauto.
    + erewrite M_bind_eq by (by apply get_training_data_empty). reflexivity.
  - intros model_type Htype Hunknown. destruct r as [n v a t|text n].
    + destruct Hout as (_ & _ & (model_type' & Htype' & Hknown) & _).
      congruence.
    + cbn in Hout. subst n. eauto.
Qed.

End TrainerProperties.

(** ** The order of file names *)

Lemma ascii_compare_refl c : Ascii.compare c c = Eq.
Proof. unfold Ascii.compare. apply N.compare_refl. Qed.

Lemma ascii_compare_trans c1 c2 c3 o :
  Ascii.compare c1 c2 = o -> Ascii.compare c2 c3 = o -> Ascii.compare c1 c3 = o.
Proof.
  unfold Ascii.compare. destruct o.
  - rewrite !N.compare_eq_iff. congruence.
  - rewrite !N.compare_lt_iff. lia.
  - rewrite !N.compare_gt_iff. lia.
Qed.

Lemma string_compare_refl s : String.compare s s = Eq.
Proof. induction s as [|c s IH]; simpl; [done|]. by rewrite ascii_compare_refl. Qed.

Lemma string_compare_not_Gt_trans s1 s2 s3 :
  String.compare s1 s2 <> Gt -> String.compare s2 s3 <> Gt ->
  String.compare s1 s3 <> Gt.
Proof.
  revert s2 s3. induction s1 as [|c1 s1 IH]; intros [|c2 s2] [|c3 s3]; simpl;
    try done.
  destruct (Ascii.compare c1 c2) eqn:E12; [| |done];
    destruct (Ascii.compare c2 c3) eqn:E23; try done; intros H12 H23.
  - rewrite (ascii_compare_trans _ _ _ _ E12 E23). eauto.
  - apply Ascii.compare_eq_iff in E12 as ->. by rewrite E23.
  - apply Ascii.compare_eq_iff in E23 as <-. by rewrite E12.
  - by rewrite (ascii_compare_trans _ _ _ _ E12 E23).
Qed.

Lemma string_le_alt s1 s2 : string_le s1 s2 <-> String.compare s1 s2 <> Gt.
Proof.
  unfold string_le, String.leb. destruct (String.compare s1 s2); simpl; split; done.
Qed.

#[export] Instance string_le_trans : Transitive string_le.
Proof.
  intros s1 s2 s3. rewrite !string_le_alt. apply string_compare_not_Gt_trans.
Qed.

#[export] Instance string_le_total : Total string_le.
Proof.
  intros s1 s2. unfold string_le.
  destruct (String.leb_total s1 s2) as [->| ->]; [left|right]; done.
Qed.

#[export] Instance string_le_refl : Reflexive string_le.
Proof. intros s. apply string_le_alt. by rewrite string_compare_refl. Qed.

Lemma compare_app_prefix p a b :
  String.compare (p ++ a) (p ++ b) = String.compare a b.
Proof. induction p as [|c p IH]; simpl; [done|]. by rewrite ascii_compare_refl. Qed.

Lemma compare_app_suffix a b q :
  String.length a = String.length b ->
  String.compare (a ++ q) (b ++ q) = String.compare a b.
Proof.
  revert b. induction a as [|c a IH]; intros [|d b]; simpl; try done.
  - intros _. apply string_compare_refl.
  - intros [= Hlen]. destruct (Ascii.compare c d); auto.
Qed.

Lemma strongly_sorted_last (l : list string) f :
  StronglySorted string_le l -> last l = Some f ->
  forall g, g ∈ l -> string_le g f.
Proof.
  induction 1 as [|x l Hsorted IH Hall]; [done|].
  destruct l as [|y l].
  - intros [= <-] g Hg. apply list_elem_of_singleton in Hg as ->. reflexivity.
  - intros Hlast g Hg. change (last (y :: l) = Some f) in Hlast.
    apply elem_of_cons in Hg as [->|Hg]; [|by apply IH].
    transitivity y.
    + rewrite Forall_forall in Hall. apply Hall. left.
    + apply IH; [done | left].
Qed.

Lemma sorted_last_max (l : list string) :
  l <> [] ->
  exists f, last (sorted l) = Some f /\ f ∈ l
            /\ forall g, g ∈ l -> string_le g f.
Proof.
  intros Hne. unfold sorted.
  pose proof (merge_sort_Permutation string_le l) as Hperm.
  pose proof (StronglySorted_merge_sort string_le l) as Hsorted.
  destruct (last (merge_sort string_le l)) as [f|] eqn:Hlast.
  - exists f. split; [done|]. split.
    + rewrite <- Hperm. by apply last_Some_elem_of.
    + intros g Hg. eapply strongly_sorted_last; eauto. by rewrite Hperm.
  - apply last_None in Hlast. rewrite Hlast in Hperm.
    apply Permutation_nil_l in Hperm. done.
Qed.

(** ** Prediction *)

Section PredictorProperties.
Context `{MLLibrary}.

(** With the version omitted and a file of the model's prefix in the
    directory, the file opened is the greatest matching file name. *)
Lemma model_filename_latest model_name w :
  let model_files :=
    List.filter (fun f => startswith f (model_name ++ "_") && endswith f ".pkl")
      ((map_to_list (models_dir w)).*1) in
  model_files <> [] ->
  exists f,
    ModelPredictor._model_filename model_name None w = (Return f, w)
    /\ f ∈ model_files
    /\ forall g, g ∈ model_files -> string_le g f.
Proof.
  intros model_files Hne.
  destruct (sorted_last_max model_files Hne) as (f & Hlast & Hin & Hmax).
  exists f. split; [|done].
  unfold ModelPredictor._model_filename, mbind, M_bind, listdir.
  fold model_files. rewrite Hlast.
  destruct model_files; [done | reflexivity].
Qed.

Lemma listdir_elem w f :
  f ∈ (map_to_list (models_dir w)).*1 <-> is_Some (models_dir w !! f).
Proof.
  rewrite list_elem_of_fmap. split.
  - intros ([f' d] & -> & Hin). apply elem_of_map_to_list in Hin. eauto.
  - intros [d Hd]. exists (f, d). split; [done|]. by apply elem_of_map_to_list.
Qed.

Lemma versioned_filename_le model_name v v' :
  String.length v = String.length v' ->
  string_le (model_name ++ "_" ++ v ++ ".pkl") (model_name ++ "_" ++ v' ++ ".pkl")
  <-> string_le v v'.
Proof.
  intros Hlen. rewrite !string_le_alt.
  rewrite compare_app_prefix. rewrite (compare_app_prefix "_").
  by rewrite compare_app_suffix.
Qed.

(** When the files of the model's prefix are exactly the files of the
    versions of that model, and the versions have one length, as the
    time stamps of [_save_model] have, the file opened is that of the
    greatest version. *)
Lemma latest_version_without_collision model_name versions w :
  versions <> [] ->
  (forall f,
     (is_Some (models_dir w !! f)
      /\ startswith f (model_name ++ "_") = true /\ endswith f ".pkl" = true)
     <-> exists v, v ∈ versions /\ f = model_name ++ "_" ++ v ++ ".pkl") ->
  (forall v v', v ∈ versions -> v' ∈ versions ->
                String.length v = String.length v') ->
  exists latest_version,
    latest_version ∈ versions
    /\ (forall v, v ∈ versions -> string_le v latest_version)
    /\ ModelPredictor._model_filename model_name None w
       = (Return (model_name ++ "_" ++ latest_version ++ ".pkl"), w).
Proof.
  intros Hne Hfiles Hlen.
  set (model_files :=
         List.filter (fun f => startswith f (model_name ++ "_") && endswith f ".pkl")
           ((map_to_list (models_dir w)).*1)).
  assert (forall f, f ∈ model_files <->
                    exists v, v ∈ versions /\ f = model_name ++ "_" ++ v ++ ".pkl")
    as Hmem.
  { intros f. rewrite <- Hfiles. unfold model_files.
    rewrite list_elem_of_In, filter_In, <- list_elem_of_In, listdir_elem.
    rewrite andb_true_iff. done. }
  destruct (model_filename_latest model_name w) as (f & Hrun & Hin & Hmax).
  { fold model_files. destruct versions as [|v0 versions]; [done|].
    intros Hnil.
    assert (model_name ++ "_" ++ v0 ++ ".pkl" ∈ model_files) as Hv0
      by (apply Hmem; exists v0; split; [left | done]).
    rewrite Hnil in Hv0. by apply elem_of_nil in Hv0. }
  fold model_files in Hin, Hmax.
  apply Hmem in Hin as (latest_version & Hlatest & ->).
  exists latest_version. split; [done|]. split; [|done].
  intros v Hv. apply (versioned_filename_le model_name); [by apply Hlen|].
  apply Hmax, Hmem. eauto.
Qed.

(** What [_make_prediction] does with the vector the model gives: the
    three probabilities of the result are its first three entries and the
    confidence is its [np.max]; the vector is neither normalised nor
    checked. *)
Lemma make_prediction_copies model features model_type r :
  ModelPredictor._make_prediction model features model_type = Return r ->
  exists proba,
    predict_proba model model_type features = Return proba
    /\ proba !! 0%nat = Some (r_home_win_probability r)
    /\ proba !! 1%nat = Some (r_away_win_probability r)
    /\ proba !! 2%nat = Some (r_draw_probability r)
    /\ np_max proba = Return (r_overall_confidence r).
Proof.
  unfold ModelPredictor._make_prediction. intros Hr.
  apply bind_Return_inv in Hr as ([proba cls] & Hmodel & Hr).
  assert (predict_proba model model_type features = Return proba) as Hproba.
  { destruct (eq_str model_type "logistic_regression");
      [|destruct (eq_str model_type "neural_network")];
      apply bind_Return_inv in Hmodel as (proba' & Hp & Hmodel);
      apply bind_Return_inv in Hmodel as (cls' & _ & [= <- _]); done. }
  exists proba. split; [done|].
  apply bind_Return_inv in Hr as (outcome & _ & Hr).
  apply bind_Return_inv in Hr as (max_prob & Hmax & Hr).
  apply bind_Return_inv in Hr as (home & Hhome & Hr).
  apply bind_Return_inv in Hr as (away & Haway & Hr).
  apply bind_Return_inv in Hr as (draw & Hdraw & Hr).
  apply bind_Return_inv in Hr as (hs & _ & Hr).
  apply bind_Return_inv in Hr as (as_ & _ & [= <-]).
  unfold index in *. cbn [r_home_win_probability r_away_win_probability
                          r_draw_probability r_overall_confidence].
  destruct (proba !! 0%nat); [|discriminate].
  destruct (proba !! 1%nat); [|discriminate].
  destruct (proba !! 2%nat); [|discriminate].
  by injection Hhome as ->; injection Haway as ->; injection Hdraw as ->.
Qed.

(** A prediction carries the id it was asked for. *)
Lemma predict_match_id match_id model_name model_version w prediction w' :
  ModelPredictor.predict_match match_id model_name model_version w
  = (Return prediction, w') ->
  p_match_id prediction = match_id.
Proof.
  unfold ModelPredictor.predict_match, try_exceptM.
  match goal with |- context [match ?b w with _ => _ end] =>
    destruct (b w) as [[p|e] w1] eqn:Hbody end; [|discriminate].
  intros [= <- <-].
  apply M_bind_Return_inv in Hbody as (s & w2 & _ & Hbody).
  destruct (ModelPredictor.query_match match_id s) as [m|]; [|discriminate].
  apply M_bind_Return_inv in Hbody as ([[model model_type] cols] & w3 & _ & Hbody).
  apply M_bind_Return_inv in Hbody as (s' & w4 & _ & Hbody).
  apply M_bind_Return_inv in Hbody as (features & w5 & _ & Hbody).
  apply M_bind_Return_inv in Hbody as (pr & w6 & _ & Hbody).
  apply M_bind_Return_inv in Hbody as (saved & w7 & _ & Hbody).
  by injection Hbody as <- _.
Qed.

(** Every failure of [predict_match] is a plain [Exception] whose text
    is ["Prediction failed: "] and the text of the exception caught. *)
Lemma predict_match_raises match_id model_name model_version w e w' :
  ModelPredictor.predict_match match_id model_name model_version w
  = (Raise e, w') ->
  exists cause, e = Exc PlainException ("Prediction failed: " ++ str cause).
Proof.
  unfold ModelPredictor.predict_match, try_exceptM.
  match goal with |- context [match ?b w with _ => _ end] =>
    destruct (b w) as [[p|cause] w1] eqn:Hbody end; [discriminate|].
  unfold raise. intros [= <- <-]. eauto.
Qed.

Lemma batch_loop_run ids model_name model_version acc w :
  exists entries w',
    ModelPredictor.batch_loop ids model_name model_version acc w
    = (Return (acc ++ entries)%list, w')
    /\ ModelPredictor.batch_run model_name model_version ids w entries w'.
Proof.
  revert acc w. induction ids as [|match_id rest IH]; intros acc w.
  - exists [], w. rewrite app_nil_r. split; [done | constructor].
  - cbn [ModelPredictor.batch_loop]. unfold mbind at 1, M_bind at 1.
    unfold try_exceptM, mbind at 1, M_bind at 1.
    destruct (ModelPredictor.predict_match match_id model_name model_version w)
      as [[p|e] w1] eqn:Hp.
    + destruct (IH (acc ++ [Predicted p])%list w1) as (entries & w' & Hloop & Hrun).
      exists (Predicted p :: entries), w'. unfold mret, M_ret.
      rewrite Hloop, <- app_assoc. split; [done|]. econstructor; eauto.
    + destruct (IH (acc ++ [Failed match_id (str e)])%list w1)
        as (entries & w' & Hloop & Hrun).
      exists (Failed match_id (str e) :: entries), w'. unfold mret, M_ret.
      rewrite Hloop, <- app_assoc. split; [done|].
      eapply ModelPredictor.batch_run_failed; eauto.
Qed.

Lemma batch_run_ids model_name model_version ids w entries w' :
  ModelPredictor.batch_run model_name model_version ids w entries w' ->
  map entry_match_id entries = ids.
Proof.
  induction 1 as [| match_id rest w p w1 entries w2 Hp _ IH
                  | match_id rest w e w1 entries w2 _ _ IH]; simpl.
  - done.
  - by rewrite (predict_match_id _ _ _ _ _ _ Hp), IH.
  - by rewrite IH.
Qed.

(** C3: the batch call returns, never raises, and returns one entry per
    requested id in the order of the ids: the prediction for an id on
    which [predict_match] returns, the pair of the id and the error text
    for an id on which it raises; the ids after a failing one are
    processed as well. *)
Theorem predict_matches_batch_total :
  forall (match_ids : list Z) (model_name : string)
         (model_version : option string) (w : World),
  exists entries w',
    ModelPredictor.predict_matches_batch match_ids model_name model_version w
    = (Return entries, w')
    /\ length entries = length match_ids
    /\ map entry_match_id entries = match_ids
    /\ ModelPredictor.batch_run model_name model_version match_ids w entries w'.
Proof.
  intros match_ids model_name model_version w.
  destruct (batch_loop_run match_ids model_name model_version [] w)
    as (entries & w' & Hloop & Hrun).
  exists entries, w'. split; [exact Hloop|].
  pose proof (batch_run_ids _ _ _ _ _ _ Hrun) as Hids.
  split; [|done].
  rewrite <- (length_map entry_match_id entries). by rewrite Hids.
Qed.

Lemma predict_match_missing match_id model_name model_version w :
  ModelPredictor.query_match match_id (db w) = None ->
  ModelPredictor.predict_match match_id model_name model_version w
  = (Raise (Exc PlainException
              ("Prediction failed: Match " ++ pretty match_id ++ " not found")), w).
Proof.
  intros Hq. unfold ModelPredictor.predict_match, try_exceptM.
  unfold mbind at 1, M_bind at 1, get_db. by rewrite Hq.
Qed.

(** C9, as amended: a failed single prediction reaches the caller of
    [predict_match] as a plain [Exception], whatever failed; the reason is
    in the text alone, ["Prediction failed: "] followed by the text of the
    exception caught, which for a match that is not in the table is
    ["Match <id> not found"].  For a match that is in the table the
    endpoint answers every failure with status 500 and that text after
    one more ["Prediction failed: "]. *)
Theorem prediction_failure_is_one_kind :
  forall (match_id : Z) (model_name : string) (model_version : option string)
         (w : World),
    (forall e w',
       ModelPredictor.predict_match match_id model_name model_version w
       = (Raise e, w') ->
       exists cause,
         e = Exc PlainException ("Prediction failed: " ++ str cause))
    /\ (ModelPredictor.query_match match_id (db w) = None ->
        ModelPredictor.predict_match match_id model_name model_version w
        = (Raise (Exc PlainException
                    ("Prediction failed: Match " ++ pretty match_id
                     ++ " not found")), w))
    /\ (forall e w',
          is_Some (ModelPredictor.query_match match_id (db w)) ->
          Api.predict_match match_id model_name model_version w = (Raise e, w') ->
          exists cause,
            e = HTTPException 500
                  ("Prediction failed: " ++ "Prediction failed: " ++ str cause)).
Proof.
  intros match_id model_name model_version w. split; [|split].
  - intros e w'. apply predict_match_raises.
  - apply predict_match_missing.
  - intros e w' [m Hm]. unfold Api.predict_match, try_exceptM.
    unfold mbind at 1, M_bind at 1, get_db. rewrite Hm.
    destruct (ModelPredictor.predict_match match_id model_name model_version w)
      as [[p|e0] w1] eqn:Hp; [discriminate|].
    apply predict_match_raises in Hp as [cause ->].
    unfold raise. intros [= <- <-]. exists cause. reflexivity.
Qed.

End PredictorProperties.

Section FeatureSelection.

(** C1, as amended: the stored column list is looked up by name in the
    frame computed for the match, whose columns are the nine columns of
    the row and the twenty-three features.  When every stored column is
    among them the frame is reduced to the stored columns in the stored
    order, with missing values filled with 0, whatever other columns were
    computed; when one is not, a [KeyError] naming the missing labels is
    raised. *)
Theorem prepare_match_features_selects :
  forall (feature_engineer : FeatureEngineer) (match_ : Match.t)
         (feature_columns : list string),
  exists computed,
    create_features feature_engineer (matches_frame [match_]) = Return computed
    /\ columns computed = match_frame_columns
    /\ (Forall (fun c => c ∈ match_frame_columns) feature_columns ->
        exists features,
          ModelPredictor._prepare_match_features feature_engineer match_
            feature_columns = Return features
          /\ columns features = feature_columns
          /\ nrows features = 1
          /\ forall c, c ∈ feature_columns ->
               lookup_column c (data features)
               = fillna_series 0 <$> lookup_column c (data computed))
    /\ (~ Forall (fun c => c ∈ match_frame_columns) feature_columns ->
        ModelPredictor._prepare_match_features feature_engineer match_
          feature_columns
        = Raise (Exc KeyError
                   (not_in_index
                      (List.filter
                         (fun c => negb (bool_decide (c ∈ match_frame_columns)))
                         feature_columns)))).
Proof.
  intros fe m cols.
  destruct (create_features_matches_frame fe m []) as [computed Hc].
  pose proof (create_features_match_columns _ _ _ _ Hc) as Hcols.
  pose proof (create_features_placeholders _ _ _ Hc) as [Hn _].
  exists computed. split; [done|]. split; [done|].
  unfold ModelPredictor._prepare_match_features. rewrite Hc, bind_Return.
  unfold getitem_list. split.
  - intros Hall. rewrite <- Hcols in Hall.
    destruct (select_columns_Some _ _ Hall) as (d' & -> & Hlabels & Hlook).
    rewrite bind_Return. eexists. split; [reflexivity|].
    split; [by rewrite columns_fillna|]. split; [done|].
    intros c Hin. rewrite lookup_fillna. cbn [data]. by rewrite Hlook.
  - intros Hnot. rewrite <- Hcols in Hnot.
    rewrite (select_columns_None _ _ Hnot), bind_Raise.
    unfold missing_labels. by rewrite Hcols.
Qed.

End FeatureSelection.

(** ** The endpoints on the example registry *)

Section EndpointExamples.
#[local] Existing Instance example_library.

Lemma activate_model_exclusive_witness :
  NoDup (map ModelPerformance.id (model_performance (db registry_world)))
  /\ (exists r, r ∈ model_performance (db registry_world)
                /\ ModelPerformance.model_name r = "m1")
  /\ exists latest_model response w',
       Api.activate_model "m1" registry_world = (Return response, w')
       /\ latest_model ∈ model_performance (db registry_world)
       /\ ModelPerformance.model_name latest_model = "m1"
       /\ (forall r, r ∈ model_performance (db registry_world) ->
             ModelPerformance.model_name r = "m1" ->
             (Datetime.timestamp (ModelPerformance.training_date r)
              <= Datetime.timestamp (ModelPerformance.training_date latest_model))%Z)
       /\ Api.a_version response = ModelPerformance.model_version latest_model
       /\ filter (fun r => ModelPerformance.model_name r = "m1"
                           /\ ModelPerformance.is_active r = true)
            (model_performance (db w'))
          = [ModelPerformance.set_is_active true latest_model]
       /\ filter (fun r => ModelPerformance.model_name r <> "m1")
            (model_performance (db w'))
          = filter (fun r => ModelPerformance.model_name r <> "m1")
              (model_performance (db registry_world)).
Proof.
  assert (NoDup (map ModelPerformance.id (model_performance (db registry_world))))
    as Hnd.
  { simpl. repeat (apply NoDup_cons_2; [rewrite ?elem_of_cons, elem_of_nil; lia|]).
    apply NoDup_nil_2. }
  assert (exists r, r ∈ model_performance (db registry_world)
                    /\ ModelPerformance.model_name r = "m1") as Hex.
  { eexists. split; [left|reflexivity]. }
  split; [exact Hnd|]. split; [exact Hex|].
  exact (activate_model_exclusive "m1" registry_world Hnd Hex).
Defined.

(** C6, as stated, fails: a request to activate version ["v2"] of
    ["m1"] can only call the endpoint with the name, and after it, also
    after a second call, the one active row of ["m1"] is version ["v1"],
    the row trained last; version ["v2"] is not active. *)
Lemma activate_model_has_no_version :
  exists response1 w1 response2 w2,
    Api.activate_model "m1" registry_world = (Return response1, w1)
    /\ Api.activate_model "m1" w1 = (Return response2, w2)
    /\ Api.a_version response2 = "v1"
    /\ map (fun r => (ModelPerformance.model_version r, ModelPerformance.is_active r))
         (List.filter (Api.of_model "m1") (model_performance (db w2)))
       = [("v2", false); ("v1", true)].
Proof.
  eexists _, _, _, _. split; [vm_compute; reflexivity|].
  split; [vm_compute; reflexivity|]. split; reflexivity.
Qed.

End EndpointExamples.

(** ** Prediction on the example world *)

Section PredictionExamples.
#[local] Existing Instance example_library.

Lemma prepare_match_features_selects_witness :
  Forall (fun c => c ∈ match_frame_columns) ["is_home"; "month"]
  /\ exists features,
       ModelPredictor._prepare_match_features
         (mkFeatureEngineer example_session) arsenal_chelsea ["is_home"; "month"]
       = Return features
       /\ columns features = ["is_home"; "month"]
       /\ nrows features = 1.
Proof.
  assert (Forall (fun c => c ∈ match_frame_columns) ["is_home"; "month"]) as Hall.
  { repeat (apply Forall_cons; split;
            [apply (bool_decide_unpack _); vm_compute; reflexivity|]).
    apply Forall_nil_2. }
  split; [exact Hall|].
  destruct (prepare_match_features_selects
              (mkFeatureEngineer example_session) arsenal_chelsea
              ["is_home"; "month"]) as (computed & _ & _ & Hselect & _).
  destruct (Hselect Hall) as (features & Hrun & Hcols & Hrows & _).
  exists features. auto.
Defined.

(** C1, as stated, fails: the artifact of ["m1"] stores two columns, a
    strict subset of the twenty-three feature columns and of the columns
    computed for the match; the prediction does not fail, the computed
    frame is cut down to the two columns and the model is run on them. *)
Lemma stored_subset_is_used :
  exists computed features prediction w',
    create_features (mkFeatureEngineer example_session)
      (matches_frame [arsenal_chelsea]) = Return computed
    /\ md_feature_columns two_column_artifact <> columns computed
    /\ md_feature_columns two_column_artifact
       <> get_feature_columns (mkFeatureEngineer example_session)
    /\ Forall (fun c => c ∈ get_feature_columns (mkFeatureEngineer example_session)
                        /\ c ∈ columns computed)
         (md_feature_columns two_column_artifact)
    /\ ModelPredictor._prepare_match_features (mkFeatureEngineer example_session)
         arsenal_chelsea (md_feature_columns two_column_artifact)
       = Return features
    /\ columns features = ["is_home"; "month"]
    /\ ModelPredictor.predict_match 1 "m1" (Some "20240615_120000")
         prediction_world = (Return prediction, w').
Proof.
  eexists _, _, _, _. split; [vm_compute; reflexivity|].
  split; [vm_compute; discriminate|]. split; [vm_compute; discriminate|].
  split.
  { repeat (apply Forall_cons; split;
            [split; apply (bool_decide_unpack _); vm_compute; reflexivity|]).
    apply Forall_nil_2. }
  split; [vm_compute; reflexivity|]. split; [reflexivity|].
  vm_compute. reflexivity.
Qed.

Lemma prediction_failure_is_one_kind_witness :
  (ModelPredictor.query_match 7 (db prediction_world) = None
   /\ ModelPredictor.predict_match 7 "m1" (Some "20240615_120000") prediction_world
      = (Raise (Exc PlainException "Prediction failed: Match 7 not found"),
         prediction_world))
  /\ (is_Some (ModelPredictor.query_match 1 (db prediction_world))
      /\ Api.predict_match 1 "m3" (Some "20240615_120000") prediction_world
         = (Raise (HTTPException 500
                     "Prediction failed: Prediction failed: ['home_elo'] not in index"),
            prediction_world)
      /\ exists cause,
           HTTPException 500
             "Prediction failed: Prediction failed: ['home_elo'] not in index"
           = HTTPException 500
               ("Prediction failed: " ++ "Prediction failed: " ++ str cause)).
Proof.
  pose proof (prediction_failure_is_one_kind 7 "m1" (Some "20240615_120000")
                prediction_world) as (_ & Hmissing & _).
  pose proof (prediction_failure_is_one_kind 1 "m3" (Some "20240615_120000")
                prediction_world) as (_ & _ & Hapi).
  assert (ModelPredictor.query_match 7 (db prediction_world) = None) as Hnone
    by reflexivity.
  assert (is_Some (ModelPredictor.query_match 1 (db prediction_world))) as Hsome
    by (eexists; reflexivity).
  assert (Api.predict_match 1 "m3" (Some "20240615_120000") prediction_world
          = (Raise (HTTPException 500
                      "Prediction failed: Prediction failed: ['home_elo'] not in index"),
             prediction_world)) as Hrun by (vm_compute; reflexivity).
  split; [split; [exact Hnone | exact (Hmissing Hnone)]|].
  split; [exact Hsome|]. split; [exact Hrun|].
  exact (Hapi _ _ Hsome Hrun).
Defined.

(** C9, as stated, fails: a match that is not there, a stored column
    that is not computed and a row the table refuses are three reasons,
    and the caller gets the same kind of exception for each, and from the
    endpoint the same status; only the text differs. *)
Lemma failure_reasons_share_the_kind :
  fst (ModelPredictor.predict_match 7 "m1" (Some "20240615_120000") prediction_world)
  = Raise (Exc PlainException "Prediction failed: Match 7 not found")
  /\ fst (ModelPredictor.predict_match 1 "m3" (Some "20240615_120000")
            prediction_world)
     = Raise (Exc PlainException "Prediction failed: ['home_elo'] not in index")
  /\ fst (ModelPredictor.predict_match 1 "m1" None prediction_world)
     = Raise (Exc PlainException
                "Prediction failed: NOT NULL constraint failed: predictions.model_version")
  /\ fst (Api.predict_match 1 "m3" (Some "20240615_120000") prediction_world)
     = Raise (HTTPException 500
                "Prediction failed: Prediction failed: ['home_elo'] not in index")
  /\ fst (Api.predict_match 1 "m1" None prediction_world)
     = Raise (HTTPException 500
                "Prediction failed: Prediction failed: NOT NULL constraint failed: predictions.model_version")
  /\ fst (Api.predict_match 1 "m9" None prediction_world)
     = Raise (HTTPException 500
                "Prediction failed: Prediction failed: No model found for m9").
Proof. repeat split; vm_compute; reflexivity. Qed.

(** C4: with the version omitted, loading model ["m"] opens the file
    of model ["m_x"]: its name starts with ["m_"] and sorts after the file
    of ["m"], so the artifact returned is not a version of ["m"] at all,
    and not the artifact of the greatest version of ["m"]. *)
Theorem latest_of_m_is_an_artifact_of_m_x :
  fst (ModelPredictor._model_filename "m" None two_names_world)
  = Return "m_x_20230101_000000.pkl"
  /\ fst (ModelPredictor._load_model "m" None two_names_world)
     = Return (md_model m_x_artifact, md_model_type m_x_artifact,
               md_feature_columns m_x_artifact)
  /\ fst (ModelPredictor._load_model "m" (Some "20240101_000000") two_names_world)
     = Return (md_model (versioned_artifact "20240101_000000"),
               md_model_type (versioned_artifact "20240101_000000"),
               md_feature_columns (versioned_artifact "20240101_000000"))
  /\ md_feature_columns m_x_artifact
     <> md_feature_columns (versioned_artifact "20240101_000000").
Proof.
  split; [vm_compute; reflexivity|]. split; [vm_compute; reflexivity|].
  split; [vm_compute; reflexivity|]. vm_compute. discriminate.
Qed.

(** The three versions of the specification's example. *)
Example latest_of_three_versions :
  fst (ModelPredictor._model_filename "m1" None three_versions_world)
  = Return "m1_20240615_120000.pkl"
  /\ sorted ["20240101_000000"; "20240615_120000"; "20231231_235959"]
     = ["20231231_235959"; "20240101_000000"; "20240615_120000"].
Proof. split; vm_compute; reflexivity. Qed.

(** The batch of the specification: a match, a missing id, a match. *)
Example batch_isolation :
  exists p1 p2 w',
    ModelPredictor.predict_matches_batch [1; 7; 2]%Z "m1"
      (Some "20240615_120000") prediction_world
    = (Return [Predicted p1; Failed 7 "Prediction failed: Match 7 not found";
               Predicted p2], w')
    /\ p_match_id p1 = 1%Z /\ p_match_id p2 = 2%Z
    /\ length (predictions (db w')) = 2.
Proof. eexists _, _, _. split; [vm_compute; reflexivity|]. done. Qed.

End PredictionExamples.

(** ** Training on the example world *)

Section TrainingExamples.
#[local] Existing Instance example_library.

Lemma train_model_returns_witness :
  svm_config !! "model_name" = Some (Scalar (OStr "rf"))
  /\ (exists r w',
        ModelTrainer.train_model svm_config prediction_world = (Return r, w')
        /\ ModelTrainer.training_outcome svm_config (Scalar (OStr "rf"))
             prediction_world r w')
  /\ exists text w',
       ModelTrainer.train_model svm_config prediction_world
       = (Return (ModelTrainer.TrainingError text (Scalar (OStr "rf"))), w').
Proof.
  assert (svm_config !! "model_name" = Some (Scalar (OStr "rf"))) as Hname
    by reflexivity.
  destruct (train_model_returns svm_config (Scalar (OStr "rf")) prediction_world
              Hname) as (Hrun & _ & Hunknown).
  split; [exact Hname|]. split; [exact Hrun|].
  apply (Hunknown (Scalar (OStr "svm"))); reflexivity.
Defined.

(** C2, as stated, fails: a configuration without a ["model_name"]
    entry makes the handler itself raise, and the [KeyError] reaches the
    caller; so it does when only the name is missing and the training
    itself would succeed. *)
Lemma train_model_without_name_raises :
  fst (ModelTrainer.train_model ∅ prediction_world)
  = Raise (Exc KeyError "'model_name'")
  /\ fst (ModelTrainer.train_model
            {[ "model_type" := Scalar (OStr "random_forest") ]} prediction_world)
     = Raise (Exc KeyError "'model_name'").
Proof. split; vm_compute; reflexivity. Qed.

Example train_model_examples :
  fst (ModelTrainer.train_model
         {[ "model_name" := Scalar (OStr "rf");
            "model_type" := Scalar (OStr "random_forest") ]} prediction_world)
  = Return (ModelTrainer.TrainingSuccess (Scalar (OStr "rf")) "20240701_100001"
              0.5 "0:00:01")
  /\ fst (ModelTrainer.train_model svm_config prediction_world)
     = Return (ModelTrainer.TrainingError "Unknown model type: svm"
                 (Scalar (OStr "rf")))
  /\ fst (ModelTrainer.train_model
            {[ "model_name" := Scalar (OStr "rf");
               "model_type" := Scalar (OStr "random_forest");
               "league" := Scalar (OStr "Serie A") ]} prediction_world)
     = Return (ModelTrainer.TrainingError "No training data available"
                 (Scalar (OStr "rf")))
  /\ fst (ModelTrainer.train_model
            {[ "model_name" := Scalar (OStr "rf");
               "model_type" := Scalar (OStr "random_forest");
               "hyperparameters" := Scalar ONone ]} prediction_world)
     = Return (ModelTrainer.TrainingError "object has no attribute 'get'"
                 (Scalar (OStr "rf"))).
Proof. repeat split; vm_compute; reflexivity. Qed.

End TrainingExamples.

(** * Further properties *)

(** ** The frame [create_features] builds *)

Section FrameProperties.
Variable self : FeatureEngineer.

Lemma lookup_placeholder_stages c df :
  c ∉ take 18 (drop 2 assigned_labels) ->
  lookup_column c (data (placeholder_stages df)) = lookup_column c (data df).
Proof.
  unfold assigned_labels. cbn [take drop]. rewrite !not_elem_of_cons. intros Hc.
  destruct_and!. unfold placeholder_stages.
  repeat first
    [ rewrite lookup_setitem_int_ne by congruence
    | rewrite lookup_setitem_float_ne by congruence ].
  reflexivity.
Qed.

Lemma create_features_keeps df out :
  create_features self df = Return out ->
  nrows out = nrows df
  /\ forall c, c ∉ assigned_labels ->
       lookup_column c (data out) = lookup_column c (data df).
Proof.
  intros Hout. split; [by apply (create_features_placeholders self)|].
  rewrite create_features_stages in Hout.
  apply bind_Return_inv in Hout as (df1 & E1 & Hout).
  apply bind_Return_inv in Hout as (df6 & E6 & [= <-]).
  apply basic_features_inv in E1 as (_ & _ & Hbasic).
  apply time_features_inv in E6 as (_ & Htime).
  intros c Hc. pose proof Hc as Hc'.
  unfold assigned_labels in Hc'. rewrite !not_elem_of_cons in Hc'.
  destruct_and!.
  rewrite Htime, lookup_placeholder_stages, Hbasic; try done.
  unfold assigned_labels. cbn [take drop]. rewrite !not_elem_of_cons.
  repeat split; first [done | apply not_elem_of_nil].
Qed.

Lemma elem_of_assign_label_iff c c' labels :
  c ∈ assign_label c' labels <-> c = c' \/ c ∈ labels.
Proof.
  unfold assign_label. destruct (bool_decide_reflect (c' ∈ labels)) as [Hin|Hin].
  - split; [by right|]. by intros [->|?].
  - rewrite elem_of_app, list_elem_of_singleton. tauto.
Qed.

Lemma elem_of_foldl_assign_label c assigned labels :
  c ∈ foldl (fun labels c => assign_label c labels) labels assigned
  <-> c ∈ assigned \/ c ∈ labels.
Proof.
  revert labels. induction assigned as [|c' assigned IH]; intros labels.
  - cbn [foldl]. rewrite elem_of_nil. tauto.
  - cbn [foldl]. rewrite IH, elem_of_assign_label_iff, elem_of_cons. tauto.
Qed.

Lemma columns_placeholder_stages df :
  columns (placeholder_stages df)
  = foldl (fun labels c => assign_label c labels) (columns df)
      (take 18 (drop 2 assigned_labels)).
Proof.
  unfold placeholder_stages.
  repeat first [ rewrite columns_setitem_int | rewrite columns_setitem_float ].
  unfold assigned_labels. cbn [take drop foldl]. reflexivity.
Qed.

(** Without a ["match_date"] column the calendar stage does nothing. *)
Lemma create_features_without_dates df league :
  lookup_column "league" (data df) = Some league ->
  "match_date" ∉ columns df ->
  exists out,
    create_features self df = Return out
    /\ columns out = foldl (fun labels c => assign_label c labels) (columns df)
                       (take 20 assigned_labels).
Proof.
  intros Hl Hd. rewrite create_features_stages. unfold _add_basic_features.
  rewrite (proj2 (getitem_Return "league" (setitem_int "is_home" 1 df) league))
    by (by rewrite lookup_setitem_int_ne by discriminate).
  rewrite !bind_Return. unfold _add_time_features.
  rewrite bool_decide_false.
  - rewrite bind_Return. eexists. split; [reflexivity|].
    rewrite columns_placeholder_stages, columns_setitem, columns_setitem_int.
    unfold assigned_labels. cbn [take drop foldl]. reflexivity.
  - rewrite columns_placeholder_stages, columns_setitem, columns_setitem_int.
    rewrite elem_of_foldl_assign_label, !elem_of_assign_label_iff.
    intros [Hin|[Heq|[Heq|Hin]]]; [|discriminate|discriminate|done].
    revert Hin. apply (bool_decide_unpack _). vm_compute. reflexivity.
Qed.

Lemma forallb_is_Some_map_Some {A B} (f : A -> B) (l : list A) :
  forallb (fun o => bool_decide (is_Some o)) (map (fun x => Some (f x)) l) = true.
Proof.
  induction l as [|x l IH]; [done|]. cbn [map forallb].
  rewrite IH, bool_decide_true; [done | eauto].
Qed.

Lemma dt_field_dates field (ds : list Datetime.t) :
  dt_field field (Datetime64 (map Some ds)) = Return (Int64 (map field ds)).
Proof.
  unfold dt_field.
  rewrite (forallb_is_Some_map_Some (fun d => d) ds : forallb _ (map Some ds) = true).
  by rewrite map_map.
Qed.

Lemma isin_weekend (zs : list Datetime.t) :
  isin_astype_int [5%Z; 6%Z] (Int64 (map Datetime.weekday zs))
  = Int64 (map weekend_flag zs).
Proof.
  unfold isin_astype_int, series_objects. by rewrite !map_map.
Qed.

(** The calendar stage on a column of dates. *)
Lemma time_features_on_dates df (ds : list Datetime.t) :
  lookup_column "match_date" (data df) = Some (Datetime64 (map Some ds)) ->
  _add_time_features self df
  = Return (setitem "is_weekend" (Int64 (map weekend_flag ds))
              (setitem "month" (Int64 (map Datetime.month ds))
                 (setitem "day_of_week" (Int64 (map Datetime.weekday ds))
                    (setitem "match_date" (Datetime64 (map Some ds)) df)))).
Proof.
  intros Hd. unfold _add_time_features.
  rewrite bool_decide_true by (eapply lookup_column_Some; eauto).
  rewrite (proj2 (getitem_Return _ _ _) Hd), bind_Return.
  unfold to_datetime. rewrite bind_Return, getitem_setitem_eq, bind_Return.
  rewrite dt_field_dates, bind_Return.
  rewrite getitem_setitem_ne, getitem_setitem_eq, bind_Return by discriminate.
  rewrite dt_field_dates, bind_Return.
  rewrite getitem_setitem_ne, getitem_setitem_eq, bind_Return by discriminate.
  by rewrite isin_weekend.
Qed.

Lemma forallb_over_map {A B} (p : B -> bool) (f : A -> B) (l : list A) :
  forallb p (map f l) = forallb (fun x => p (f x)) l.
Proof. induction l as [|x l IH]; [done|]. cbn [map forallb]. by rewrite IH. Qed.

Lemma league_importance_values k z :
  league_importance !! k = Some z -> z ∈ [2%Z; 3%Z; 4%Z; 5%Z; 6%Z].
Proof.
  intros Hk. unfold league_importance in Hk.
  apply elem_of_list_to_map_2 in Hk.
  repeat (apply elem_of_cons in Hk as [[= _ ->]|Hk];
          [apply (bool_decide_unpack _); vm_compute; exact I|]).
  by apply elem_of_nil in Hk.
Qed.

Lemma fillna_league_weight (o : option Z) :
  (forall z, o = Some z -> z ∈ [2%Z; 3%Z; 4%Z; 5%Z; 6%Z]) ->
  fillna_float (float_of_Z 3)
    (match o with Some z => float_of_Z z | None => nan end)
  = float_of_Z (default 3%Z o).
Proof.
  intros Hz. destruct o as [z|]; [|reflexivity].
  specialize (Hz z eq_refl).
  repeat (apply elem_of_cons in Hz as [->|Hz]; [reflexivity|]).
  by apply elem_of_nil in Hz.
Qed.

(** The league-importance column of rows of the [matches] table. *)
Lemma league_importance_column (ms : list Match.t) :
  fillna_series 3
    (series_map league_importance
       (Object (map (fun m => OStr (Match.league m)) ms)))
  = if forallb (fun m => bool_decide (is_Some (league_importance !! Match.league m)))
         ms
    then Int64 (map (fun m => league_weight (Match.league m)) ms)
    else Float64 (map (fun m => float_of_Z (league_weight (Match.league m))) ms).
Proof.
  unfold series_map, series_objects. rewrite map_map.
  rewrite (forallb_over_map (fun o => bool_decide (is_Some o))
             (fun m => league_importance !! Match.league m) ms).
  destruct (forallb _ ms) eqn:Hall; cbn [fillna_series].
  - f_equal. rewrite map_map. apply map_ext_in. intros m Hm.
    rewrite forallb_forall in Hall. specialize (Hall m Hm).
    apply bool_decide_eq_true in Hall as [z Hz].
    unfold league_weight. by rewrite Hz.
  - f_equal. rewrite !map_map. apply map_ext. intros m.
    unfold league_weight. apply fillna_league_weight.
    intros z Hz. by apply league_importance_values in Hz.
Qed.

Lemma finished_result m :
  finished m ->
  exists r, Match.result m = Some r /\ outcome_classes !! r = Some (match_label m).
Proof.
  intros [[h Hh] [a Ha]]. unfold Match.result, match_label, score_label.
  rewrite Hh, Ha. cbv [default from_option id].
  destruct (a <? h)%Z; [eexists; split; reflexivity|].
  destruct (h <? a)%Z; eexists; split; reflexivity.
Qed.

(** The label column of finished matches. *)
Lemma label_column (ms : list Match.t) :
  Forall finished ms ->
  series_map outcome_classes
    (Object (map (fun m => match Match.result m with
                           | Some r => OStr r
                           | None => ONone
                           end) ms))
  = Int64 (map match_label ms).
Proof.
  intros Hall. unfold series_map, series_objects. rewrite map_map.
  assert (map (fun m => match match Match.result m with
                              | Some r => OStr r
                              | None => ONone
                              end with
                        | OStr k => outcome_classes !! k
                        | _ => None
                        end) ms
          = map (fun m => Some (match_label m)) ms) as ->.
  { apply map_ext_in. intros m Hm. rewrite Forall_forall in Hall.
    destruct (finished_result m) as (r & -> & Hr); [|done].
    apply Hall. by apply list_elem_of_In. }
  rewrite forallb_is_Some_map_Some. by rewrite map_map.
Qed.

(** The frame computed for rows of the [matches] table, stage by stage. *)
Lemma create_features_match_frame m ms :
  create_features self (matches_frame (m :: ms))
  = Return
      (setitem "is_weekend"
         (Int64 (map weekend_flag (map Match.match_date (m :: ms))))
      (setitem "month"
         (Int64 (map Datetime.month (map Match.match_date (m :: ms))))
      (setitem "day_of_week"
         (Int64 (map Datetime.weekday (map Match.match_date (m :: ms))))
      (setitem "match_date"
         (Datetime64 (map Some (map Match.match_date (m :: ms))))
      (placeholder_stages
      (setitem "league_importance"
         (fillna_series 3
            (series_map league_importance
               (Object (map (fun m => OStr (Match.league m)) (m :: ms)))))
      (setitem_int "is_home" 1 (matches_frame (m :: ms))))))))).
Proof.
  rewrite create_features_stages. unfold _add_basic_features.
  rewrite (proj2 (getitem_Return "league"
                    (setitem_int "is_home" 1 (matches_frame (m :: ms))) _))
    by (rewrite lookup_setitem_int_ne by discriminate; reflexivity).
  rewrite !bind_Return.
  rewrite (time_features_on_dates _ (map Match.match_date (m :: ms))).
  - by rewrite bind_Return.
  - rewrite lookup_placeholder_stages
      by (apply (bool_decide_unpack _); vm_compute; exact I).
    rewrite lookup_setitem_ne, lookup_setitem_int_ne by discriminate.
    cbn [matches_frame data lookup_column]. rewrite !decide_False by discriminate.
    rewrite decide_True by done. by rewrite map_map.
Qed.

End FrameProperties.

Section FeatureTheorems.
Variable self : FeatureEngineer.

Lemma lookup_result_matches_frame m ms :
  lookup_column "result" (data (matches_frame (m :: ms)))
  = Some (Object (map (fun m => match Match.result m with
                                | Some r => OStr r
                                | None => ONone
                                end) (m :: ms))).
Proof. reflexivity. Qed.

Lemma prepare_training_data_finished (ms : list Match.t) :
  ms <> [] -> Forall finished ms ->
  exists X,
    prepare_training_data self (matches_frame ms)
    = Return (X, Int64 (map match_label ms), get_feature_columns self)
    /\ columns X = get_feature_columns self
    /\ nrows X = length ms.
Proof.
  destruct ms as [|m ms]; intros Hne Hall; [done|].
  unfold prepare_training_data.
  destruct (create_features_matches_frame self m ms) as [out Hout].
  pose proof (create_features_match_columns self _ _ _ Hout) as Hcols.
  pose proof (create_features_keeps self _ _ Hout) as [Hn Hkeep].
  rewrite Hout, bind_Return. unfold getitem_list.
  destruct (select_columns_Some (get_feature_columns self) (data out))
    as (d' & -> & Hlabels & _).
  { fold (columns out). rewrite Hcols.
    apply (bool_decide_unpack _). vm_compute. exact I. }
  rewrite bind_Return.
  assert (lookup_column "result" (data out)
          = Some (Object (map (fun m => match Match.result m with
                                        | Some r => OStr r
                                        | None => ONone
                                        end) (m :: ms)))) as Hresult.
  { rewrite Hkeep by (apply (bool_decide_unpack _); vm_compute; exact I).
    apply lookup_result_matches_frame. }
  rewrite (proj2 (getitem_Return "result" out _) Hresult).
  rewrite bind_Return, label_column by done. eexists. split; [reflexivity|].
  split; [by rewrite columns_fillna|]. cbn [nrows fillna]. rewrite Hn.
  apply nrows_matches_frame.
Qed.

(** X1: for a non-empty list of finished matches the training data are
    a frame with one row per match and exactly the twenty-three feature
    columns in their published order, and one label per match in the
    order of the rows: 0 for a home win, 1 for an away win, 2 for a
    draw. *)
Theorem training_data_of_finished_matches :
  forall (ms : list Match.t),
    ms <> [] -> Forall finished ms ->
    exists X,
      prepare_training_data self (matches_frame ms)
      = Return (X, Int64 (map match_label ms), get_feature_columns self)
      /\ columns X = get_feature_columns self
      /\ nrows X = length ms.
Proof. exact prepare_training_data_finished. Qed.

Lemma weekday_range d : (0 <= Datetime.weekday d < 7)%Z.
Proof. unfold Datetime.weekday. apply Z.mod_pos_bound. lia. Qed.

Lemma weekend_flag_spec d :
  weekend_flag d = 1%Z <-> Datetime.weekday d = 5%Z \/ Datetime.weekday d = 6%Z.
Proof.
  unfold weekend_flag.
  destruct (bool_decide_reflect (Datetime.weekday d ∈ [5%Z; 6%Z])) as [Hin|Hin].
  - split; [|done]. intros _. revert Hin.
    rewrite !elem_of_cons, elem_of_nil. tauto.
  - split; [done|]. intros Hd. exfalso. apply Hin.
    rewrite !elem_of_cons. tauto.
Qed.

(** X2: in the frame computed for match rows the calendar columns are
    read off each row's date: [day_of_week] is the weekday with Monday 0
    and Sunday 6, [month] the month, and [is_weekend] is 1 on the weekdays
    5 and 6 and 0 on the others; the dates themselves are kept. *)
Theorem calendar_features_of_match_rows :
  forall (m : Match.t) (ms : list Match.t),
  exists out,
    create_features self (matches_frame (m :: ms)) = Return out
    /\ lookup_column "day_of_week" (data out)
       = Some (Int64 (map (fun m => Datetime.weekday (Match.match_date m)) (m :: ms)))
    /\ lookup_column "month" (data out)
       = Some (Int64 (map (fun m => Datetime.month (Match.match_date m)) (m :: ms)))
    /\ lookup_column "is_weekend" (data out)
       = Some (Int64 (map (fun m => weekend_flag (Match.match_date m)) (m :: ms)))
    /\ lookup_column "match_date" (data out)
       = Some (Datetime64 (map (fun m => Some (Match.match_date m)) (m :: ms)))
    /\ (forall d, (0 <= Datetime.weekday d <= 6)%Z
                  /\ (weekend_flag d = 1%Z \/ weekend_flag d = 0%Z)
                  /\ (weekend_flag d = 1%Z
                      <-> Datetime.weekday d = 5%Z \/ Datetime.weekday d = 6%Z)).
Proof.
  intros m ms. eexists. split; [apply create_features_match_frame|].
  rewrite <- !(map_map Match.match_date).
  split; [by lookup_through|]. split; [by lookup_through|].
  split; [by lookup_through|]. split; [by lookup_through|].
  intros d. split; [pose proof (weekday_range d); lia|].
  split; [|apply weekend_flag_spec].
  unfold weekend_flag. destruct (bool_decide _); auto.
Qed.

Lemma league_weight_range league : (2 <= league_weight league <= 6)%Z.
Proof.
  unfold league_weight. destruct (league_importance !! league) as [z|] eqn:Hz.
  - apply league_importance_values in Hz. cbv [default from_option id].
    repeat (apply elem_of_cons in Hz as [->|Hz]; [lia|]).
    by apply elem_of_nil in Hz.
  - cbn. lia.
Qed.

(** X3: in the frame computed for match rows the league-importance
    column holds, row by row, the weight of the row's league in the fixed
    table and 3 for a league that is not in it: as ints when every league
    of the frame is in the table, as floats otherwise.  A weight is between
    2 and 6; the Champions League has 6 and League One 2. *)
Theorem league_importance_of_match_rows :
  forall (m : Match.t) (ms : list Match.t),
  exists out,
    create_features self (matches_frame (m :: ms)) = Return out
    /\ lookup_column "league_importance" (data out)
       = Some (if forallb (fun m => bool_decide
                                      (is_Some (league_importance !! Match.league m)))
                    (m :: ms)
               then Int64 (map (fun m => league_weight (Match.league m)) (m :: ms))
               else Float64 (map (fun m => float_of_Z (league_weight (Match.league m)))
                               (m :: ms)))
    /\ (forall league,
          (2 <= league_weight league <= 6)%Z
          /\ (league_importance !! league = None -> league_weight league = 3%Z))
    /\ league_weight "Champions League" = 6%Z
    /\ league_weight "League One" = 2%Z.
Proof.
  intros m ms. eexists. split; [apply create_features_match_frame|].
  split.
  - rewrite !lookup_setitem_ne by discriminate.
    rewrite lookup_placeholder_stages
      by (apply (bool_decide_unpack _); vm_compute; exact I).
    rewrite lookup_setitem_eq. f_equal. apply league_importance_column.
  - split; [|split; reflexivity].
    intros league. split; [apply league_weight_range|].
    unfold league_weight. by intros ->.
Qed.

(** X4: [create_features] only adds or recomputes the twenty-four
    columns it assigns: the number of rows and every other column of the
    frame it is given are in its result unchanged. *)
Theorem create_features_keeps_input :
  forall (df out : DataFrame),
    create_features self df = Return out ->
    nrows out = nrows df
    /\ forall c, c ∉ assigned_labels ->
         lookup_column c (data out) = lookup_column c (data df).
Proof. intros df out. apply create_features_keeps. Qed.

(** X5: a frame without a ["league"] column is refused: building the
    features, and with it preparing training data, raises the [KeyError]
    of the missing label. *)
Theorem create_features_needs_league :
  forall (df : DataFrame),
    "league" ∉ columns df ->
    create_features self df = Raise (Exc KeyError "'league'")
    /\ prepare_training_data self df = Raise (Exc KeyError "'league'").
Proof.
  intros df Hl.
  assert (create_features self df = Raise (Exc KeyError "'league'")) as Hc.
  { rewrite create_features_stages. unfold _add_basic_features, getitem.
    rewrite lookup_setitem_int_ne by discriminate.
    apply lookup_column_None in Hl. by rewrite Hl. }
  split; [done|]. unfold prepare_training_data. by rewrite Hc.
Qed.

Lemma calendar_labels_not_assigned c :
  c ∈ ["match_date"; "day_of_week"; "month"; "is_weekend"] ->
  c ∉ take 20 assigned_labels.
Proof.
  intros Hc.
  repeat (apply elem_of_cons in Hc as [->|Hc];
          [apply (bool_decide_unpack _); vm_compute; exact I|]).
  by apply elem_of_nil in Hc.
Qed.

Lemma feature_columns_cover :
  Forall (fun c => c ∈ take 20 assigned_labels
                   \/ c ∈ ["match_date"; "day_of_week"; "month"; "is_weekend"])
    (get_feature_columns self).
Proof. apply (bool_decide_unpack _). vm_compute. exact I. Qed.

Lemma feature_columns_not_assigned :
  List.filter (fun c => negb (bool_decide (c ∈ take 20 assigned_labels)))
    (get_feature_columns self)
  = ["day_of_week"; "month"; "is_weekend"].
Proof. vm_compute. reflexivity. Qed.


Lemma missing_labels_without_dates out df :
  columns out = foldl (fun labels c => assign_label c labels) (columns df)
                  (take 20 assigned_labels) ->
  Forall (fun c => c ∉ columns df)
    ["match_date"; "day_of_week"; "month"; "is_weekend"] ->
  Forall (fun c => c ∉ columns out)
    ["match_date"; "day_of_week"; "month"; "is_weekend"]
  /\ missing_labels (get_feature_columns self) out
     = ["day_of_week"; "month"; "is_weekend"].
Proof.
  intros Hcols Hnone.
  assert (forall c, c ∈ columns out
                    <-> c ∈ take 20 assigned_labels \/ c ∈ columns df) as Hmem
    by (intros c; rewrite Hcols; apply elem_of_foldl_assign_label).
  assert (forall c, c ∈ ["match_date"; "day_of_week"; "month"; "is_weekend"] ->
                    c ∉ columns out) as Hmissing.
  { intros c Hc. rewrite Hmem. intros [Hin|Hin].
    - by apply (calendar_labels_not_assigned c).
    - rewrite Forall_forall in Hnone. by apply (Hnone c). }
  split; [by apply Forall_forall|].
  rewrite <- feature_columns_not_assigned. unfold missing_labels.
  apply filter_ext_in. intros c Hc. f_equal. apply bool_decide_ext.
  rewrite Hmem. split; [|by left]. intros [Hin|Hin]; [done|].
  pose proof feature_columns_cover as Hcover.
  rewrite Forall_forall in Hcover. apply list_elem_of_In in Hc.
  destruct (Hcover c Hc) as [|Hcal]; [done|].
  exfalso. apply (Hmissing c Hcal). apply Hmem. by right.
Qed.

(** X6: a frame with a ["league"] column and no ["match_date"]
    column (and no calendar columns of its own) gets the other features
    and no calendar features; preparing training data from it raises the
    [KeyError] that names the three calendar columns. *)
Theorem prepare_training_data_needs_dates :
  forall (df : DataFrame) (league : Series),
    lookup_column "league" (data df) = Some league ->
    Forall (fun c => c ∉ columns df)
      ["match_date"; "day_of_week"; "month"; "is_weekend"] ->
    (exists out,
       create_features self df = Return out
       /\ Forall (fun c => c ∉ columns out)
            ["match_date"; "day_of_week"; "month"; "is_weekend"])
    /\ prepare_training_data self df
       = Raise (Exc KeyError (not_in_index ["day_of_week"; "month"; "is_weekend"])).
Proof.
  intros df league Hl Hnone.
  destruct (create_features_without_dates self df league Hl) as (out & Hout & Hcols).
  { apply Forall_cons in Hnone. tauto. }
  destruct (missing_labels_without_dates out df Hcols Hnone) as [Hmissing Hlabels].
  split; [by exists out|].
  unfold prepare_training_data. rewrite Hout, bind_Return. unfold getitem_list.
  rewrite select_columns_None.
  - by rewrite Hlabels.
  - intros Hall. rewrite Forall_forall in Hall, Hmissing.
    apply (Hmissing "month").
    + apply list_elem_of_further, list_elem_of_further, list_elem_of_here.
    + apply Hall. apply (bool_decide_unpack _). vm_compute. exact I.
Qed.

End FeatureTheorems.

Section FeatureExamples.

Lemma training_data_of_finished_matches_witness :
  [arsenal_chelsea] <> []
  /\ Forall finished [arsenal_chelsea]
  /\ exists X,
       prepare_training_data (mkFeatureEngineer example_session)
         (matches_frame [arsenal_chelsea])
       = Return (X, Int64 (map match_label [arsenal_chelsea]),
                 get_feature_columns (mkFeatureEngineer example_session))
       /\ columns X = get_feature_columns (mkFeatureEngineer example_session)
       /\ nrows X = length [arsenal_chelsea].
Proof.
  assert (Forall finished [arsenal_chelsea]) as Hall.
  { apply Forall_cons. split; [|apply Forall_nil_2].
    split; eexists; reflexivity. }
  split; [discriminate|]. split; [exact Hall|].
  apply (training_data_of_finished_matches (mkFeatureEngineer example_session)
           [arsenal_chelsea]); [discriminate | exact Hall].
Defined.

Lemma create_features_keeps_input_witness :
  exists out,
    create_features (mkFeatureEngineer example_session)
      (matches_frame [accrington_barrow]) = Return out
    /\ nrows out = 1
    /\ lookup_column "season" (data out) = Some (Object [OStr "2023/24"]).
Proof.
  destruct (create_features_matches_frame (mkFeatureEngineer example_session)
              accrington_barrow []) as [out Hout].
  destruct (create_features_keeps_input (mkFeatureEngineer example_session)
              _ out Hout) as [Hn Hkeep].
  exists out. split; [exact Hout|]. split; [exact Hn|].
  rewrite Hkeep; [reflexivity|].
  apply (bool_decide_unpack _). vm_compute. exact I.
Defined.

Lemma create_features_needs_league_witness :
  ("league" ∉ columns empty_frame)
  /\ create_features (mkFeatureEngineer example_session) empty_frame
     = Raise (Exc KeyError "'league'")
  /\ prepare_training_data (mkFeatureEngineer example_session) empty_frame
     = Raise (Exc KeyError "'league'").
Proof.
  assert ("league" ∉ columns empty_frame) as Hl by apply not_elem_of_nil.
  split; [exact Hl|].
  exact (create_features_needs_league (mkFeatureEngineer example_session)
           empty_frame Hl).
Defined.

Lemma prepare_training_data_needs_dates_witness :
  lookup_column "league" (data league_only_frame)
  = Some (Object [OStr "Serie A"; OStr "Eredivisie"])
  /\ Forall (fun c => c ∉ columns league_only_frame)
       ["match_date"; "day_of_week"; "month"; "is_weekend"]
  /\ prepare_training_data (mkFeatureEngineer example_session) league_only_frame
     = Raise (Exc KeyError (not_in_index ["day_of_week"; "month"; "is_weekend"])).
Proof.
  assert (Forall (fun c => c ∉ columns league_only_frame)
            ["match_date"; "day_of_week"; "month"; "is_weekend"]) as Hnone.
  { repeat (apply Forall_cons; split;
            [apply (bool_decide_unpack _); vm_compute; exact I|]).
    apply Forall_nil_2. }
  split; [reflexivity|]. split; [exact Hnone|].
  exact (proj2 (prepare_training_data_needs_dates
                  (mkFeatureEngineer example_session) league_only_frame _
                  eq_refl Hnone)).
Defined.

End FeatureExamples.

(** ** Loading and saving artifacts *)

Lemma string_length_app (s1 s2 : string) :
  String.length (s1 ++ s2) = String.length s1 + String.length s2.
Proof. induction s1 as [|c s1 IH]; simpl; [done | by rewrite IH]. Qed.

Lemma substring_all (s : string) : String.substring 0 (String.length s) s = s.
Proof. induction s as [|c s IH]; simpl; [done | by rewrite IH]. Qed.

Lemma substring_app_suffix (a q : string) :
  String.substring (String.length a) (String.length q) (a ++ q) = q.
Proof. induction a as [|c a IH]; simpl; [apply substring_all | done]. Qed.

Lemma startswith_app (p s : string) : startswith (p ++ s) p = true.
Proof.
  unfold startswith. induction p as [|c p IH]; simpl; [by destruct s|].
  by destruct (ascii_dec c c).
Qed.

Lemma endswith_app (a q : string) : endswith (a ++ q) q = true.
Proof.
  unfold endswith. rewrite string_length_app.
  replace (String.length a + String.length q - String.length q)
    with (String.length a) by lia.
  rewrite substring_app_suffix, String.eqb_refl, andb_true_r.
  apply Nat.leb_le. lia.
Qed.

Lemma strftime_version_not_empty d : Datetime.strftime_version d <> "".
Proof.
  unfold Datetime.strftime_version. intros Heq.
  apply (f_equal String.length) in Heq.
  rewrite !string_length_app in Heq. simpl in Heq. lia.
Qed.

Lemma app_assoc_string (a b c : string) : a ++ b ++ c = (a ++ b) ++ c.
Proof.
  induction a as [|x a IH]; [done|].
  change (String x (a ++ b ++ c) = String x ((a ++ b) ++ c)). by rewrite IH.
Qed.

Section LoaderProperties.
Context `{MLLibrary}.

Lemma model_filename_world model_name model_version (w : World) r w' :
  ModelPredictor._model_filename model_name model_version w = (r, w') -> w' = w.
Proof.
  unfold ModelPredictor._model_filename, mbind, M_bind, listdir, raise, mret, M_ret.
  destruct model_version as [v|]; [destruct (String.eqb v "")|];
    repeat case_match; by intros [= _ <-].
Qed.

Lemma load_model_world model_name model_version (w : World) r w' :
  ModelPredictor._load_model model_name model_version w = (r, w') -> w' = w.
Proof.
  unfold ModelPredictor._load_model. unfold mbind at 1, M_bind at 1.
  destruct (ModelPredictor._model_filename model_name model_version w)
    as [[f|e] w1] eqn:Hf; apply model_filename_world in Hf as ->.
  - unfold mbind, M_bind, read_pickle, raise, mret, M_ret.
    destruct (models_dir w !! f); by intros [= _ <-].
  - by intros [= _ <-].
Qed.

Lemma load_model_file model_name model_version (w : World) f :
  ModelPredictor._model_filename model_name model_version w = (Return f, w) ->
  ModelPredictor._load_model model_name model_version w
  = (match models_dir w !! f with
     | Some d => Return (md_model d, md_model_type d, md_feature_columns d)
     | None => Raise (Exc ValueError ("Model file not found: ./models/" ++ f))
     end, w).
Proof.
  intros Hf. unfold ModelPredictor._load_model.
  rewrite (M_bind_eq _ _ _ _ _ Hf).
  unfold mbind, M_bind, read_pickle, raise, mret, M_ret.
  by destruct (models_dir w !! f).
Qed.

Lemma model_filename_version model_name v (w : World) :
  v <> "" ->
  ModelPredictor._model_filename model_name (Some v) w
  = (Return (model_name ++ "_" ++ v ++ ".pkl"), w).
Proof.
  intros Hv. unfold ModelPredictor._model_filename.
  by rewrite (proj2 (String.eqb_neq v "") Hv).
Qed.

Lemma model_filename_empty_version model_name (w : World) :
  ModelPredictor._model_filename model_name (Some "") w
  = ModelPredictor._model_filename model_name None w.
Proof. reflexivity. Qed.

Lemma model_filename_no_file model_name (w : World) :
  List.filter (fun f => startswith f (model_name ++ "_") && endswith f ".pkl")
    ((map_to_list (models_dir w)).*1) = [] ->
  ModelPredictor._model_filename model_name None w
  = (Raise (Exc ValueError ("No model found for " ++ model_name)), w).
Proof.
  intros Hnil. unfold ModelPredictor._model_filename, mbind, M_bind, listdir.
  by rewrite Hnil.
Qed.

Lemma matching_files_elem model_name (w : World) f :
  f ∈ List.filter (fun f => startswith f (model_name ++ "_") && endswith f ".pkl")
        ((map_to_list (models_dir w)).*1)
  <-> is_Some (models_dir w !! f)
      /\ startswith f (model_name ++ "_") = true /\ endswith f ".pkl" = true.
Proof.
  by rewrite list_elem_of_In, filter_In, <- list_elem_of_In, listdir_elem,
    andb_true_iff.
Qed.

Lemma load_latest_without_file model_name (w : World) :
  (forall f, is_Some (models_dir w !! f) ->
             startswith f (model_name ++ "_") = true ->
             endswith f ".pkl" = false) ->
  ModelPredictor._load_model model_name None w
  = (Raise (Exc ValueError ("No model found for " ++ model_name)), w).
Proof.
  intros Hnone. unfold ModelPredictor._load_model.
  unfold mbind at 1, M_bind at 1. rewrite model_filename_no_file; [done|].
  destruct (List.filter _ _) as [|f l] eqn:Hfilter; [done|]. exfalso.
  assert (f ∈ f :: l) as Hin by left. rewrite <- Hfilter in Hin.
  apply matching_files_elem in Hin as (Hf & Hs & He).
  rewrite (Hnone f Hf Hs) in He. discriminate.
Qed.

Lemma load_latest_with_file model_name (w : World) :
  (exists f, is_Some (models_dir w !! f)
             /\ startswith f (model_name ++ "_") = true
             /\ endswith f ".pkl" = true) ->
  exists f d,
    models_dir w !! f = Some d
    /\ startswith f (model_name ++ "_") = true
    /\ endswith f ".pkl" = true
    /\ (forall g, is_Some (models_dir w !! g) ->
                  startswith g (model_name ++ "_") = true ->
                  endswith g ".pkl" = true -> string_le g f)
    /\ ModelPredictor._load_model model_name None w
       = (Return (md_model d, md_model_type d, md_feature_columns d), w).
Proof.
  intros (f0 & Hf0 & Hs0 & He0).
  destruct (model_filename_latest model_name w) as (f & Hrun & Hin & Hmax).
  { intros Hnil.
    assert (f0 ∈ List.filter
                    (fun f => startswith f (model_name ++ "_") && endswith f ".pkl")
                    ((map_to_list (models_dir w)).*1)) as Hin
      by (by apply matching_files_elem).
    rewrite Hnil in Hin. by apply elem_of_nil in Hin. }
  apply matching_files_elem in Hin as ([d Hd] & Hs & He).
  exists f, d. split; [done|]. split; [done|]. split; [done|]. split.
  - intros g Hg Hgs Hge. apply Hmax. by apply matching_files_elem.
  - rewrite (load_model_file _ _ _ _ Hrun). by rewrite Hd.
Qed.

(** X7: with the version left out, or empty, [_load_model] looks for
    the files of the directory whose name starts with the model name and an
    underscore and ends in [.pkl].  Without such a file it raises the
    [ValueError] ["No model found for <name>"]; with one it returns the
    contents of such a file whose name is the greatest in the order of
    strings, and never reports a missing file.  The directory and the
    database are as before. *)
Theorem load_model_latest :
  forall (model_name : string) (model_version : option string) (w : World),
    model_version = None \/ model_version = Some "" ->
    ((forall f, is_Some (models_dir w !! f) ->
                startswith f (model_name ++ "_") = true ->
                endswith f ".pkl" = false) ->
     ModelPredictor._load_model model_name model_version w
     = (Raise (Exc ValueError ("No model found for " ++ model_name)), w))
    /\ ((exists f, is_Some (models_dir w !! f)
                   /\ startswith f (model_name ++ "_") = true
                   /\ endswith f ".pkl" = true) ->
        exists f d,
          models_dir w !! f = Some d
          /\ startswith f (model_name ++ "_") = true
          /\ endswith f ".pkl" = true
          /\ (forall g, is_Some (models_dir w !! g) ->
                        startswith g (model_name ++ "_") = true ->
                        endswith g ".pkl" = true -> string_le g f)
          /\ ModelPredictor._load_model model_name model_version w
             = (Return (md_model d, md_model_type d, md_feature_columns d), w)).
Proof.
  intros model_name model_version w Hv.
  assert (ModelPredictor._load_model model_name model_version w
          = ModelPredictor._load_model model_name None w) as ->
    by (by destruct Hv as [-> | ->]).
  split; [apply load_latest_without_file | apply load_latest_with_file].
Qed.

(** X8: with a version that is not empty [_load_model] opens the one
    file [<name>_<version>.pkl]: it returns the model, the model type and
    the column list stored there, and without that file raises the
    [ValueError] ["Model file not found: ./models/<name>_<version>.pkl"],
    whatever other versions of the model the directory has. *)
Theorem load_model_by_version :
  forall (model_name model_version : string) (w : World),
    model_version <> "" ->
    ModelPredictor._load_model model_name (Some model_version) w
    = (match models_dir w !! (model_name ++ "_" ++ model_version ++ ".pkl") with
       | Some d => Return (md_model d, md_model_type d, md_feature_columns d)
       | None =>
           Raise (Exc ValueError
                    ("Model file not found: ./models/" ++ model_name ++ "_"
                     ++ model_version ++ ".pkl"))
       end, w).
Proof.
  intros model_name v w Hv.
  by rewrite (load_model_file _ _ _ _ (model_filename_version model_name v w Hv)).
Qed.


(** X9: [_save_model] stamps the version from the clock and writes one
    file, [<name>_<version>.pkl]; the database and the other files are as
    before.  Loading the model under that name and version right after
    returns the model, the model type and the column list that were saved;
    loading it without a version finds some artifact. *)
Theorem save_model_then_load :
  forall (model : Model) (model_name model_type : ConfigValue)
         (feature_columns : list string) (w : World),
  exists model_version w',
    ModelTrainer._save_model model model_name model_type feature_columns w
    = (Return model_version, w')
    /\ model_version = Datetime.strftime_version (clock (ticks w))
    /\ db w' = db w
    /\ (forall f, f <> str_of model_name ++ "_" ++ model_version ++ ".pkl" ->
                  models_dir w' !! f = models_dir w !! f)
    /\ ModelPredictor._load_model (str_of model_name) (Some model_version) w'
       = (Return (model, model_type, feature_columns), w')
    /\ exists latest,
         ModelPredictor._load_model (str_of model_name) None w'
         = (Return latest, w').
Proof.
  intros model model_name model_type feature_columns w.
  eexists _, _. split; [apply save_model_run|]. split; [done|]. split; [done|].
  split.
  { intros f Hf. cbn [models_dir]. by rewrite lookup_insert_ne. }
  split.
  - rewrite (load_model_file _ _ _ _
               (model_filename_version _ _ _ (strftime_version_not_empty _))).
    cbn [models_dir]. by rewrite lookup_insert_eq.
  - match goal with |- context [ModelPredictor._load_model _ None ?w0] =>
      destruct (load_latest_with_file (str_of model_name) w0)
        as (f & d & _ & _ & _ & _ & Hload) end.
    + eexists. cbn [models_dir]. rewrite lookup_insert_eq. split; [eauto|].
      rewrite app_assoc_string. split; [apply startswith_app|].
      rewrite app_assoc_string. apply endswith_app.
    + eauto.
Qed.

End LoaderProperties.

(** ** Runs of the predictor *)

Lemma next_id_fresh (ids : list Z) i : i ∈ ids -> (i < next_id ids)%Z.
Proof.
  unfold next_id. induction ids as [|x ids IH]; intros Hin.
  - by apply elem_of_nil in Hin.
  - cbn [foldr]. apply elem_of_cons in Hin as [->|Hin]; [lia|].
    specialize (IH Hin). lia.
Qed.

Section PredictionRuns.
Context `{MLLibrary}.

Lemma M_bind_Raise {A B} (m : M A) (f : A -> M B) w e w1 :
  m w = (Raise e, w1) -> (m ≫= f) w = (Raise e, w1).
Proof. unfold mbind, M_bind. by intros ->. Qed.

Lemma predict_match_eq match_id model_name model_version (w : World) :
  ModelPredictor.predict_match match_id model_name model_version w
  = match ModelPredictor.query_match match_id (db w) with
    | None =>
        (Raise (Exc PlainException
                  ("Prediction failed: Match " ++ pretty match_id ++ " not found")),
         w)
    | Some m =>
        match ModelPredictor._load_model model_name model_version w with
        | (Raise e, _) =>
            (Raise (Exc PlainException ("Prediction failed: " ++ str e)), w)
        | (Return (model, model_type, cols), _) =>
            match ModelPredictor._prepare_match_features
                    (mkFeatureEngineer (db w)) m cols with
            | Raise e =>
                (Raise (Exc PlainException ("Prediction failed: " ++ str e)), w)
            | Return features =>
                match ModelPredictor._make_prediction model features model_type with
                | Raise e =>
                    (Raise (Exc PlainException ("Prediction failed: " ++ str e)), w)
                | Return r =>
                    match model_version with
                    | None =>
                        (Raise (Exc PlainException
                                  ("Prediction failed: NOT NULL constraint failed: predictions.model_version")), w)
                    | Some _ =>
                        let row := prediction_row (db w) match_id model_name
                                     model_version r features in
                        (Return (mkMatchPrediction match_id
                                   (Match.home_team_name m) (Match.away_team_name m)
                                   (Datetime.isoformat (Match.match_date m))
                                   r (Prediction.id row)),
                         mkWorld (mkSession (matches (db w))
                                    (predictions (db w) ++ [row])
                                    (model_performance (db w)))
                           (models_dir w) (ticks w))
                    end
                end
            end
        end
    end.
Proof.
  destruct (ModelPredictor.query_match match_id (db w)) as [m|] eqn:Hq;
    [|by apply predict_match_missing].
  unfold ModelPredictor.predict_match.
  match goal with |- try_exceptM ?b ?h w = _ =>
    set (body := b); set (handler := h) end.
  assert (forall e, body w = (Raise e, w) ->
            try_exceptM body handler w
            = (Raise (Exc PlainException ("Prediction failed: " ++ str e)), w))
    as Hfail by (intros e He; by rewrite (try_exceptM_Raise _ _ _ _ _ He)).
  assert (forall k, body w = (k m) w -> True) as _ by done.
  assert (body w
          = ('(model, model_type, feature_columns) ←
               ModelPredictor._load_model model_name model_version;
             s ← get_db;
             features ← lift (ModelPredictor._prepare_match_features
                                (mkFeatureEngineer s) m feature_columns);
             prediction_result ← lift (ModelPredictor._make_prediction model
                                         features model_type);
             prediction ← ModelPredictor._save_prediction match_id model_name
                            model_version prediction_result features;
             mret (mkMatchPrediction match_id
                     (Match.home_team_name m) (Match.away_team_name m)
                     (Datetime.isoformat (Match.match_date m))
                     prediction_result (Prediction.id prediction))) w) as Hbody.
  { unfold body. rewrite (M_bind_eq get_db _ w (db w) w eq_refl). by rewrite Hq. }
  destruct (ModelPredictor._load_model model_name model_version w)
    as [[[[model model_type] cols]|e] w1] eqn:Hload;
    pose proof (load_model_world _ _ _ _ _ Hload) as ->.
  2:{ apply Hfail. rewrite Hbody. by apply M_bind_Raise. }
  rewrite (M_bind_eq _ _ _ _ _ Hload) in Hbody. cbv beta iota in Hbody.
  rewrite (M_bind_eq get_db _ w (db w) w eq_refl) in Hbody.
  cbv beta in Hbody.
  destruct (ModelPredictor._prepare_match_features (mkFeatureEngineer (db w)) m cols)
    as [features|e] eqn:Hprep.
  2:{ apply Hfail. rewrite Hbody. apply (M_bind_Raise (lift _)).
      reflexivity. }
  rewrite (M_bind_eq (lift _) _ w features w) in Hbody
    by reflexivity.
  cbv beta in Hbody.
  destruct (ModelPredictor._make_prediction model features model_type)
    as [r|e] eqn:Hmake.
  2:{ apply Hfail. rewrite Hbody. apply (M_bind_Raise (lift _)).
      reflexivity. }
  rewrite (M_bind_eq (lift _) _ w r w) in Hbody
    by reflexivity.
  cbv beta in Hbody.
  destruct model_version as [v|].
  - apply try_exceptM_Return. rewrite Hbody. reflexivity.
  - apply (Hfail (Exc IntegrityError
                    "NOT NULL constraint failed: predictions.model_version")).
    rewrite Hbody. reflexivity.
Qed.


Lemma predict_match_Raise_world match_id model_name model_version (w : World) e w' :
  ModelPredictor.predict_match match_id model_name model_version w = (Raise e, w') ->
  w' = w.
Proof.
  rewrite predict_match_eq. repeat case_match; by intros [= _ <-].
Qed.

Lemma predict_match_Return_inv match_id model_name model_version (w : World) p w' :
  ModelPredictor.predict_match match_id model_name model_version w = (Return p, w') ->
  exists m model model_type cols features r,
    ModelPredictor.query_match match_id (db w) = Some m
    /\ ModelPredictor._load_model model_name model_version w
       = (Return (model, model_type, cols), w)
    /\ ModelPredictor._prepare_match_features (mkFeatureEngineer (db w)) m cols
       = Return features
    /\ ModelPredictor._make_prediction model features model_type = Return r
    /\ is_Some model_version
    /\ p = mkMatchPrediction match_id
             (Match.home_team_name m) (Match.away_team_name m)
             (Datetime.isoformat (Match.match_date m)) r
             (Prediction.id (prediction_row (db w) match_id model_name
                               model_version r features))
    /\ w' = mkWorld (mkSession (matches (db w))
                       (predictions (db w)
                        ++ [prediction_row (db w) match_id model_name
                              model_version r features])
                       (model_performance (db w)))
              (models_dir w) (ticks w).
Proof.
  rewrite predict_match_eq.
  destruct (ModelPredictor.query_match match_id (db w)) as [m|]; [|discriminate].
  destruct (ModelPredictor._load_model model_name model_version w)
    as [[[[model model_type] cols]|e] w1] eqn:Hload; [|discriminate].
  pose proof (load_model_world _ _ _ _ _ Hload) as ->.
  destruct (ModelPredictor._prepare_match_features _ m cols)
    as [features|e] eqn:Hprep; [|discriminate].
  destruct (ModelPredictor._make_prediction model features model_type)
    as [r|e] eqn:Hmake; [|discriminate].
  destruct model_version as [v|]; [|discriminate].
  intros [= <- <-]. exists m, model, model_type, cols, features, r.
  repeat split; eauto.
Qed.

(** X10: a call of [predict_match] that raises leaves the database and
    the model directory as they were: no prediction row is stored for a
    match that is missing, a model that cannot be loaded, features that
    cannot be selected, a model that fails, or a row the table refuses. *)
Theorem failed_prediction_stores_nothing :
  forall (match_id : Z) (model_name : string) (model_version : option string)
         (w : World) (e : PyExc) (w' : World),
    ModelPredictor.predict_match match_id model_name model_version w
    = (Raise e, w') ->
    w' = w.
Proof. intros *. apply predict_match_Raise_world. Qed.

(** X11: a call of [predict_match] that returns was given a version
    and a match of the table, and has stored exactly one new row at the end
    of the predictions table; matches, performance rows and model files are
    as before.  The row has a key greater than every key of the table, which
    is the [prediction_id] of the answer, and carries the match id, the
    model name and version of the call, and the outcome, the confidence and
    the three probabilities of the answer; the answer names the two teams
    and the date of the match. *)
Theorem predict_match_stores_one_row :
  forall (match_id : Z) (model_name : string) (model_version : option string)
         (w : World) (p : MatchPrediction) (w' : World),
    ModelPredictor.predict_match match_id model_name model_version w
    = (Return p, w') ->
    exists m row,
      ModelPredictor.query_match match_id (db w) = Some m
      /\ is_Some model_version
      /\ db w' = mkSession (matches (db w)) (predictions (db w) ++ [row])
                   (model_performance (db w))
      /\ models_dir w' = models_dir w
      /\ Prediction.id row = p_prediction_id p
      /\ (forall q, q ∈ predictions (db w) ->
                    (Prediction.id q < Prediction.id row)%Z)
      /\ Prediction.match_id row = match_id
      /\ Prediction.model_name row = model_name
      /\ Prediction.model_version row = model_version
      /\ Prediction.predicted_outcome row = r_predicted_outcome (p_prediction p)
      /\ Prediction.overall_confidence row = r_overall_confidence (p_prediction p)
      /\ Prediction.home_win_probability row
         = r_home_win_probability (p_prediction p)
      /\ Prediction.draw_probability row = r_draw_probability (p_prediction p)
      /\ Prediction.away_win_probability row
         = r_away_win_probability (p_prediction p)
      /\ p_match_id p = match_id
      /\ p_home_team p = Match.home_team_name m
      /\ p_away_team p = Match.away_team_name m
      /\ p_match_date p = Datetime.isoformat (Match.match_date m).
Proof.
  intros match_id model_name model_version w p w' Hrun.
  apply predict_match_Return_inv in Hrun
    as (m & model & model_type & cols & features & r
        & Hq & _ & _ & _ & Hv & -> & ->).
  exists m, (prediction_row (db w) match_id model_name model_version r features).
  split; [done|]. split; [done|]. split; [done|]. split; [done|].
  split; [done|]. split; [|done].
  intros q Hq'. cbn [prediction_row Prediction.id].
  apply next_id_fresh. by apply list_elem_of_fmap_2.
Qed.

Lemma predict_match_without_version match_id model_name (w : World) :
  exists e,
    ModelPredictor.predict_match match_id model_name None w = (Raise e, w).
Proof.
  rewrite predict_match_eq. repeat case_match; eauto.
Qed.

(** The prediction rows a run of the batch loop stores. *)
Lemma batch_run_world model_name model_version ids (w : World) entries w' :
  ModelPredictor.batch_run model_name model_version ids w entries w' ->
  matches (db w') = matches (db w)
  /\ model_performance (db w') = model_performance (db w)
  /\ models_dir w' = models_dir w
  /\ exists rows,
       predictions (db w') = (predictions (db w) ++ rows)%list
       /\ map Prediction.id rows = omap entry_prediction_id entries
       /\ Forall (fun row => Prediction.model_name row = model_name
                             /\ Prediction.model_version row = model_version)
            rows.
Proof.
  induction 1 as [w | match_id rest w p w1 entries w2 Hp _ IH
                  | match_id rest w e w1 entries w2 Hp _ IH].
  - repeat split. exists []. by rewrite app_nil_r.
  - apply predict_match_Return_inv in Hp
      as (m & model & model_type & cols & features & r
          & _ & _ & _ & _ & _ & -> & ->).
    destruct IH as (Hm & Hperf & Hdir & rows & Hrows & Hids & Hall).
    cbn [db matches model_performance predictions models_dir] in *.
    split; [done|]. split; [done|]. split; [done|].
    eexists (_ :: rows). split; [by rewrite Hrows, <- app_assoc|].
    split; [cbn; by rewrite Hids|].
    apply Forall_cons. done.
  - apply predict_match_Raise_world in Hp as ->.
    destruct IH as (Hm & Hperf & Hdir & rows & Hrows & Hids & Hall).
    split; [done|]. split; [done|]. split; [done|].
    exists rows. done.
Qed.

(** X12: without a version no prediction is ever stored: the row would
    have no [model_version], which the predictions table refuses.  So
    [predict_match] raises for every match and model, and every entry of a
    batch is an error entry; the database and the model files are as
    before. *)
Theorem prediction_without_version_fails :
  forall (match_ids : list Z) (match_id : Z) (model_name : string) (w : World),
    (exists e,
       ModelPredictor.predict_match match_id model_name None w = (Raise e, w))
    /\ exists entries,
         ModelPredictor.predict_matches_batch match_ids model_name None w
         = (Return entries, w)
         /\ map entry_match_id entries = match_ids
         /\ Forall (fun entry => is_predicted entry = false) entries.
Proof.
  intros match_ids match_id model_name w.
  split; [apply predict_match_without_version|].
  destruct (batch_loop_run match_ids model_name None [] w)
    as (entries & w' & Hloop & Hrun).
  pose proof (batch_run_ids _ _ _ _ _ _ Hrun) as Hids.
  assert (w' = w /\ Forall (fun entry => is_predicted entry = false) entries)
    as [-> Hall].
  { clear Hloop Hids. induction Hrun as [w | match_id' rest w p w1 entries w2 Hp _ IH
                           | match_id' rest w e w1 entries w2 Hp _ IH].
    - done.
    - destruct (predict_match_without_version match_id' model_name w) as [e He].
      rewrite He in Hp. discriminate.
    - apply predict_match_Raise_world in Hp as ->.
      destruct IH as [-> Hall]. split; [done|]. by apply Forall_cons. }
  exists entries. done.
Qed.

(** X13: a batch call changes nothing but the predictions table, and
    that only at its end: the rows it appends are, in order, the rows of the
    prediction entries it answers with, one per entry and with the
    [prediction_id] of the entry as key, all of the model name and version
    of the call. *)
Theorem batch_stores_its_predictions :
  forall (match_ids : list Z) (model_name : string)
         (model_version : option string) (w : World),
  exists entries w' rows,
    ModelPredictor.predict_matches_batch match_ids model_name model_version w
    = (Return entries, w')
    /\ predictions (db w') = (predictions (db w) ++ rows)%list
    /\ map Prediction.id rows = omap entry_prediction_id entries
    /\ length rows = length (List.filter is_predicted entries)
    /\ Forall (fun row => Prediction.model_name row = model_name
                          /\ Prediction.model_version row = model_version) rows
    /\ matches (db w') = matches (db w)
    /\ model_performance (db w') = model_performance (db w)
    /\ models_dir w' = models_dir w.
Proof.
  intros match_ids model_name model_version w.
  destruct (batch_loop_run match_ids model_name model_version [] w)
    as (entries & w' & Hloop & Hrun).
  apply batch_run_world in Hrun
    as (Hm & Hperf & Hdir & rows & Hrows & Hids & Hall).
  exists entries, w', rows. split; [exact Hloop|]. split; [done|].
  split; [done|]. split; [|done].
  rewrite <- (length_map Prediction.id rows), Hids.
  clear. induction entries as [|[p|i e] entries IH]; [done| |]; cbn; by rewrite ?IH.
Qed.

End PredictionRuns.

(** ** What a prediction holds *)

(** [np.argmax] gives the position at which [np.max] was found. *)
Lemma argmax_fold (pre xs : list float) (i : Z) (best : float) :
  (0 <= i)%Z -> pre !! Z.to_nat i = Some best ->
  exists i' k',
    foldl (fun '(i, best, k) y =>
             if np_greater y best then (k, y, (k + 1)%Z) else (i, best, (k + 1)%Z))
      (i, best, Z.of_nat (length pre)) xs
    = (i', foldl (fun best y => if np_greater y best then y else best) best xs, k')
    /\ (0 <= i')%Z
    /\ (pre ++ xs)%list !! Z.to_nat i'
       = Some (foldl (fun best y => if np_greater y best then y else best) best xs).
Proof.
  revert pre i best. induction xs as [|y xs IH]; intros pre i best Hi Hbest.
  - exists i, (Z.of_nat (length pre)). rewrite app_nil_r. done.
  - cbn [foldl].
    replace (Z.of_nat (length pre) + 1)%Z with (Z.of_nat (length (pre ++ [y])))
      by (rewrite length_app; simpl; lia).
    replace (pre ++ y :: xs)%list with ((pre ++ [y]) ++ xs)%list
      by (by rewrite <- app_assoc).
    destruct (np_greater y best).
    + apply IH; [lia|]. rewrite Nat2Z.id. by apply list_lookup_middle.
    + apply IH; [done|]. by apply lookup_app_l_Some.
Qed.

Lemma argmax_max (xs : list float) (i : Z) (mx : float) :
  np_argmax xs = Return i -> np_max xs = Return mx ->
  (0 <= i)%Z /\ xs !! Z.to_nat i = Some mx.
Proof.
  destruct xs as [|x xs]; [discriminate|]. unfold np_argmax, np_max.
  destruct (argmax_fold [x] xs 0 x) as (i' & k' & Hfold & Hi & Hlook);
    [done | done |].
  change (Z.of_nat (length [x])) with 1%Z in Hfold. rewrite Hfold.
  by intros [= <-] [= <-].
Qed.

Section PredictionResults.
Context `{MLLibrary}.

Lemma eq_str_inv v s : eq_str v s = true -> v = Scalar (OStr s).
Proof.
  destruct v as [[]|]; try discriminate. cbn. by intros ->%String.eqb_eq.
Qed.

Lemma outcome_map_inv cls o :
  ModelPredictor.outcome_map !! cls = Some o ->
  (cls = 0%Z /\ o = "H") \/ (cls = 1%Z /\ o = "A") \/ (cls = 2%Z /\ o = "D").
Proof.
  unfold ModelPredictor.outcome_map. cbn [list_to_map foldr fst snd].
  destruct (decide (cls = 0%Z)) as [->|H0];
    [rewrite lookup_insert_eq; intros [= <-]; auto|].
  rewrite lookup_insert_ne by done.
  destruct (decide (cls = 1%Z)) as [->|H1];
    [rewrite lookup_insert_eq; intros [= <-]; auto|].
  rewrite lookup_insert_ne by done.
  destruct (decide (cls = 2%Z)) as [->|H2];
    [rewrite lookup_insert_eq; intros [= <-]; auto|].
  rewrite lookup_insert_ne by done. by rewrite lookup_empty.
Qed.

(** X14: for a model of type ["neural_network"] the class is the
    [np.argmax] of the probabilities the model gives, so the confidence of
    a prediction is the probability of the outcome it predicts: the home
    probability for ["H"], the away probability for ["A"], the draw
    probability for ["D"]. *)
Theorem neural_network_confidence :
  forall (model : Model) (features : DataFrame) (model_type : ConfigValue)
         (r : PredictionResult),
    eq_str model_type "neural_network" = true ->
    ModelPredictor._make_prediction model features model_type = Return r ->
    (r_predicted_outcome r = "H"
     /\ r_overall_confidence r = r_home_win_probability r)
    \/ (r_predicted_outcome r = "A"
        /\ r_overall_confidence r = r_away_win_probability r)
    \/ (r_predicted_outcome r = "D"
        /\ r_overall_confidence r = r_draw_probability r).
Proof.
  intros model features model_type r Hnn Hr.
  apply eq_str_inv in Hnn as ->.
  unfold ModelPredictor._make_prediction in Hr.
  change (eq_str (Scalar (OStr "neural_network")) "logistic_regression")
    with false in Hr.
  change (eq_str (Scalar (OStr "neural_network")) "neural_network")
    with true in Hr.
  cbv iota in Hr.
  apply bind_Return_inv in Hr as ([proba cls] & Hmodel & Hr).
  apply bind_Return_inv in Hmodel as (proba' & _ & Hmodel).
  apply bind_Return_inv in Hmodel as (cls' & Hcls & [= -> ->]).
  apply bind_Return_inv in Hr as (outcome & Houtcome & Hr).
  apply bind_Return_inv in Hr as (max_prob & Hmax & Hr).
  apply bind_Return_inv in Hr as (home & Hhome & Hr).
  apply bind_Return_inv in Hr as (away & Haway & Hr).
  apply bind_Return_inv in Hr as (draw & Hdraw & Hr).
  apply bind_Return_inv in Hr as (hs & _ & Hr).
  apply bind_Return_inv in Hr as (as_ & _ & [= <-]).
  cbn [r_predicted_outcome r_overall_confidence r_home_win_probability
         r_away_win_probability r_draw_probability].
  destruct (argmax_max _ _ _ Hcls Hmax) as [_ Hlook].
  destruct (ModelPredictor.outcome_map !! cls) as [o|] eqn:Ho; [|discriminate].
  injection Houtcome as <-. unfold index in *.
  destruct (proba !! 0%nat) as [p0|] eqn:H0; [|discriminate].
  destruct (proba !! 1%nat) as [p1|] eqn:H1; [|discriminate].
  destruct (proba !! 2%nat) as [p2|] eqn:H2; [|discriminate].
  injection Hhome as <-. injection Haway as <-. injection Hdraw as <-.
  apply outcome_map_inv in Ho as [[-> ->]|[[-> ->]|[-> ->]]];
    change (Z.to_nat _) with 0%nat in Hlook || change (Z.to_nat _) with 1%nat in Hlook
    || change (Z.to_nat _) with 2%nat in Hlook; [left | right; left | right; right];
    split; [done | congruence | done | congruence | done | congruence].
Qed.

Lemma make_prediction_outcome model features model_type r :
  ModelPredictor._make_prediction model features model_type = Return r ->
  r_predicted_outcome r ∈ ["H"; "A"; "D"].
Proof.
  unfold ModelPredictor._make_prediction. intros Hr.
  apply bind_Return_inv in Hr as ([proba cls] & _ & Hr).
  apply bind_Return_inv in Hr as (outcome & Houtcome & Hr).
  apply bind_Return_inv in Hr as (max_prob & _ & Hr).
  apply bind_Return_inv in Hr as (home & _ & Hr).
  apply bind_Return_inv in Hr as (away & _ & Hr).
  apply bind_Return_inv in Hr as (draw & _ & Hr).
  apply bind_Return_inv in Hr as (hs & _ & Hr).
  apply bind_Return_inv in Hr as (as_ & _ & [= <-]).
  cbn [r_predicted_outcome].
  destruct (ModelPredictor.outcome_map !! cls) as [o|] eqn:Ho; [|discriminate].
  injection Houtcome as <-.
  apply outcome_map_inv in Ho as [[_ ->]|[[_ ->]|[_ ->]]].
  - apply list_elem_of_here.
  - apply list_elem_of_further, list_elem_of_here.
  - apply list_elem_of_further, list_elem_of_further, list_elem_of_here.
Qed.

(** X15: [_make_prediction] reads the first three entries of the
    probability vector the model gives, as the home, the away and the draw
    probability in this order, and takes the [np.max] of the whole vector
    as the confidence; the outcome it answers is one of ["H"], ["A"] and
    ["D"].  With fewer than three probabilities it does not return. *)
Theorem make_prediction_reads_three_classes :
  forall (model : Model) (features : DataFrame) (model_type : ConfigValue)
         (proba : list float),
    predict_proba model model_type features = Return proba ->
    (length proba < 3 ->
     exists e, ModelPredictor._make_prediction model features model_type = Raise e)
    /\ (forall r,
          ModelPredictor._make_prediction model features model_type = Return r ->
          r_predicted_outcome r ∈ ["H"; "A"; "D"]
          /\ proba !! 0%nat = Some (r_home_win_probability r)
          /\ proba !! 1%nat = Some (r_away_win_probability r)
          /\ proba !! 2%nat = Some (r_draw_probability r)
          /\ np_max proba = Return (r_overall_confidence r)).
Proof.
  intros model features model_type proba Hproba.
  assert (forall r,
            ModelPredictor._make_prediction model features model_type = Return r ->
            r_predicted_outcome r ∈ ["H"; "A"; "D"]
            /\ proba !! 0%nat = Some (r_home_win_probability r)
            /\ proba !! 1%nat = Some (r_away_win_probability r)
            /\ proba !! 2%nat = Some (r_draw_probability r)
            /\ np_max proba = Return (r_overall_confidence r)) as Hreturn.
  { intros r Hr. split; [by apply make_prediction_outcome in Hr|].
    apply make_prediction_copies in Hr as (proba' & Hp & Hrest).
    rewrite Hproba in Hp. by injection Hp as <-. }
  split; [|exact Hreturn].
  intros Hlen.
  destruct (ModelPredictor._make_prediction model features model_type)
    as [r|e] eqn:Hr; [|eauto].
  destruct (Hreturn r eq_refl) as (_ & _ & _ & H2 & _).
  apply lookup_lt_Some in H2. lia.
Qed.

End PredictionResults.

(** ** Runs of the trainer *)

Section TrainingRuns.
Context `{MLLibrary}.

(** What the handler of [train_model] answers in the world [w0]. *)
Local Abbreviation training_failure config e w0 :=
  (match config_getitem "model_name" config with
   | Return name => (Return (ModelTrainer.TrainingError (str e) name), w0)
   | Raise e' => (Raise e', w0)
   end).

Lemma train_model_eq config (w : World) :
  ModelTrainer.train_model config w
  = let w0 := mkWorld (db w) (models_dir w) (S (ticks w)) in
    match ModelTrainer._get_training_data config w0 with
    | (Raise e, _) => training_failure config e w0
    | (Return (X, y, feature_columns), _) =>
        if (nrows X =? 0)%nat
        then training_failure config
               (Exc ValueError "No training data available") w0
        else
          match train_test_split X y
                  (config_get "test_size" (Scalar (OFloat 0.2)) config)
                  (config_get "random_state" (Scalar (OInt 42)) config) with
          | Raise e => training_failure config e w0
          | Return (X_train, X_test, y_train, y_test) =>
              match config_getitem "model_type" config with
              | Raise e => training_failure config e w0
              | Return model_type =>
                  match ModelTrainer._train_model_by_type model_type
                          X_train y_train config with
                  | Raise e => training_failure config e w0
                  | Return model =>
                      match evaluate model X_test y_test model_type with
                      | Raise e => training_failure config e w0
                      | Return metrics =>
                          match config_getitem "model_name" config with
                          | Raise e => (Raise e, w0)
                          | Return name =>
                              let version :=
                                Datetime.strftime_version (clock (S (ticks w))) in
                              (Return (ModelTrainer.TrainingSuccess name version
                                         (m_accuracy metrics)
                                         (timedelta_str (clock (ticks w))
                                            (clock (5 + ticks w)))),
                               mkWorld
                                 (mkSession (matches (db w)) (predictions (db w))
                                    (model_performance (db w)
                                     ++ [performance_row (db w) name version
                                           model_type metrics (nrows X_train)
                                           (nrows X_test)
                                           (total_seconds (clock (ticks w))
                                              (clock (3 + ticks w)))
                                           config (clock (4 + ticks w))]))
                                 (<[str_of name ++ "_" ++ version ++ ".pkl"
                                    := mkModelData model model_type feature_columns
                                         version (clock (S (S (ticks w))))]>
                                    (models_dir w))
                                 (6 + ticks w))
                          end
                      end
                  end
              end
          end
    end.
Proof.
  cbv zeta. unfold ModelTrainer.train_model.
  rewrite (M_bind_eq now _ w (clock (ticks w))
             (mkWorld (db w) (models_dir w) (S (ticks w)))) by reflexivity.
  set (w0 := mkWorld (db w) (models_dir w) (S (ticks w))).
  match goal with |- try_exceptM ?b ?h w0 = _ =>
    set (body := b); set (handler := h) end.
  assert (forall e, handler e w0 = training_failure config e w0) as Hhandler.
  { intros e. unfold handler, mbind, M_bind, lift, mret, M_ret.
    by destruct (config_getitem "model_name" config). }
  assert (forall e, body w0 = (Raise e, w0) ->
            try_exceptM body handler w0 = training_failure config e w0) as Hfail.
  { intros e He. by rewrite (try_exceptM_Raise _ _ _ _ _ He). }
  destruct (ModelTrainer._get_training_data config w0)
    as [[[[X y] fc]|e] w1] eqn:Hdata;
    pose proof (get_training_data_world _ _ _ _ Hdata) as ->.
  2:{ apply Hfail. unfold body. by apply M_bind_Raise. }
  assert (body w0
          = (if (nrows X =? 0)%nat
             then raise (Exc ValueError "No training data available")
             else
               '(X_train, X_test, y_train, y_test) ←
                 lift (train_test_split X y
                         (config_get "test_size" (Scalar (OFloat 0.2)) config)
                         (config_get "random_state" (Scalar (OInt 42)) config));
               model_type ← lift (config_getitem "model_type" config);
               model ← lift (ModelTrainer._train_model_by_type model_type
                               X_train y_train config);
               metrics ← lift (evaluate model X_test y_test model_type);
               model_name ← lift (config_getitem "model_name" config);
               model_version ← ModelTrainer._save_model model model_name
                                 model_type fc;
               model_name ← lift (config_getitem "model_name" config);
               t ← now;
               ModelTrainer._save_performance_metrics model_name model_version
                 model_type metrics (nrows X_train) (nrows X_test)
                 (total_seconds (clock (ticks w)) t) config;;
               model_name ← lift (config_getitem "model_name" config);
               t ← now;
               mret (ModelTrainer.TrainingSuccess model_name model_version
                       (m_accuracy metrics)
                       (timedelta_str (clock (ticks w)) t))) w0) as Hbody.
  { unfold body. by rewrite (M_bind_eq _ _ _ _ _ Hdata). }
  destruct (nrows X =? 0)%nat; [by apply Hfail|].
  destruct (train_test_split X y _ _) as [[[[Xtr Xte] ytr] yte]|e].
  2:{ apply Hfail. rewrite Hbody. by apply (M_bind_Raise (lift _)). }
  rewrite (M_bind_eq (lift _) _ w0 _ w0 eq_refl) in Hbody. cbv beta iota in Hbody.
  destruct (config_getitem "model_type" config) as [model_type|e] eqn:Htype.
  2:{ apply Hfail. rewrite Hbody. by apply (M_bind_Raise (lift _)). }
  rewrite (M_bind_eq (lift _) _ w0 _ w0 eq_refl) in Hbody. cbv beta in Hbody.
  destruct (ModelTrainer._train_model_by_type model_type Xtr ytr config)
    as [model|e].
  2:{ apply Hfail. rewrite Hbody. by apply (M_bind_Raise (lift _)). }
  rewrite (M_bind_eq (lift _) _ w0 _ w0 eq_refl) in Hbody. cbv beta in Hbody.
  destruct (evaluate model Xte yte model_type) as [metrics|e].
  2:{ apply Hfail. rewrite Hbody. by apply (M_bind_Raise (lift _)). }
  rewrite (M_bind_eq (lift _) _ w0 _ w0 eq_refl) in Hbody. cbv beta in Hbody.
  destruct (config_getitem "model_name" config) as [name|e] eqn:Hname.
  2:{ rewrite (try_exceptM_Raise _ _ _ e w0); [by rewrite Hhandler|].
      rewrite Hbody. by apply (M_bind_Raise (lift _)). }
  apply try_exceptM_Return. rewrite Hbody.
  rewrite (M_bind_eq (lift _) _ w0 _ w0 eq_refl). cbv beta.
  erewrite M_bind_eq by apply save_model_run. cbv beta.
  reflexivity.
Qed.


Lemma column_eq_true s v : column_eq s v = true <-> v = Scalar (OStr s).
Proof.
  destruct v as [[]|]; cbn; try (split; [discriminate|by intros [=]]).
  rewrite String.eqb_eq. split; [by intros -> | by intros [= ->]].
Qed.

Lemma config_get_filter key config s :
  truthy_value (config_get key (Scalar ONone) config) = true ->
  column_eq s (config_get key (Scalar ONone) config) = true
  <-> config !! key = Some (Scalar (OStr s)).
Proof.
  unfold config_get. rewrite column_eq_true.
  destruct (config !! key) as [v|]; cbn; [|discriminate].
  intros _. split; [by intros -> | by intros [= ->]].
Qed.

Lemma list_filter_sublist {A} (f : A -> bool) (l : list A) :
  List.filter f l `sublist_of` l.
Proof.
  induction l as [|x l IH]; [done|]. cbn. destruct (f x).
  - by apply sublist_skip.
  - by apply sublist_cons.
Qed.

Lemma finished_scores m :
  bool_decide (is_Some (Match.home_score m))
  && bool_decide (is_Some (Match.away_score m)) = true <-> finished m.
Proof.
  unfold finished. rewrite andb_true_iff, !bool_decide_eq_true. done.
Qed.

Lemma training_query_elem config s m :
  m ∈ ModelTrainer.training_query config s
  <-> m ∈ matches s /\ finished m
      /\ (truthy_value (config_get "league" (Scalar ONone) config) = true ->
          config !! "league" = Some (Scalar (OStr (Match.league m))))
      /\ (truthy_value (config_get "season" (Scalar ONone) config) = true ->
          config !! "season" = Some (Scalar (OStr (Match.season m)))).
Proof.
  unfold ModelTrainer.training_query. cbv zeta.
  destruct (truthy_value (config_get "league" (Scalar ONone) config)) eqn:Hl;
    destruct (truthy_value (config_get "season" (Scalar ONone) config)) eqn:Hs;
    rewrite !list_elem_of_In, ?filter_In, <- ?list_elem_of_In, finished_scores,
      ?(config_get_filter "league" config _ Hl),
      ?(config_get_filter "season" config _ Hs);
    intuition congruence.
Qed.

(** X16: the training query keeps the rows of the matches table in
    their order and selects exactly the matches with both scores; a league
    or a season of the configuration restricts the selection to the matches
    of that league or season when its value is truthy, and is ignored when
    it is missing, [None] or the empty string. *)
Theorem training_query_selects :
  forall (config : gmap string ConfigValue) (s : Session),
    ModelTrainer.training_query config s `sublist_of` matches s
    /\ forall m,
         m ∈ ModelTrainer.training_query config s
         <-> m ∈ matches s /\ finished m
             /\ (truthy_value (config_get "league" (Scalar ONone) config) = true ->
                 config !! "league" = Some (Scalar (OStr (Match.league m))))
             /\ (truthy_value (config_get "season" (Scalar ONone) config) = true ->
                 config !! "season" = Some (Scalar (OStr (Match.season m)))).
Proof.
  intros config s. split; [|intros m; apply training_query_elem].
  unfold ModelTrainer.training_query. cbv zeta.
  repeat case_match;
    repeat (etrans; [apply list_filter_sublist|]); done.
Qed.

Lemma get_training_data_run config (w : World) :
  ModelTrainer.training_query config (db w) <> [] ->
  exists X,
    ModelTrainer._get_training_data config w
    = (Return (X, Int64 (map match_label (ModelTrainer.training_query config (db w))),
               get_feature_columns (mkFeatureEngineer (db w))), w)
    /\ columns X = get_feature_columns (mkFeatureEngineer (db w))
    /\ nrows X = length (ModelTrainer.training_query config (db w)).
Proof.
  intros Hne.
  destruct (prepare_training_data_finished (mkFeatureEngineer (db w))
              (ModelTrainer.training_query config (db w)) Hne)
    as (X & Hrun & Hcols & Hrows).
  { apply Forall_forall. intros m Hm. by apply training_query_elem in Hm as (_ & ? & _). }
  exists X. split; [|done].
  unfold ModelTrainer._get_training_data.
  rewrite (M_bind_eq get_db _ w (db w) w eq_refl).
  destruct (ModelTrainer.training_query config (db w)) as [|m ms] eqn:Hq; [done|].
  unfold lift. by rewrite Hrun.
Qed.

(** X17: [_get_training_data] reads the database and changes nothing.
    Without a selected match it returns an empty frame, no labels and no
    columns; otherwise a frame with one row per selected match and the
    twenty-three feature columns, the class of each selected match in the
    order of the table (0 home win, 1 away win, 2 draw), and the list of
    the feature columns. *)
Theorem get_training_data_labels :
  forall (config : gmap string ConfigValue) (w : World),
    (ModelTrainer.training_query config (db w) = [] ->
     ModelTrainer._get_training_data config w
     = (Return (empty_frame, Int64 [], []), w))
    /\ (ModelTrainer.training_query config (db w) <> [] ->
        exists X,
          ModelTrainer._get_training_data config w
          = (Return (X,
                     Int64 (map match_label
                              (ModelTrainer.training_query config (db w))),
                     get_feature_columns (mkFeatureEngineer (db w))), w)
          /\ columns X = get_feature_columns (mkFeatureEngineer (db w))
          /\ nrows X = length (ModelTrainer.training_query config (db w))).
Proof.
  intros config w. split; [apply get_training_data_empty | apply get_training_data_run].
Qed.

End TrainingRuns.

Section TrainingOutcomes.
Context `{MLLibrary}.

Lemma train_model_success_inv config (w : World) n v a t w' :
  ModelTrainer.train_model config w
  = (Return (ModelTrainer.TrainingSuccess n v a t), w') ->
  exists model model_type metrics row,
    config !! "model_name" = Some n
    /\ config !! "model_type" = Some model_type
    /\ ModelTrainer.training_query config (db w) <> []
    /\ v = Datetime.strftime_version (clock (S (ticks w)))
    /\ a = m_accuracy metrics
    /\ models_dir w'
       = <[str_of n ++ "_" ++ v ++ ".pkl"
           := mkModelData model model_type
                (get_feature_columns (mkFeatureEngineer (db w))) v
                (clock (S (S (ticks w))))]> (models_dir w)
    /\ db w' = mkSession (matches (db w)) (predictions (db w))
                 (model_performance (db w) ++ [row])
    /\ ModelPerformance.model_name row = str_of n
    /\ ModelPerformance.model_version row = v
    /\ ModelPerformance.accuracy row = a
    /\ ModelPerformance.is_active row = false.
Proof.
  rewrite train_model_eq. cbv zeta.
  destruct (config_getitem "model_name" config) as [name|e0] eqn:Hname.
  2:{ repeat case_match; discriminate. }
  destruct (ModelTrainer.training_query config (db w)) as [|m0 ms] eqn:Hq.
  { rewrite get_training_data_empty by done. cbn. discriminate. }
  destruct (get_training_data_run config
              (mkWorld (db w) (models_dir w) (S (ticks w))))
    as (X & -> & _ & Hrows); [cbn [db]; by rewrite Hq|].
  destruct (nrows X =? 0)%nat; [discriminate|].
  destruct (train_test_split X _ _ _) as [[[[Xtr Xte] ytr] yte]|e]; [|discriminate].
  destruct (config_getitem "model_type" config) as [model_type|e] eqn:Htype;
    [|discriminate].
  destruct (ModelTrainer._train_model_by_type model_type Xtr ytr config)
    as [model|e]; [|discriminate].
  destruct (evaluate model Xte yte model_type) as [metrics|e]; [|discriminate].
  intros [= <- <- <- <- <-].
  eexists model, model_type, metrics, _.
  split; [by apply config_getitem_Return|].
  split; [by apply config_getitem_Return|].
  split; [done|]. split; [done|]. split; [done|]. split; [reflexivity|].
  split; [reflexivity|]. done.
Qed.

Lemma train_model_failure_world config (w : World) r w' :
  ModelTrainer.train_model config w = (r, w') ->
  (forall n v a t, r <> Return (ModelTrainer.TrainingSuccess n v a t)) ->
  db w' = db w /\ models_dir w' = models_dir w.
Proof.
  rewrite train_model_eq. cbv zeta. intros Hrun Hfail.
  repeat case_match; injection Hrun as <- <-; try done.
  exfalso. by eapply Hfail.
Qed.

Lemma prepare_match_features_trained (fe fe' : FeatureEngineer) (m : Match.t) :
  exists features,
    ModelPredictor._prepare_match_features fe m (get_feature_columns fe')
    = Return features
    /\ columns features = get_feature_columns fe'
    /\ nrows features = 1.
Proof.
  destruct (create_features_matches_frame fe m []) as [computed Hc].
  pose proof (create_features_match_columns _ _ _ _ Hc) as Hcols.
  pose proof (create_features_placeholders _ _ _ Hc) as [Hn _].
  unfold ModelPredictor._prepare_match_features. rewrite Hc, bind_Return.
  unfold getitem_list.
  destruct (select_columns_Some (get_feature_columns fe') (data computed))
    as (d' & -> & Hlabels & _).
  { fold (columns computed). rewrite Hcols.
    apply (bool_decide_unpack _). vm_compute. exact I. }
  rewrite bind_Return. eexists. split; [reflexivity|].
  split; [by rewrite columns_fillna | done].
Qed.

Lemma query_match_db match_id (s s' : Session) :
  matches s' = matches s ->
  ModelPredictor.query_match match_id s' = ModelPredictor.query_match match_id s.
Proof. unfold ModelPredictor.query_match. by intros ->. Qed.

(** X18: a model that [train_model] reports as trained can be used at
    once.  Under the name and the version of the result the artifact is
    loaded, with the model type of the configuration and the twenty-three
    feature columns; for every match of the table the features are
    prepared, one row with these columns; and [predict_match] returns the
    prediction the model makes, or fails with the text of the exception the
    model raised, and for no other reason. *)
Theorem trained_model_predicts :
  forall (config : gmap string ConfigValue) (w : World)
         (name : ConfigValue) (version : string) (accuracy : float)
         (training_time : string) (w' : World) (match_id : Z) (m : Match.t),
    ModelTrainer.train_model config w
    = (Return (ModelTrainer.TrainingSuccess name version accuracy training_time),
       w') ->
    ModelPredictor.query_match match_id (db w) = Some m ->
    exists model model_type features,
      config !! "model_type" = Some model_type
      /\ ModelPredictor._load_model (str_of name) (Some version) w'
         = (Return (model, model_type,
                    get_feature_columns (mkFeatureEngineer (db w'))), w')
      /\ ModelPredictor._prepare_match_features (mkFeatureEngineer (db w')) m
           (get_feature_columns (mkFeatureEngineer (db w')))
         = Return features
      /\ columns features = get_feature_columns (mkFeatureEngineer (db w'))
      /\ nrows features = 1
      /\ (forall r,
            ModelPredictor._make_prediction model features model_type = Return r ->
            exists p w'',
              ModelPredictor.predict_match match_id (str_of name) (Some version) w'
              = (Return p, w'')
              /\ p_prediction p = r)
      /\ (forall e,
            ModelPredictor._make_prediction model features model_type = Raise e ->
            ModelPredictor.predict_match match_id (str_of name) (Some version) w'
            = (Raise (Exc PlainException ("Prediction failed: " ++ str e)), w')).
Proof.
  intros config w name version accuracy training_time w' match_id m Hrun Hq.
  apply train_model_success_inv in Hrun
    as (model & model_type & metrics & row & _ & Htype & _ & Hv & _
        & Hdir & Hdb & _).
  destruct (prepare_match_features_trained (mkFeatureEngineer (db w'))
              (mkFeatureEngineer (db w')) m) as (features & Hprep & Hcols & Hrows).
  assert (ModelPredictor._load_model (str_of name) (Some version) w'
          = (Return (model, model_type,
                     get_feature_columns (mkFeatureEngineer (db w'))), w'))
    as Hload.
  { rewrite (load_model_file _ _ _ (str_of name ++ "_" ++ version ++ ".pkl")).
    - by rewrite Hdir, lookup_insert_eq.
    - apply model_filename_version. rewrite Hv.
      apply strftime_version_not_empty. }
  assert (ModelPredictor.query_match match_id (db w') = Some m) as Hq'.
  { rewrite <- Hq. apply query_match_db. by rewrite Hdb. }
  exists model, model_type, features.
  split; [done|]. split; [done|]. split; [done|]. split; [done|].
  split; [done|]. split.
  - intros r Hr. rewrite predict_match_eq, Hq', Hload, Hprep, Hr. eauto.
  - intros e He. by rewrite predict_match_eq, Hq', Hload, Hprep, He.
Qed.

End TrainingOutcomes.

(** ** The status, delete and activate endpoints *)

Section StatusProperties.
Context `{MLLibrary}.

Lemma filter_of_model_elem name (l : list ModelPerformance.t) r :
  r ∈ List.filter (Api.of_model name) l
  <-> r ∈ l /\ ModelPerformance.model_name r = name.
Proof. by rewrite !list_elem_of_In, filter_In, of_model_true. Qed.

Lemma filter_of_model_nil name (l : list ModelPerformance.t) :
  List.filter (Api.of_model name) l = []
  <-> forall r, r ∈ l -> ModelPerformance.model_name r <> name.
Proof.
  split.
  - intros Hnil r Hr Hname.
    assert (r ∈ List.filter (Api.of_model name) l) as Hin
      by (by apply filter_of_model_elem).
    rewrite Hnil in Hin. by apply elem_of_nil in Hin.
  - intros Hnone. destruct (List.filter (Api.of_model name) l) as [|r l'] eqn:Hf;
      [done|]. exfalso.
    assert (r ∈ r :: l') as Hin by left. rewrite <- Hf in Hin.
    apply filter_of_model_elem in Hin as [Hr Hname]. by apply (Hnone r).
Qed.

Lemma training_status_run model_name (w : World) :
  Api.get_training_status model_name w
  = (Return
       match Api.latest (List.filter (Api.of_model model_name)
                           (model_performance (db w))) with
       | Some model =>
           Api.StatusCompleted model_name (ModelPerformance.accuracy model)
             (Datetime.isoformat (ModelPerformance.training_date model))
       | None => Api.StatusTraining model_name "Model is still being trained"
       end, w).
Proof.
  unfold Api.get_training_status.
  rewrite (M_bind_eq get_db _ w (db w) w eq_refl).
  by destruct (Api.latest _).
Qed.

Lemma training_status_db model_name (w w' : World) :
  model_performance (db w') = model_performance (db w) ->
  fst (Api.get_training_status model_name w')
  = fst (Api.get_training_status model_name w).
Proof. intros Hdb. by rewrite !training_status_run, Hdb. Qed.

Lemma training_status_completed model_name (w : World) r :
  r ∈ model_performance (db w) ->
  ModelPerformance.model_name r = model_name ->
  exists b,
    b ∈ model_performance (db w)
    /\ ModelPerformance.model_name b = model_name
    /\ (forall r', r' ∈ model_performance (db w) ->
          ModelPerformance.model_name r' = model_name ->
          (Datetime.timestamp (ModelPerformance.training_date r')
           <= Datetime.timestamp (ModelPerformance.training_date b))%Z)
    /\ Api.get_training_status model_name w
       = (Return (Api.StatusCompleted model_name (ModelPerformance.accuracy b)
                    (Datetime.isoformat (ModelPerformance.training_date b))), w).
Proof.
  intros Hr Hname.
  destruct (latest_spec (List.filter (Api.of_model model_name)
                           (model_performance (db w))))
    as (b & Hlatest & Hb & Hmax).
  { intros Hnil. by apply (proj1 (filter_of_model_nil _ _) Hnil r). }
  apply filter_of_model_elem in Hb as [Hb Hbname].
  exists b. split; [done|]. split; [done|]. split.
  - intros r' Hr' Hname'. apply Hmax. by apply filter_of_model_elem.
  - by rewrite training_status_run, Hlatest.
Qed.

Lemma training_status_training model_name (w : World) :
  (forall r, r ∈ model_performance (db w) ->
             ModelPerformance.model_name r <> model_name) ->
  Api.get_training_status model_name w
  = (Return (Api.StatusTraining model_name "Model is still being trained"), w).
Proof.
  intros Hnone. rewrite training_status_run.
  by rewrite (proj2 (filter_of_model_nil _ _) Hnone).
Qed.

(** X19: the status endpoint only reads the performance table.  For a
    name without a row it answers ["training"], whether or not a training
    of that name was ever started; for a name with rows it answers
    ["completed"] with the accuracy and the date of a row of that name with
    the greatest training date. *)
Theorem training_status_reads_the_table :
  forall (model_name : string) (w : World),
    ((forall r, r ∈ model_performance (db w) ->
                ModelPerformance.model_name r <> model_name) ->
     Api.get_training_status model_name w
     = (Return (Api.StatusTraining model_name "Model is still being trained"), w))
    /\ ((exists r, r ∈ model_performance (db w)
                   /\ ModelPerformance.model_name r = model_name) ->
        exists b,
          b ∈ model_performance (db w)
          /\ ModelPerformance.model_name b = model_name
          /\ (forall r', r' ∈ model_performance (db w) ->
                ModelPerformance.model_name r' = model_name ->
                (Datetime.timestamp (ModelPerformance.training_date r')
                 <= Datetime.timestamp (ModelPerformance.training_date b))%Z)
          /\ Api.get_training_status model_name w
             = (Return (Api.StatusCompleted model_name
                          (ModelPerformance.accuracy b)
                          (Datetime.isoformat (ModelPerformance.training_date b))),
                w)).
Proof.
  intros model_name w. split; [apply training_status_training|].
  intros (r & Hr & Hname). by apply (training_status_completed _ _ r).
Qed.

(** X20: a training run that succeeds appends one inactive
    performance row with the name, the version and the accuracy of its
    result, and the status of that name is ["completed"] afterwards.  A run
    that ends in an error result, or raises, leaves the database as it was,
    so the status of every name is what it was before: a model whose
    training failed is reported as still being trained. *)
Theorem training_status_after_training :
  forall (config : gmap string ConfigValue) (w : World)
         (r : result ModelTrainer.TrainingResult) (w' : World),
    ModelTrainer.train_model config w = (r, w') ->
    match r with
    | Return (ModelTrainer.TrainingSuccess name version accuracy _) =>
        exists status,
          Api.get_training_status (str_of name) w' = (Return status, w')
          /\ Api.status_text status = "completed"
          /\ exists row,
               model_performance (db w') = (model_performance (db w) ++ [row])%list
               /\ ModelPerformance.model_name row = str_of name
               /\ ModelPerformance.model_version row = version
               /\ ModelPerformance.accuracy row = accuracy
               /\ ModelPerformance.is_active row = false
    | _ =>
        db w' = db w
        /\ forall model_name,
             fst (Api.get_training_status model_name w')
             = fst (Api.get_training_status model_name w)
    end.
Proof.
  intros config w r w' Hrun.
  assert ((forall n v a t, r <> Return (ModelTrainer.TrainingSuccess n v a t)) ->
          db w' = db w
          /\ forall model_name,
               fst (Api.get_training_status model_name w')
               = fst (Api.get_training_status model_name w)) as Hfailed.
  { intros Hfail.
    destruct (train_model_failure_world _ _ _ _ Hrun Hfail) as [Hdb _].
    split; [done|]. intros model_name. apply training_status_db. by rewrite Hdb. }
  destruct r as [[name version accuracy t|text name]|e];
    [|by apply Hfailed|by apply Hfailed].
  clear Hfailed.
  apply train_model_success_inv in Hrun
    as (model & model_type & metrics & row & _ & _ & _ & _ & _
        & _ & Hdb & Hname & Hversion & Haccuracy & Hactive).
  destruct (training_status_completed (str_of name) w' row)
    as (b & _ & _ & _ & Hstatus); [rewrite Hdb; cbn; set_solver | done |].
  eexists. split; [exact Hstatus|]. split; [done|].
  exists row. by rewrite Hdb.
Qed.

Lemma model_filename_dir model_name model_version (w w' : World) :
  models_dir w' = models_dir w ->
  fst (ModelPredictor._model_filename model_name model_version w')
  = fst (ModelPredictor._model_filename model_name model_version w).
Proof.
  intros Hdir. unfold ModelPredictor._model_filename.
  destruct model_version as [v|]; [destruct (String.eqb v "")|]; try reflexivity.
  all: unfold mbind, M_bind, listdir; cbv beta iota; rewrite Hdir;
    repeat case_match; done.
Qed.

Lemma load_model_dir model_name model_version (w w' : World) :
  models_dir w' = models_dir w ->
  fst (ModelPredictor._load_model model_name model_version w')
  = fst (ModelPredictor._load_model model_name model_version w).
Proof.
  intros Hdir.
  pose proof (model_filename_dir model_name model_version w w' Hdir) as Hfile.
  destruct (ModelPredictor._model_filename model_name model_version w)
    as [r1 w1] eqn:H1.
  destruct (ModelPredictor._model_filename model_name model_version w')
    as [r2 w2] eqn:H2.
  pose proof (model_filename_world _ _ _ _ _ H1) as ->.
  pose proof (model_filename_world _ _ _ _ _ H2) as ->.
  cbn [fst] in Hfile. subst r2. destruct r1 as [f|e].
  - rewrite (load_model_file _ _ _ _ H1), (load_model_file _ _ _ _ H2).
    by rewrite Hdir.
  - unfold ModelPredictor._load_model.
    by rewrite (M_bind_Raise _ _ _ _ _ H1), (M_bind_Raise _ _ _ _ _ H2).
Qed.

Lemma list_filter_idem {A} (f : A -> bool) (l : list A) :
  List.filter f (List.filter f l) = List.filter f l.
Proof.
  induction l as [|x l IH]; [done|]. cbn. destruct (f x) eqn:Hx; [|done].
  cbn. by rewrite Hx, IH.
Qed.

Lemma filter_of_model_other name other (l : list ModelPerformance.t) :
  other <> name ->
  List.filter (Api.of_model other)
    (List.filter (fun r => negb (Api.of_model name r)) l)
  = List.filter (Api.of_model other) l.
Proof.
  intros Hother. induction l as [|x l IH]; [done|]. cbn.
  destruct (Api.of_model name x) eqn:Hx; cbn.
  - apply of_model_true in Hx.
    rewrite (proj2 (of_model_false other x)) by congruence. done.
  - destruct (Api.of_model other x); by rewrite IH.
Qed.

Lemma delete_model_run model_name (w : World) :
  Api.delete_model model_name w
  = (Return ("Model " ++ model_name ++ " and all its predictions deleted"),
     mkWorld
       (mkSession (matches (db w))
          (List.filter (fun p => negb (String.eqb (Prediction.model_name p)
                                         model_name)) (predictions (db w)))
          (List.filter (fun r => negb (Api.of_model model_name r))
             (model_performance (db w))))
       (models_dir w) (ticks w)).
Proof. reflexivity. Qed.

(** X21: deleting a model always succeeds, also for a name that has no
    rows, and a second call changes nothing more.  Afterwards the status of
    the name is ["training"], the status of every other name is as before,
    and the model files are not touched: every artifact, also of the
    deleted name, is loaded as before. *)
Theorem deleted_model_is_still_loaded :
  forall (model_name : string) (w : World),
  exists message w',
    Api.delete_model model_name w = (Return message, w')
    /\ Api.get_training_status model_name w'
       = (Return (Api.StatusTraining model_name "Model is still being trained"),
          w')
    /\ (forall other, other <> model_name ->
          fst (Api.get_training_status other w')
          = fst (Api.get_training_status other w))
    /\ (forall name version,
          fst (ModelPredictor._load_model name version w')
          = fst (ModelPredictor._load_model name version w))
    /\ Api.delete_model model_name w' = (Return message, w').
Proof.
  intros model_name w. eexists _, _. split; [apply delete_model_run|].
  split; [|split; [|split]].
  - apply training_status_training. cbn [db model_performance].
    intros r Hr. apply list_elem_of_In, filter_In in Hr as [_ Hr].
    apply negb_true_iff in Hr. by apply of_model_false.
  - intros other Hother. rewrite !training_status_run.
    cbn [fst db model_performance]. by rewrite filter_of_model_other.
  - intros name version. by apply load_model_dir.
  - rewrite delete_model_run. cbn [db models_dir matches predictions
      model_performance ticks]. by rewrite !list_filter_idem.
Qed.

End StatusProperties.

Section EndpointRuns.
Context `{MLLibrary}.

Lemma request_dict_model_name request :
  Api.request_dict request !! "model_name"
  = Some (Scalar (OStr (Api.t_model_name request))).
Proof. unfold Api.request_dict. by rewrite lookup_insert_eq. Qed.

Lemma request_dict_model_type request :
  Api.request_dict request !! "model_type"
  = Some (Scalar (OStr (Api.t_model_type request))).
Proof.
  unfold Api.request_dict.
  rewrite lookup_insert_ne by done. by rewrite lookup_insert_eq.
Qed.

Lemma request_dict_hyperparameters request :
  Api.request_dict request !! "hyperparameters"
  = Some (Api.optional_dict (Api.t_hyperparameters request)).
Proof.
  unfold Api.request_dict.
  do 6 (rewrite lookup_insert_ne by done). by rewrite lookup_insert_eq.
Qed.

Lemma train_by_type_without_dict model_type X_train y_train config o :
  config !! "hyperparameters" = Some (Scalar o) ->
  model_type = Scalar (OStr "random_forest")
  \/ model_type = Scalar (OStr "xgboost") ->
  ModelTrainer._train_model_by_type model_type X_train y_train config
  = Raise (Exc AttributeError "object has no attribute 'get'").
Proof.
  intros Hh Htype. unfold ModelTrainer._train_model_by_type. cbv zeta.
  unfold config_get at 1 3 5 7. rewrite Hh. cbn [default from_option id].
  by destruct Htype as [-> | ->].
Qed.

(** X22: [POST /train] answers ["training"] and hands the request,
    as a dict with every field, to the trainer.  A request that leaves the
    hyperparameters out has [None] under ["hyperparameters"], which the
    default of [config.get] does not replace; so for the model types
    ["random_forest"] and ["xgboost"] the task always ends in an error
    result with the name of the request, stores no artifact and no row, and
    the status of every name stays what it was. *)
Theorem forest_needs_hyperparameters :
  forall (request : Api.TrainingRequest) (w : World),
    Api.t_hyperparameters request = None ->
    Api.t_model_type request = "random_forest"
    \/ Api.t_model_type request = "xgboost" ->
    Api.tr_status (fst (Api.train_model request)) = "training"
    /\ exists text w',
         snd (Api.train_model request) w
         = (Return (ModelTrainer.TrainingError text
                      (Scalar (OStr (Api.t_model_name request)))), w')
         /\ db w' = db w
         /\ models_dir w' = models_dir w
         /\ forall model_name,
              fst (Api.get_training_status model_name w')
              = fst (Api.get_training_status model_name w).
Proof.
  intros request w Hh Htype. split; [done|].
  cbn [snd Api.train_model].
  assert (exists text w',
            ModelTrainer.train_model (Api.request_dict request) w
            = (Return (ModelTrainer.TrainingError text
                         (Scalar (OStr (Api.t_model_name request)))), w'))
    as (text & w' & Hrun).
  { rewrite train_model_eq. cbv zeta.
    rewrite (config_getitem_Some _ _ _ (request_dict_model_name request)).
    rewrite (config_getitem_Some _ _ _ (request_dict_model_type request)).
    destruct (ModelTrainer._get_training_data _ _) as [[[[X y] fc]|e] w1];
      [|eauto].
    destruct (nrows X =? 0)%nat; [eauto|].
    destruct (train_test_split X y _ _) as [[[[Xtr Xte] ytr] yte]|e]; [|eauto].
    rewrite (train_by_type_without_dict _ _ _ _ ONone).
    - eauto.
    - by rewrite request_dict_hyperparameters, Hh.
    - destruct Htype as [-> | ->]; auto. }
  exists text, w'. split; [exact Hrun|].
  destruct (train_model_failure_world _ _ _ _ Hrun) as [Hdb Hdir]; [done|].
  split; [done|]. split; [done|].
  intros model_name. apply training_status_db. by rewrite Hdb.
Qed.

Lemma activate_keeps_rows name i (l : list ModelPerformance.t) :
  map (ModelPerformance.set_is_active false)
    (map (fun r => if (ModelPerformance.id r =? i)%Z
                   then ModelPerformance.set_is_active true r else r)
       (map (fun r => if Api.of_model name r
                      then ModelPerformance.set_is_active false r else r) l))
  = map (ModelPerformance.set_is_active false) l.
Proof.
  rewrite !map_map. apply map_ext. intros r.
  destruct (Api.of_model name r); cbn [ModelPerformance.set_is_active ModelPerformance.id];
    by destruct (_ =? _)%Z.
Qed.

Lemma deactivate_keeps_rows name (l : list ModelPerformance.t) :
  map (ModelPerformance.set_is_active false)
    (map (fun r => if Api.of_model name r
                   then ModelPerformance.set_is_active false r else r) l)
  = map (ModelPerformance.set_is_active false) l.
Proof.
  rewrite !map_map. apply map_ext. intros r. by destruct (Api.of_model name r).
Qed.

(** X23: activating a model changes nothing but [is_active] flags: the
    performance rows are the same rows in the same order up to that flag,
    and matches, predictions and model files are as before.  The answer is
    404 exactly when the table has no row of the name. *)
Theorem activate_model_changes_flags_only :
  forall (model_name : string) (w : World)
         (r : result Api.ActivateResponse) (w' : World),
    Api.activate_model model_name w = (r, w') ->
    map (ModelPerformance.set_is_active false) (model_performance (db w'))
    = map (ModelPerformance.set_is_active false) (model_performance (db w))
    /\ matches (db w') = matches (db w)
    /\ predictions (db w') = predictions (db w)
    /\ models_dir w' = models_dir w
    /\ (r = Raise (HTTPException 404 "Model not found")
        <-> forall row, row ∈ model_performance (db w) ->
                        ModelPerformance.model_name row <> model_name).
Proof.
  intros model_name w r w'.
  unfold Api.activate_model, mbind, M_bind, get_db, set_db, mret, M_ret, raise.
  cbn [db matches predictions model_performance models_dir ticks].
  destruct (Api.latest _) as [b|] eqn:Hlatest; intros [= <- <-];
    cbn [db matches predictions model_performance models_dir].
  - rewrite activate_keeps_rows. repeat split; try done.
    intros Hnone. exfalso.
    destruct (decide (List.filter (Api.of_model model_name)
                        (map (fun r => if Api.of_model model_name r
                                       then ModelPerformance.set_is_active false r
                                       else r) (model_performance (db w))) = []))
      as [Hnil|Hne]; [by rewrite Hnil in Hlatest|].
    destruct (latest_spec _ Hne) as (b' & _ & Hb' & _).
    apply deactivate_filter in Hb' as (r0 & Hr0 & Hname & _).
    by apply (Hnone r0).
  - rewrite deactivate_keeps_rows. repeat split; try done.
    intros _ row Hrow Hname.
    pose proof (deactivate_filter_elem _ _ _ Hrow Hname) as Hin.
    destruct (List.filter _ _) as [|x l] eqn:Hf; [by apply elem_of_nil in Hin|].
    destruct (latest_spec (x :: l)) as (b & Hb & _); [done|]. congruence.
Qed.

(** X24: [POST /predict] answers every failure with status 500 and a
    detail that starts with ["Prediction failed: "], and stores nothing
    then.  This includes a match that is not in the table: the 404 raised
    for it inside the [try] block is caught by the handler of the endpoint
    and answered as 500.  When the endpoint returns, it returns what
    [predict_match] returned. *)
Theorem predict_endpoint_answers_500 :
  forall (match_id : Z) (model_name : string) (model_version : option string)
         (w : World),
    (forall e w',
       Api.predict_match match_id model_name model_version w = (Raise e, w') ->
       w' = w /\ exists detail, e = HTTPException 500 ("Prediction failed: " ++ detail))
    /\ (ModelPredictor.query_match match_id (db w) = None ->
        Api.predict_match match_id model_name model_version w
        = (Raise (HTTPException 500
                    ("Prediction failed: "
                     ++ str (HTTPException 404 "Match not found"))), w))
    /\ (forall p w',
          Api.predict_match match_id model_name model_version w = (Return p, w') ->
          ModelPredictor.predict_match match_id model_name model_version w
          = (Return p, w')).
Proof.
  intros match_id model_name model_version w.
  unfold Api.predict_match, try_exceptM.
  unfold mbind at 1 2 3, M_bind at 1 2 3, get_db, raise.
  destruct (ModelPredictor.query_match match_id (db w)) as [m|] eqn:Hq.
  - destruct (ModelPredictor.predict_match match_id model_name model_version w)
      as [[p|e0] w1] eqn:Hp.
    + split; [discriminate|]. split; [discriminate|]. by intros p' w' [= <- <-].
    + apply predict_match_Raise_world in Hp as ->.
      split; [|split; discriminate]. intros e w' [= <- <-]. eauto.
  - split; [|split; [done | discriminate]]. intros e w' [= <- <-]. eauto.
Qed.

(** X25: [POST /predict/batch] never fails: it answers with the
    entries of the batch, one per requested id in the order of the ids,
    the number of requested ids and the model name. *)
Theorem batch_endpoint_always_answers :
  forall (match_ids : list Z) (model_name : string)
         (model_version : option string) (w : World),
  exists response w',
    Api.predict_matches_batch match_ids model_name model_version w
    = (Return response, w')
    /\ ModelPredictor.predict_matches_batch match_ids model_name model_version w
       = (Return (Api.b_predictions response), w')
    /\ Api.b_total_matches response = length match_ids
    /\ length (Api.b_predictions response) = length match_ids
    /\ map entry_match_id (Api.b_predictions response) = match_ids
    /\ Api.b_model_name response = model_name.
Proof.
  intros match_ids model_name model_version w.
  destruct (batch_loop_run match_ids model_name model_version [] w)
    as (entries & w' & Hloop & Hrun).
  pose proof (batch_run_ids _ _ _ _ _ _ Hrun) as Hids.
  exists (Api.mkBatchResponse entries (length match_ids) model_name), w'.
  split.
  { unfold Api.predict_matches_batch. apply try_exceptM_Return.
    unfold ModelPredictor.predict_matches_batch.
    by rewrite (M_bind_eq _ _ _ _ _ Hloop). }
  split; [exact Hloop|]. split; [done|]. split; [|done].
  cbn [Api.b_predictions].
  rewrite <- (length_map entry_match_id entries). by rewrite Hids.
Qed.

End EndpointRuns.

(** ** Examples *)

Section FurtherExamples.
#[local] Existing Instance example_library.

Lemma load_model_latest_witness :
  (@None string = None \/ @None string = Some "")
  /\ exists f d,
       models_dir three_versions_world !! f = Some d
       /\ startswith f ("m1" ++ "_") = true
       /\ endswith f ".pkl" = true
       /\ (forall g, is_Some (models_dir three_versions_world !! g) ->
                     startswith g ("m1" ++ "_") = true ->
                     endswith g ".pkl" = true -> string_le g f)
       /\ ModelPredictor._load_model "m1" None three_versions_world
          = (Return (md_model d, md_model_type d, md_feature_columns d),
             three_versions_world).
Proof.
  split; [left; reflexivity|].
  apply (load_model_latest "m1" None three_versions_world (or_introl eq_refl)).
  exists "m1_20240101_000000.pkl".
  split; [eexists; vm_compute; reflexivity|]. split; reflexivity.
Defined.

Lemma load_model_by_version_witness :
  "20240615_120000" <> ""
  /\ ModelPredictor._load_model "m1" (Some "20240615_120000") prediction_world
     = (match models_dir prediction_world
              !! ("m1" ++ "_" ++ "20240615_120000" ++ ".pkl") with
        | Some d => Return (md_model d, md_model_type d, md_feature_columns d)
        | None =>
            Raise (Exc ValueError
                     ("Model file not found: ./models/" ++ "m1" ++ "_"
                      ++ "20240615_120000" ++ ".pkl"))
        end, prediction_world).
Proof.
  assert ("20240615_120000" <> "") as Hne by discriminate.
  split; [exact Hne|].
  exact (load_model_by_version "m1" "20240615_120000" prediction_world Hne).
Defined.

Lemma failed_prediction_stores_nothing_witness :
  exists e w',
    ModelPredictor.predict_match 7 "m1" (Some "20240615_120000") prediction_world
    = (Raise e, w')
    /\ w' = prediction_world.
Proof.
  eexists _, _.
  match goal with |- ?P /\ _ =>
    assert P as Hrun by (vm_compute; reflexivity) end.
  split; [exact Hrun|].
  exact (failed_prediction_stores_nothing _ _ _ _ _ _ Hrun).
Defined.

Lemma predict_match_stores_one_row_witness :
  exists p w' m row,
    ModelPredictor.predict_match 1 "m1" (Some "20240615_120000") prediction_world
    = (Return p, w')
    /\ ModelPredictor.query_match 1 (db prediction_world) = Some m
    /\ db w' = mkSession (matches (db prediction_world))
                 (predictions (db prediction_world) ++ [row])
                 (model_performance (db prediction_world))
    /\ models_dir w' = models_dir prediction_world
    /\ Prediction.id row = p_prediction_id p
    /\ Prediction.model_version row = Some "20240615_120000"
    /\ p_home_team p = Match.home_team_name m.
Proof.
  destruct (ModelPredictor.predict_match 1 "m1" (Some "20240615_120000")
              prediction_world) as [[p|e] w'] eqn:Hrun;
    [|exfalso; vm_compute in Hrun; discriminate].
  destruct (predict_match_stores_one_row _ _ _ _ _ _ Hrun)
    as (m & row & Hq & _ & Hdb & Hdir & Hid & _ & _ & _ & Hv & _ & _ & _ & _ & _
        & _ & Hhome & _).
  exists p, w', m, row. auto 10.
Defined.

Lemma neural_network_confidence_witness :
  eq_str (Scalar (OStr "neural_network")) "neural_network" = true
  /\ exists r,
       ModelPredictor._make_prediction [0.5; 0.3; 0.2]%float empty_frame
         (Scalar (OStr "neural_network")) = Return r
       /\ ((r_predicted_outcome r = "H"
            /\ r_overall_confidence r = r_home_win_probability r)
           \/ (r_predicted_outcome r = "A"
               /\ r_overall_confidence r = r_away_win_probability r)
           \/ (r_predicted_outcome r = "D"
               /\ r_overall_confidence r = r_draw_probability r)).
Proof.
  split; [reflexivity|]. eexists.
  match goal with |- ?P /\ _ =>
    assert P as Hrun by (vm_compute; reflexivity) end.
  split; [exact Hrun|].
  exact (neural_network_confidence _ _ (Scalar (OStr "neural_network")) _
           eq_refl Hrun).
Defined.

Lemma make_prediction_reads_three_classes_witness :
  @predict_proba example_library [0.5; 0.5]%float
    (Scalar (OStr "random_forest")) empty_frame
  = Return [0.5; 0.5]%float
  /\ exists e,
       ModelPredictor._make_prediction [0.5; 0.5]%float empty_frame
         (Scalar (OStr "random_forest")) = Raise e.
Proof.
  split; [reflexivity|].
  apply (proj1 (@make_prediction_reads_three_classes example_library
                  [0.5; 0.5]%float empty_frame
                  (Scalar (OStr "random_forest")) [0.5; 0.5]%float eq_refl)).
  cbn [length]. lia.
Defined.

Lemma trained_model_predicts_witness :
  exists name version accuracy training_time w' model model_type features,
    ModelTrainer.train_model forest_config prediction_world
    = (Return (ModelTrainer.TrainingSuccess name version accuracy training_time),
       w')
    /\ ModelPredictor.query_match 2 (db prediction_world) = Some accrington_barrow
    /\ forest_config !! "model_type" = Some model_type
    /\ ModelPredictor._load_model (str_of name) (Some version) w'
       = (Return (model, model_type,
                  get_feature_columns (mkFeatureEngineer (db w'))), w')
    /\ ModelPredictor._prepare_match_features (mkFeatureEngineer (db w'))
         accrington_barrow (get_feature_columns (mkFeatureEngineer (db w')))
       = Return features
    /\ nrows features = 1.
Proof.
  destruct (ModelTrainer.train_model forest_config prediction_world)
    as [[[name version accuracy training_time|text name]|e] w'] eqn:Hrun;
    [|exfalso; vm_compute in Hrun; discriminate
     |exfalso; vm_compute in Hrun; discriminate].
  destruct (trained_model_predicts _ _ _ _ _ _ _ 2 accrington_barrow Hrun eq_refl)
    as (model & model_type & features & Htype & Hload & Hprep & _ & Hrows & _).
  exists name, version, accuracy, training_time, w', model, model_type, features.
  split; [reflexivity|]. split; [reflexivity|]. split; [exact Htype|].
  split; [exact Hload|]. split; [exact Hprep | exact Hrows].
Defined.

Lemma training_status_after_training_witness :
  exists text w',
    ModelTrainer.train_model svm_config prediction_world
    = (Return (ModelTrainer.TrainingError text (Scalar (OStr "rf"))), w')
    /\ db w' = db prediction_world
    /\ forall model_name,
         fst (Api.get_training_status model_name w')
         = fst (Api.get_training_status model_name prediction_world).
Proof.
  eexists _, _.
  match goal with |- ?P /\ _ =>
    assert P as Hrun by (vm_compute; reflexivity) end.
  split; [exact Hrun|].
  exact (training_status_after_training _ _ _ _ Hrun).
Defined.

Lemma forest_needs_hyperparameters_witness :
  Api.t_hyperparameters forest_request = None
  /\ (Api.t_model_type forest_request = "random_forest"
      \/ Api.t_model_type forest_request = "xgboost")
  /\ Api.tr_status (fst (Api.train_model forest_request)) = "training"
  /\ exists text w',
       snd (Api.train_model forest_request) prediction_world
       = (Return (ModelTrainer.TrainingError text
                    (Scalar (OStr (Api.t_model_name forest_request)))), w')
       /\ db w' = db prediction_world
       /\ models_dir w' = models_dir prediction_world
       /\ forall model_name,
            fst (Api.get_training_status model_name w')
            = fst (Api.get_training_status model_name prediction_world).
Proof.
  split; [reflexivity|]. split; [left; reflexivity|].
  exact (forest_needs_hyperparameters forest_request prediction_world eq_refl
           (or_introl eq_refl)).
Defined.

Lemma activate_model_changes_flags_only_witness :
  exists r w',
    Api.activate_model "m1" registry_world = (r, w')
    /\ map (ModelPerformance.set_is_active false) (model_performance (db w'))
       = map (ModelPerformance.set_is_active false)
           (model_performance (db registry_world))
    /\ matches (db w') = matches (db registry_world)
    /\ predictions (db w') = predictions (db registry_world)
    /\ models_dir w' = models_dir registry_world
    /\ (r = Raise (HTTPException 404 "Model not found")
        <-> forall row, row ∈ model_performance (db registry_world) ->
                        ModelPerformance.model_name row <> "m1").
Proof.
  destruct (Api.activate_model "m1" registry_world) as [r w'] eqn:Hrun.
  exists r, w'. split; [reflexivity|].
  exact (activate_model_changes_flags_only _ _ _ _ Hrun).
Defined.

End FurtherExamples.
